(** * GutenOCR-Test: a shallow embedding of the document pipeline

    The development follows the Python modules of the repository:

    - [gutenocr_engine.py]            (prompt selection, [process_image],
                                       [batch_process]);
    - [docling_gutenocr_combined.py]  ([process_document], [_merge_results],
                                       [batch_process]);
    - [file_processor.py]             ([discover_images], [save_results],
                                       [get_statistics], the individual
                                       files and the summary report);

    and, above them, the constructors and the handlers of the two Gradio
    front ends, [gradio_ui.py] and [docling_gradio_ui.py], without the
    layout of the pages.

    Python values are a small universe [pyval]; a dict is an association
    list in insertion order (the order of [keys()] decides the CSV header).
    Strings are sequences of one-byte characters: [len] is [String.length]
    and [sorted] compares them lexicographically.

    Code that can raise lives in the monad [M]: a state (the log of
    external effects and the clock read by [datetime.now()]) threaded
    through a computation that ends in a value or in an exception.  The
    vision-language model, the image loader, the Docling converter and the
    file system are oracles gathered in the record [runtime].  Calls to
    [logger] have no effect on any value and are left out.  [except
    Exception] is modelled as catching every [exn]; asynchronous
    interrupts are outside the model.

    Two conventions about the environment: a glob pattern is matched
    case-sensitively, as pathlib does on POSIX; and what the converter
    hands over (metadata, table data) is plain data, so [json.dump]
    can encode every result. *)

From Stdlib Require Import List String Ascii ZArith Bool Arith Lia.
From Stdlib Require Import Sorted Permutation Mergesort DecimalString.
Import ListNotations.
Set Warnings "-register-all".
Local Open Scope list_scope.
Local Open Scope string_scope.

(* ================================================================== *)
(** * Python values                                                    *)
(* ================================================================== *)

Inductive pyval : Type :=
| PNone
| PBool (b : bool)
| PInt (z : Z)
| PStr (s : string)
| PList (l : list pyval)
| PDict (d : list (string * pyval)).

Definition pydict : Type := list (string * pyval).

(** Python truthiness ([bool(v)]). *)
Definition truthy (v : pyval) : bool :=
  match v with
  | PNone => false
  | PBool b => b
  | PInt z => negb (z =? 0)%Z
  | PStr s => negb (s =? "")
  | PList l => match l with [] => false | _ => true end
  | PDict d => match d with [] => false | _ => true end
  end.

(** [type(v).__name__], used in the messages of dynamic type errors. *)
Definition type_name (v : pyval) : string :=
  match v with
  | PNone => "NoneType"
  | PBool _ => "bool"
  | PInt _ => "int"
  | PStr _ => "str"
  | PList _ => "list"
  | PDict _ => "dict"
  end.

(** ** Dictionaries *)

Fixpoint dict_lookup (d : pydict) (k : string) : option pyval :=
  match d with
  | [] => None
  | (k', v) :: d' => if k' =? k then Some v else dict_lookup d' k
  end.

(** [d.get(k, default)] *)
Definition dict_get_or (d : pydict) (k : string) (default : pyval) : pyval :=
  match dict_lookup d k with
  | Some v => v
  | None => default
  end.

(** [d.get(k)] *)
Definition dict_get (d : pydict) (k : string) : pyval :=
  dict_get_or d k PNone.

(** [d[k] = v]: an existing key keeps its position, a new one goes last. *)
Fixpoint dict_set (d : pydict) (k : string) (v : pyval) : pydict :=
  match d with
  | [] => [(k, v)]
  | (k', v') :: d' =>
      if k' =? k then (k', v) :: d' else (k', v') :: dict_set d' k v
  end.

(** [d.keys()] *)
Definition dict_keys (d : pydict) : list string := map fst d.

(** [d[outer][inner] = v] for a nested dict stored under [outer]. *)
Definition dict_set_in (d : pydict) (outer inner : string) (v : pyval)
  : pydict :=
  match dict_lookup d outer with
  | Some (PDict m) => dict_set d outer (PDict (dict_set m inner v))
  | _ => d
  end.

(** ** Strings *)

Definition is_lower (c : ascii) : bool :=
  let n := nat_of_ascii c in ((97 <=? n)%nat && (n <=? 122)%nat)%bool.

Definition upper_ascii (c : ascii) : ascii :=
  if is_lower c then ascii_of_nat (nat_of_ascii c - 32) else c.

(** [s.upper()] *)
Fixpoint upper (s : string) : string :=
  match s with
  | EmptyString => EmptyString
  | String c s' => String (upper_ascii c) (upper s')
  end.

(** [name.endswith(suffix)]: some tail of [name] is [suffix]. *)
Fixpoint ends_with (suffix name : string) : bool :=
  if name =? suffix then true
  else match name with
       | EmptyString => false
       | String _ rest => ends_with suffix rest
       end.

(** [needle in hay] *)
Definition contains (needle hay : string) : bool :=
  match index 0 needle hay with
  | Some _ => true
  | None => false
  end.

Definition string_of_nat (n : nat) : string :=
  NilEmpty.string_of_uint (Nat.to_uint n).

Definition string_of_Z (z : Z) : string :=
  NilEmpty.string_of_int (Z.to_int z).

(** ["sep".join(parts)] on strings. *)
Fixpoint join (sep : string) (parts : list string) : string :=
  match parts with
  | [] => ""
  | [p] => p
  | p :: rest => p ++ sep ++ join sep rest
  end.

(** [c * n] for a one-character string. *)
Fixpoint repeat_string (c : string) (n : nat) : string :=
  match n with
  | O => ""
  | S n' => c ++ repeat_string c n'
  end.

(* ================================================================== *)
(** * Exceptions, effects and the monad                                *)
(* ================================================================== *)

Inductive exn_class : Type :=
| TypeError
| AttributeError
| ValueError
| IndexError
| ZeroDivisionError
| UnboundLocalError
| OSError
| RuntimeError.

(** An exception: its class and [str(e)]. *)
Record exn : Type := Exn { exn_cls : exn_class; exn_msg : string }.

Inductive file_content : Type :=
| FJson (doc : pyval)
| FText (chunks : list string)
| FCsv (rows : list (list pyval)).

(** External effects, in the order they happen. *)
Inductive event : Type :=
| EvConvert (path : string)
| EvImageOpen (path : string)
| EvGenerate (path prompt : string) (max_new_tokens : Z)
| EvWrite (path : string) (content : file_content).

Record state : Type := State { events : list event; clock : nat }.

Definition M (A : Type) : Type := state -> (exn + A) * state.

Definition ret {A} (a : A) : M A := fun st => (inr a, st).

Definition raise {A} (e : exn) : M A := fun st => (inl e, st).

Definition bind {A B} (m : M A) (k : A -> M B) : M B :=
  fun st =>
    match m st with
    | (inl e, st') => (inl e, st')
    | (inr a, st') => k a st'
    end.

Notation "x <- m ;; k" := (bind m (fun x => k))
  (at level 61, m at next level, right associativity).
Notation "m ;;; k" := (bind m (fun _ => k))
  (at level 61, right associativity).

(** [try: m  except Exception as e: h e] *)
Definition try_except {A} (m : M A) (h : exn -> M A) : M A :=
  fun st =>
    match m st with
    | (inl e, st') => h e st'
    | (inr a, st') => (inr a, st')
    end.

Definition emit (ev : event) : M unit :=
  fun st => (inr tt, State ((events st ++ [ev])%list) (clock st)).

(** [datetime.now()]: reads the clock, which then moves on. *)
Definition now : M nat :=
  fun st => (inr (clock st), State (events st) (S (clock st))).

(** Lifts the outcome of an oracle into the monad. *)
Definition lift {A} (r : exn + A) : M A :=
  match r with
  | inl e => raise e
  | inr a => ret a
  end.

Fixpoint mapM {A B} (f : A -> M B) (l : list A) : M (list B) :=
  match l with
  | [] => ret []
  | a :: l' => b <- f a ;; bs <- mapM f l' ;; ret (b :: bs)
  end.

(** ** Dynamic typing *)

(** [v.get]: only dicts have the method. *)
Definition as_dict (v : pyval) : M pydict :=
  match v with
  | PDict d => ret d
  | _ => raise (Exn AttributeError
                  ("'" ++ type_name v ++ "' object has no attribute 'get'"))
  end.

Fixpoint chars (s : string) : list pyval :=
  match s with
  | EmptyString => []
  | String c s' => PStr (String c EmptyString) :: chars s'
  end.

(** [for x in v] *)
Definition py_iter (v : pyval) : M (list pyval) :=
  match v with
  | PList l => ret l
  | PStr s => ret (chars s)
  | PDict d => ret (map PStr (dict_keys d))
  | _ => raise (Exn TypeError
                  ("'" ++ type_name v ++ "' object is not iterable"))
  end.

(** [len(v)] *)
Definition py_len (v : pyval) : M Z :=
  match v with
  | PStr s => ret (Z.of_nat (String.length s))
  | PList l => ret (Z.of_nat (List.length l))
  | PDict d => ret (Z.of_nat (List.length d))
  | _ => raise (Exn TypeError
                  ("object of type '" ++ type_name v ++ "' has no len()"))
  end.

(** ["sep".join(items)]: every item has to be a [str]. *)
Fixpoint py_join_from (i : nat) (items : list pyval) : M (list string) :=
  match items with
  | [] => ret []
  | PStr s :: rest => ss <- py_join_from (S i) rest ;; ret (s :: ss)
  | v :: _ =>
      raise (Exn TypeError
               ("sequence item " ++ string_of_nat i
                ++ ": expected str instance, " ++ type_name v ++ " found"))
  end.

Definition py_join (sep : string) (items : list pyval) : M string :=
  ss <- py_join_from 0 items ;; ret (join sep ss).

(** [l[0]] *)
Definition index0 {A} (l : list A) : M A :=
  match l with
  | a :: _ => ret a
  | [] => raise (Exn IndexError "list index out of range")
  end.

(** Lookup in a dict literal whose values all have the same type. *)
Fixpoint assoc {A} (l : list (string * A)) (k : string) : option A :=
  match l with
  | [] => None
  | (k', a) :: l' => if k' =? k then Some a else assoc l' k
  end.

(* ================================================================== *)
(** * The runtime: external collaborators                              *)
(* ================================================================== *)

(** A table of a converted document: [export_to_dataframe().to_dict()]
    when the attribute exists, and the [caption] attribute when it does. *)
Record docling_table : Type := DoclingTable {
  tbl_dataframe : option (exn + pyval);
  tbl_caption : option pyval
}.

(** [conv_result.document] as [_process_with_docling] looks at it. *)
Record docling_document : Type := DoclingDocument {
  doc_markdown : exn + string;
  doc_pages : option nat;
  doc_tables : option (list docling_table);
  doc_metadata : option pyval
}.

(** A directory entry. *)
Inductive fsnode : Type :=
| File (name : string)
| Dir (name : string) (children : list fsnode).

(** A float the program builds; the runtime formats it. *)
Inductive pynum : Type :=
| NInt (z : Z)
| NTrueDiv (a b : Z)
| NMul (x : pynum) (k : Z).

(** Every oracle sees the effects that happened before the call, so the
    environment may answer differently from one call to the next. *)
Record runtime : Type := Runtime {
  (** [Image.open(path).convert("RGB")] *)
  rt_image_open : list event -> string -> exn + unit;
  (** chat template, vision preprocessing, tokenizer and the move to the
      device: the batch of [input_ids] for one image and one prompt *)
  rt_encode : list event -> string -> string -> exn + list (list Z);
  (** [model.generate] on those inputs with [max_new_tokens] *)
  rt_generate : list event -> string -> string -> Z -> exn + list (list Z);
  (** [processor.batch_decode] *)
  rt_batch_decode : list event -> list (list Z) -> exn + list string;
  (** [docling_converter.convert(path)] *)
  rt_convert : list event -> string -> exn + docling_document;
  (** the entries below a directory *)
  rt_tree : list event -> string -> list fsnode;
  (** [open(path, 'w')]: [None] when the file could be opened *)
  rt_open_w : list event -> string -> option exn;
  (** [datetime.isoformat()] and [strftime("%Y%m%d_%H%M%S")] of a clock value *)
  rt_isoformat : nat -> string;
  rt_strftime : nat -> string;
  (** the order in which a set of strings is iterated; it depends on the
      hash seed of the interpreter *)
  rt_iter_set : list string -> list string;
  (** [repr] of a value *)
  rt_repr : pyval -> string;
  (** [format(x, ".2f")] of a float *)
  rt_format_2f : pynum -> string
}.

(** An oracle call: logged first, then answered from the history. *)
Definition call {A} (ev : event) (oracle : list event -> exn + A) : M A :=
  fun st =>
    let st' := State ((events st ++ [ev])%list) (clock st) in
    (oracle (events st), st').

(** An oracle that is consulted without leaving a mark in the log. *)
Definition ask {A} (oracle : list event -> A) : M A :=
  fun st => (inr (oracle (events st)), st).

(** [str(v)] *)
Definition py_str (rt : runtime) (v : pyval) : string :=
  match v with
  | PStr s => s
  | PNone => "None"
  | PBool true => "True"
  | PBool false => "False"
  | PInt z => string_of_Z z
  | PList _ | PDict _ => rt_repr rt v
  end.

(** [open(path, 'w')] followed by the body of the [with] block; [content]
    is what the body had written when the block was left, and [outcome]
    how it was left.  The file is closed, and so exists, either way. *)
Definition with_open_w (rt : runtime) (path : string)
    (content : file_content) (outcome : option exn) : M unit :=
  o <- ask (fun h => rt_open_w rt h path) ;;
  match o with
  | Some e => raise e
  | None =>
      emit (EvWrite path content) ;;;
      match outcome with
      | Some e => raise e
      | None => ret tt
      end
  end.

(** [Path(dir) / name], as a string; [dir] is the string of a [Path]. *)
Definition path_join (dir name : string) : string :=
  if dir =? "." then name
  else if dir =? "/" then "/" ++ name
  else dir ++ "/" ++ name.

(* ================================================================== *)
(** * gutenocr_engine.py                                               *)
(* ================================================================== *)

Module GutenOCREngine.

Record t : Type := Engine {
  model_id : string;
  device : string;
  use_cpu : bool
}.

Definition default_prompt : string := "Read all text in the image.".

(** The dict literal of [_generate_prompt]. *)
Definition prompts : list (string * list (string * string)) :=
  [ ("reading",
     [ ("TEXT", "Read all text in the image and return a single TEXT string, linearized left-to-right/top-to-bottom.");
       ("TEXT2D", "Return a layout-sensitive TEXT2D representation of the image.");
       ("LINES", "Return line-by-line OCR as LINES with bounding boxes.");
       ("WORDS", "Return word-by-word OCR as WORDS with bounding boxes.");
       ("PARAGRAPHS", "Return paragraph-wise OCR as PARAGRAPHS with bounding boxes.");
       ("LATEX", "Extract all LaTeX expressions with bounding boxes.") ]);
    ("detection",
     [ ("BOX", "Highlight all text regions in the image by returning their bounding boxes as a JSON array.") ]);
    ("localized_reading",
     [ ("TEXT", "What does it say in the specified region of the image?") ]);
    ("conditional_detection",
     [ ("BOX", "Find and return bounding boxes for the specified text query.") ]) ].

(** [prompts.get(task_type, {}).get(output_format, "Read all text in the
    image.")] *)
Definition _generate_prompt (task_type output_format : string) : string :=
  let inner :=
    match assoc prompts task_type with
    | Some d => d
    | None => []
    end in
  match assoc inner output_format with
  | Some s => s
  | None => default_prompt
  end.

Section WithRuntime.
Variable rt : runtime.

(** [inputs.input_ids] where the generated ids are trimmed.  With
    [use_cpu] the block "Move to device" has rebound [inputs] to a plain
    dict of tensors, and a dict has no such attribute. *)
Definition inputs_input_ids (self : t) (input_ids : list (list Z))
  : M (list (list Z)) :=
  if use_cpu self
  then raise (Exn AttributeError
                "'dict' object has no attribute 'input_ids'")
  else ret input_ids.

(** The [try] block of [process_image]. *)
Definition process_image_try (self : t) (image_path task_type
    output_format : string) (max_new_tokens : Z)
    (custom_prompt : option string) : M pydict :=
  call (EvImageOpen image_path) (fun h => rt_image_open rt h image_path) ;;;
  let prompt :=
    match custom_prompt with
    | Some p => if truthy (PStr p) then p
                else _generate_prompt task_type output_format
    | None => _generate_prompt task_type output_format
    end in
  input_ids <- ask (fun h => rt_encode rt h image_path prompt) ;;
  input_ids <- lift input_ids ;;
  generated_ids <-
    call (EvGenerate image_path prompt max_new_tokens)
         (fun h => rt_generate rt h image_path prompt max_new_tokens) ;;
  input_ids <- inputs_input_ids self input_ids ;;
  let generated_ids_trimmed :=
    map (fun io => skipn (List.length (fst io)) (snd io))
        (combine input_ids generated_ids) in
  output_text <- ask (fun h => rt_batch_decode rt h generated_ids_trimmed) ;;
  output_text <- lift output_text ;;
  text <- index0 output_text ;;
  ret [ ("success", PBool true);
        ("image_path", PStr image_path);
        ("task_type", PStr task_type);
        ("output_format", PStr output_format);
        ("text", PStr text);
        ("prompt", PStr prompt) ].

(** The [except Exception as e] block of [process_image]. *)
Definition process_image_except (image_path : string) (e : exn)
  : M pydict :=
  ret [ ("success", PBool false);
        ("image_path", PStr image_path);
        ("error", PStr (exn_msg e)) ].

Definition process_image (self : t) (image_path task_type
    output_format : string) (max_new_tokens : Z)
    (custom_prompt : option string) : M pydict :=
  try_except
    (process_image_try self image_path task_type output_format
       max_new_tokens custom_prompt)
    (process_image_except image_path).

Definition batch_process (self : t) (image_paths : list string)
    (task_type output_format : string) (max_new_tokens : Z)
  : M (list pydict) :=
  mapM (fun image_path =>
          process_image self image_path task_type output_format
            max_new_tokens None)
       image_paths.

End WithRuntime.
End GutenOCREngine.

(* ================================================================== *)
(** * file_processor.py                                                *)
(* ================================================================== *)

(** The order of [sorted] on strings. *)
Module StringOrder <: Orders.TotalLeBool.
Definition t : Type := string.
Definition leb : string -> string -> bool := String.leb.
Definition leb_total : forall s1 s2 : string,
    leb s1 s2 = true \/ leb s2 s1 = true := String.leb_total.
End StringOrder.

Module StringSort := Sort StringOrder.

(** [sorted(l)] for a list of strings. *)
Definition sorted (l : list string) : list string := StringSort.sort l.

Definition nl : string := String (ascii_of_nat 10) "".

Module FileProcessor.

Record t : Type := Processor {
  input_dir : string;
  output_dir : string
}.

Definition SUPPORTED_EXTENSIONS : list string :=
  [".png"; ".jpg"; ".jpeg"; ".tiff"; ".tif"; ".bmp"; ".gif"; ".webp"; ".pdf"].

Definition node_name (n : fsnode) : string :=
  match n with
  | File name => name
  | Dir name _ => name
  end.

(** [dir.glob("*" + suffix)]: the entries of the directory itself whose
    name ends with the suffix.  A suffix from the extension list holds no
    pattern character, and matching is case-sensitive as on POSIX. *)
Definition glob (dir : string) (entries : list fsnode) (suffix : string)
  : list string :=
  map (path_join dir) (filter (ends_with suffix) (map node_name entries)).

(** [dir.rglob("*" + suffix)]: the same at every depth. *)
Fixpoint rglob_node (suffix : string) (n : fsnode) (dir : string)
  : list string :=
  match n with
  | File name =>
      if ends_with suffix name then [path_join dir name] else []
  | Dir name children =>
      ((if ends_with suffix name then [path_join dir name] else [])
       ++ flat_map (fun c => rglob_node suffix c (path_join dir name))
            children)%list
  end.

Definition rglob (dir : string) (entries : list fsnode) (suffix : string)
  : list string :=
  flat_map (fun c => rglob_node suffix c dir) entries.

Section WithRuntime.
Variable rt : runtime.

Definition discover_images (self : t) (recursive : bool) : M (list string) :=
  entries <- ask (fun h => rt_tree rt h (input_dir self)) ;;
  let scan := if recursive then rglob else glob in
  let image_files :=
    flat_map
      (fun ext =>
         (scan (input_dir self) entries ext
          ++ scan (input_dir self) entries (upper ext))%list)
      (rt_iter_set rt SUPPORTED_EXTENSIONS) in
  ret (sorted image_files).

(** What the [txt] branch of [save_results] writes for one result. *)
Definition txt_chunks (result : pydict) : list string :=
  [ repeat_string "=" 80 ++ nl;
    "File: " ++ py_str rt (dict_get_or result "image_path" (PStr "Unknown"))
      ++ nl;
    "Status: "
      ++ (if truthy (dict_get result "success") then "Success" else "Failed")
      ++ nl;
    (if truthy (dict_get result "success")
     then "Text:" ++ nl ++ py_str rt (dict_get_or result "text" (PStr ""))
            ++ nl
     else "Error: "
            ++ py_str rt (dict_get_or result "error" (PStr "Unknown error"))
            ++ nl);
    repeat_string "=" 80 ++ nl ++ nl ].

(** [rowdict.keys() - fieldnames] *)
Definition wrong_fields (fieldnames : list string) (rowdict : pydict)
  : list string :=
  filter (fun k => negb (existsb (String.eqb k) fieldnames))
         (dict_keys rowdict).

(** [DictWriter._dict_to_list] with [extrasaction="raise"] and
    [restval=""]. *)
Definition _dict_to_list (fieldnames : list string) (rowdict : pydict)
  : exn + list pyval :=
  match wrong_fields fieldnames rowdict with
  | [] => inr (map (fun key => dict_get_or rowdict key (PStr "")) fieldnames)
  | w =>
      inl (Exn ValueError
             ("dict contains fields not in fieldnames: "
              ++ join ", " (map (fun k => rt_repr rt (PStr k)) w)))
  end.

(** [DictWriter.writerows]: rows are written one at a time, so the rows
    before an offending dict have reached the file when it raises. *)
Fixpoint writerows (fieldnames : list string) (rowdicts : list pydict)
  : list (list pyval) * option exn :=
  match rowdicts with
  | [] => ([], None)
  | r :: rest =>
      match _dict_to_list fieldnames r with
      | inl e => ([], Some e)
      | inr row =>
          let (rows, o) := writerows fieldnames rest in (row :: rows, o)
      end
  end.

(** The body of the [with] block of the [csv] branch. *)
Definition csv_body (results : list pydict)
  : list (list pyval) * option exn :=
  match results with
  | [] => ([], None)
  | first :: _ =>
      let fieldnames := dict_keys first in
      let (rows, o) := writerows fieldnames results in
      (map PStr fieldnames :: rows, o)
  end.

Definition save_results (self : t) (results : list pydict)
    (format : string) (timestamp : bool) : M string :=
  filename <-
    (if timestamp
     then (n <- now ;; ret ("ocr_results_" ++ rt_strftime rt n))
     else ret "ocr_results") ;;
  if format =? "json" then
    let output_path := path_join (output_dir self) (filename ++ ".json") in
    with_open_w rt output_path (FJson (PList (map PDict results))) None ;;;
    ret output_path
  else if format =? "txt" then
    let output_path := path_join (output_dir self) (filename ++ ".txt") in
    with_open_w rt output_path (FText (flat_map txt_chunks results)) None ;;;
    ret output_path
  else if format =? "csv" then
    let output_path := path_join (output_dir self) (filename ++ ".csv") in
    let (rows, outcome) := csv_body results in
    with_open_w rt output_path (FCsv rows) outcome ;;;
    ret output_path
  else
    raise (Exn UnboundLocalError
             "cannot access local variable 'output_path' where it is not associated with a value").

(** [a / b] on ints. *)
Definition py_truediv (a b : Z) : M pynum :=
  if (b =? 0)%Z then raise (Exn ZeroDivisionError "division by zero")
  else ret (NTrueDiv a b).

(** [f"{x:.2f}"]; an int is exact below 2^53. *)
Definition py_format_2f (x : pynum) : string :=
  match x with
  | NInt z => string_of_Z z ++ ".00"
  | _ => rt_format_2f rt x
  end.

Definition succeeded (r : pydict) : bool := truthy (dict_get r "success").

Definition get_statistics (self : t) (results : list pydict) : M pydict :=
  let total := Z.of_nat (List.length results) in
  let successful := Z.of_nat (List.length (filter succeeded results)) in
  let failed := (total - successful)%Z in
  lens <- mapM (fun r => py_len (dict_get_or r "text" (PStr "")))
            (filter succeeded results) ;;
  let total_chars := fold_left Z.add lens 0%Z in
  avg_chars <-
    (if (successful >? 0)%Z then py_truediv total_chars successful
     else ret (NInt 0)) ;;
  success_rate <-
    (if (total >? 0)%Z
     then (q <- py_truediv successful total ;;
           ret (py_format_2f (NMul q 100) ++ "%"))
     else ret "0%") ;;
  n <- now ;;
  ret [ ("total_images", PInt total);
        ("successful", PInt successful);
        ("failed", PInt failed);
        ("success_rate", PStr success_rate);
        ("total_characters", PInt total_chars);
        ("average_characters_per_image", PStr (py_format_2f avg_chars));
        ("timestamp", PStr (rt_isoformat rt n)) ].

End WithRuntime.
End FileProcessor.

(* ================================================================== *)
(** * docling_gutenocr_combined.py                                     *)
(* ================================================================== *)

(** A [try] block whose statements update a local dict.  When a statement
    raises, the handler finds the dict as the last completed statement
    left it. *)
Fixpoint run_statements (stmts : list (pydict -> M pydict))
    (result : pydict) : M (pydict * option exn) :=
  match stmts with
  | [] => ret (result, None)
  | stmt :: rest =>
      fun st =>
        match stmt result st with
        | (inl e, st') => (inr (result, Some e), st')
        | (inr result', st') => run_statements rest result' st'
        end
  end.

Module DoclingGutenOCRProcessor.

(** [use_docling] is the attribute after [__init__]: requested, importable
    and initialised. *)
Record t : Type := Combined {
  gutenocr : GutenOCREngine.t;
  use_docling : bool;
  file_processor : FileProcessor.t
}.

Definition banner_structure : string :=
  "=== DOCUMENT STRUCTURE (Docling) ===" ++ nl.
Definition banner_tables : string :=
  nl ++ "=== EXTRACTED TABLES ===" ++ nl.
Definition banner_ocr : string :=
  nl ++ "=== OCR CONTENT (GutenOCR) ===" ++ nl.

Section WithRuntime.
Variable rt : runtime.

(** One table of the converted document, as [_process_with_docling]
    records it. *)
Definition table_entry (table : docling_table) : M pyval :=
  data <-
    match tbl_dataframe table with
    | Some r => lift r
    | None => ret (PDict [])
    end ;;
  ret (PDict [ ("data", data);
               ("caption",
                match tbl_caption table with
                | Some c => c
                | None => PStr ""
                end) ]).

(** The [try] block of [_process_with_docling]. *)
Definition _process_with_docling_try (file_path : string)
    (extract_tables : bool) : M pydict :=
  document <- call (EvConvert file_path)
                (fun h => rt_convert rt h file_path) ;;
  text <- lift (doc_markdown document) ;;
  let pages :=
    match doc_pages document with
    | Some n => Z.of_nat n
    | None => 0%Z
    end in
  let metadata :=
    match doc_metadata document with
    | Some m => m
    | None => PDict []
    end in
  tables <-
    match doc_tables document with
    | Some ts => if extract_tables then mapM table_entry ts else ret []
    | None => ret []
    end ;;
  ret [ ("text", PStr text);
        ("structure", PDict [ ("pages", PInt pages);
                              ("elements", PList []) ]);
        ("tables", PList tables);
        ("metadata", metadata) ].

Definition _process_with_docling (self : t) (file_path : string)
    (extract_tables : bool) : M pydict :=
  try_except
    (_process_with_docling_try file_path extract_tables)
    (fun e => ret [ ("error", PStr (exn_msg e)) ]).

(** The lines [_merge_results] appends for the table numbered [idx]. *)
Definition merge_table (idx : nat) (table : pyval) : M (list pyval) :=
  t <- as_dict table ;;
  ret ([ PStr (nl ++ "Table " ++ string_of_nat idx ++ ":") ]
       ++ (if truthy (dict_get t "caption")
           then [ PStr ("Caption: " ++ py_str rt (dict_get t "caption")) ]
           else [])
       ++ [ PStr (py_str rt (dict_get_or t "data" (PDict [])));
            PStr nl ])%list.

(** [for idx, table in enumerate(tables, idx)] *)
Fixpoint merge_tables (idx : nat) (tables : list pyval) : M (list pyval) :=
  match tables with
  | [] => ret []
  | table :: rest =>
      lines <- merge_table idx table ;;
      more <- merge_tables (S idx) rest ;;
      ret (lines ++ more)%list
  end.

(** The block of [_merge_results] under "Add Docling structured
    content". *)
Definition structure_part (d : pydict) : list pyval :=
  if truthy (dict_get d "text")
  then [ PStr banner_structure; dict_get d "text"; PStr nl ]
  else [].

(** The block under "Add tables if present". *)
Definition tables_part (d : pydict) : M (list pyval) :=
  if truthy (dict_get d "tables")
  then (tables <- py_iter (dict_get d "tables") ;;
        lines <- merge_tables 1 tables ;;
        ret (PStr banner_tables :: lines))
  else ret [].

(** The block under "Add GutenOCR OCR content". *)
Definition ocr_part (g : pydict) : list pyval :=
  if (truthy (dict_get g "success") && truthy (dict_get g "text"))%bool
  then [ PStr banner_ocr; dict_get g "text" ]
  else [].

Definition _merge_results (docling_result gutenocr_result : pyval)
  : M string :=
  d <- as_dict docling_result ;;
  tables <- tables_part d ;;
  g <- as_dict gutenocr_result ;;
  py_join nl (structure_part d ++ tables ++ ocr_part g)%list.

(** Step 1 of [process_document]. *)
Definition step_docling (self : t) (file_path : string)
    (extract_structure extract_tables : bool) (result : pydict)
  : M pydict :=
  if (use_docling self && extract_structure)%bool then
    docling_result <- _process_with_docling self file_path extract_tables ;;
    let result := dict_set result "docling_structure"
                    (PDict docling_result) in
    ret (dict_set_in result "metadata" "docling_processed" (PBool true))
  else ret result.

(** Step 2 of [process_document]. *)
Definition step_gutenocr (self : t) (file_path : string)
    (ocr_images : bool) (result : pydict) : M pydict :=
  if ocr_images then
    ocr_result <- GutenOCREngine.process_image rt (gutenocr self)
                    file_path "reading" "TEXT2D" 4096 None ;;
    let result := dict_set result "gutenocr_ocr" (PDict ocr_result) in
    let result := dict_set_in result "metadata" "gutenocr_processed"
                    (PBool true) in
    ret (if truthy (dict_get ocr_result "success")
         then dict_set result "combined_text"
                (dict_get_or ocr_result "text" (PStr ""))
         else result)
  else ret result.

(** Step 3 of [process_document]. *)
Definition step_combine (result : pydict) : M pydict :=
  let docling_structure := dict_get result "docling_structure" in
  let gutenocr_ocr := dict_get result "gutenocr_ocr" in
  if (truthy docling_structure && truthy gutenocr_ocr)%bool then
    merged <- _merge_results docling_structure gutenocr_ocr ;;
    let result := dict_set result "combined_text" (PStr merged) in
    ret (dict_set_in result "metadata" "processing_mode" (PStr "combined"))
  else if truthy docling_structure then
    d <- as_dict docling_structure ;;
    let result := dict_set result "combined_text"
                    (dict_get_or d "text" (PStr "")) in
    ret (dict_set_in result "metadata" "processing_mode"
           (PStr "docling_only"))
  else if truthy gutenocr_ocr then
    g <- as_dict gutenocr_ocr ;;
    let result := dict_set result "combined_text"
                    (dict_get_or g "text" (PStr "")) in
    ret (dict_set_in result "metadata" "processing_mode"
           (PStr "gutenocr_only"))
  else ret result.

Definition initial_result (file_path timestamp : string) : pydict :=
  [ ("file_path", PStr file_path);
    ("timestamp", PStr timestamp);
    ("docling_structure", PNone);
    ("gutenocr_ocr", PNone);
    ("combined_text", PStr "");
    ("metadata", PDict []) ].

Definition process_document (self : t) (file_path : string)
    (extract_structure extract_tables ocr_images : bool) : M pydict :=
  n <- now ;;
  ro <- run_statements
          [ step_docling self file_path extract_structure extract_tables;
            step_gutenocr self file_path ocr_images;
            step_combine;
            (fun result => ret (dict_set result "success" (PBool true))) ]
          (initial_result file_path (rt_isoformat rt n)) ;;
  match snd ro with
  | None => ret (fst ro)
  | Some e =>
      ret (dict_set (dict_set (fst ro) "success" (PBool false))
             "error" (PStr (exn_msg e)))
  end.

(** [batch_process] points [self.file_processor] at the two directories
    and discovers the files there; [input_dir] and [output_dir] are the
    strings of the [Path] objects. *)
Definition batch_process (self : t) (input_dir output_dir : string)
    (extract_structure extract_tables ocr_images : bool)
  : M (list pydict) :=
  let file_processor := FileProcessor.Processor input_dir output_dir in
  files <- FileProcessor.discover_images rt file_processor true ;;
  results <- mapM (fun file_path =>
                     process_document self file_path extract_structure
                       extract_tables ocr_images)
               files ;;
  n <- now ;;
  let output_path :=
    path_join output_dir
      ("combined_results_" ++ rt_strftime rt n ++ ".json") in
  with_open_w rt output_path (FJson (PList (map PDict results))) None ;;;
  ret results.

End WithRuntime.
End DoclingGutenOCRProcessor.

(* ================================================================== *)
(** * A concrete runtime for the examples                              *)
(* ================================================================== *)

Module Demo.

(** A document Docling converts, with one captioned table. *)
Definition report : docling_document :=
  DoclingDocument (inr "# Report") (Some 1)
    (Some [ DoclingTable (Some (inr (PDict [ ("a", PInt 1) ])))
              (Some (PStr "Totals")) ])
    None.

(** A document with text and no table. *)
Definition letter : docling_document :=
  DoclingDocument (inr "Dear reader") (Some 1) (Some []) None.

Definition tree : list fsnode :=
  [ File "b.png";
    File "a.Png";
    File "notes.txt";
    Dir "scans" [ File "c.PDF"; File "d.jpeg"; File "e.jpg.bak" ];
    File "a.tif" ].

(** The image loader knows no file called [missing.png]; the model breaks
    down on [blurry.png]; preprocessing [silent.png] raises an exception
    without a message; Docling rejects [broken.pdf]; nothing can be written
    below [/readonly]. *)
Definition rt : runtime := {|
  rt_image_open := fun _ path =>
    if path =? "missing.png"
    then inl (Exn OSError "No such file or directory: 'missing.png'")
    else inr tt;
  rt_encode := fun _ path _ =>
    if path =? "silent.png" then inl (Exn RuntimeError "")
    else inr [ [101; 102; 103]%Z ];
  rt_generate := fun _ path _ _ =>
    if path =? "blurry.png"
    then inl (Exn RuntimeError "CUDA out of memory")
    else inr [ [101; 102; 103; 7; 8]%Z ];
  rt_batch_decode := fun _ ids =>
    inr (map (fun l => if (List.length l =? 2)%nat
                       then "Hello world" else "")
             ids);
  rt_convert := fun _ path =>
    if path =? "broken.pdf"
    then inl (Exn ValueError "File format not allowed")
    else if path =? "letter.pdf" then inr letter
    else inr report;
  rt_tree := fun _ dir => if dir =? "input" then tree else [];
  rt_open_w := fun _ path =>
    if prefix "/readonly" path
    then Some (Exn OSError "Read-only file system")
    else None;
  rt_isoformat := fun n => "2025-01-01T00:00:0" ++ string_of_nat n;
  rt_strftime := fun n => "20250101_00000" ++ string_of_nat n;
  rt_iter_set := fun l => rev l;
  rt_repr := fun _ => "<repr>";
  rt_format_2f := fun _ => "<float>"
|}.

Definition engine : GutenOCREngine.t :=
  GutenOCREngine.Engine "rootsautomation/GutenOCR-3B" "auto" false.

Definition files : FileProcessor.t :=
  FileProcessor.Processor "input" "output".

Definition processor : DoclingGutenOCRProcessor.t :=
  DoclingGutenOCRProcessor.Combined engine true files.

Definition start : state := State [] 0.

End Demo.

(* ================================================================== *)
(** * Vocabulary of the statements                                     *)
(* ================================================================== *)

(** The loop [for a in l: results.append(f(a))] ran to its end: every
    element was processed, each from the state its predecessor left, and
    gave one result, which [P] relates to the element and to the state the
    call started in. *)
Inductive processed_in_turn {A B} (f : A -> M B)
    (P : A -> state -> B -> Prop)
  : list A -> state -> list B -> state -> Prop :=
| pit_nil : forall st, processed_in_turn f P [] st [] st
| pit_cons : forall a l st b st1 bs st2,
    f a st = (inr b, st1) ->
    P a st b ->
    processed_in_turn f P l st1 bs st2 ->
    processed_in_turn f P (a :: l) st (b :: bs) st2.

(** The events a computation added to the log. *)
Definition new_events (before after : state) : list event :=
  skipn (List.length (events before)) (events after).

(** ** Prompt table *)

(** The pair has an entry in the table of [_generate_prompt]. *)
Definition in_prompt_table (task_type output_format instruction : string)
  : Prop :=
  exists inner,
    In (task_type, inner) GutenOCREngine.prompts
    /\ In (output_format, instruction) inner.

(** ** Shapes of the two stage payloads *)

Definition ocr_failure (image_path : string) (e : exn) : pydict :=
  [ ("success", PBool false);
    ("image_path", PStr image_path);
    ("error", PStr (exn_msg e)) ].

Definition ocr_success (image_path task_type output_format text
    prompt : string) : pydict :=
  [ ("success", PBool true);
    ("image_path", PStr image_path);
    ("task_type", PStr task_type);
    ("output_format", PStr output_format);
    ("text", PStr text);
    ("prompt", PStr prompt) ].

Definition docling_failure (e : exn) : pydict :=
  [ ("error", PStr (exn_msg e)) ].

(** The text a payload carries, empty when it carries none. *)
Definition text_of (d : pydict) : string :=
  match dict_get d "text" with
  | PStr s => s
  | _ => ""
  end.

(** The tables a structure payload carries. *)
Definition tables_of (d : pydict) : list pyval :=
  match dict_get d "tables" with
  | PList l => l
  | _ => []
  end.

(** A table as [_process_with_docling] records it. *)
Definition table_shaped (v : pyval) : Prop :=
  exists data caption, v = PDict [ ("data", data); ("caption", caption) ].

Definition docling_success (text : string) (pages : Z)
    (tables : list pyval) (metadata : pyval) : pydict :=
  [ ("text", PStr text);
    ("structure", PDict [ ("pages", PInt pages); ("elements", PList []) ]);
    ("tables", PList tables);
    ("metadata", metadata) ].

(** What [_process_with_docling] can return. *)
Definition docling_shaped (d : pydict) : Prop :=
  (exists e, d = docling_failure e)
  \/ (exists text pages tables metadata,
         d = docling_success text pages tables metadata
         /\ Forall table_shaped tables).

(** What [process_image] can return. *)
Definition ocr_shaped (g : pydict) : Prop :=
  (exists image_path e, g = ocr_failure image_path e)
  \/ (exists image_path task_type output_format text prompt,
         g = ocr_success image_path task_type output_format text prompt).

(** ** The sections of a merged text *)

Definition structure_section (d : pydict) : list string :=
  if text_of d =? "" then []
  else [ DoclingGutenOCRProcessor.banner_structure; text_of d; nl ].

Definition table_lines (rt : runtime) (idx : nat) (table : pyval)
  : list string :=
  match table with
  | PDict t =>
      let heading := nl ++ "Table " ++ string_of_nat idx ++ ":" in
      let caption := "Caption: " ++ py_str rt (dict_get t "caption") in
      (heading
         :: (if truthy (dict_get t "caption") then [ caption ] else [])
         ++ [ py_str rt (dict_get_or t "data" (PDict [])); nl ])%list
  | _ => []
  end.

Fixpoint tables_lines (rt : runtime) (idx : nat) (tables : list pyval)
  : list string :=
  match tables with
  | [] => []
  | table :: rest =>
      (table_lines rt idx table ++ tables_lines rt (S idx) rest)%list
  end.

Definition tables_section (rt : runtime) (d : pydict) : list string :=
  match tables_of d with
  | [] => []
  | tables =>
      DoclingGutenOCRProcessor.banner_tables :: tables_lines rt 1 tables
  end.

Definition ocr_section (g : pydict) : list string :=
  if (truthy (dict_get g "success") && negb (text_of g =? ""))%bool
  then [ DoclingGutenOCRProcessor.banner_ocr; text_of g ]
  else [].

(** [metadata.processing_mode] of a result. *)
Definition processing_mode (result : pydict) : option pyval :=
  match dict_lookup result "metadata" with
  | Some (PDict m) => dict_lookup m "processing_mode"
  | _ => None
  end.

(** ** The result of [process_document] *)

Definition payload (o : option pydict) : pyval :=
  match o with
  | Some d => PDict d
  | None => PNone
  end.

(** [combined_text] from the payloads of the stages that ran. *)
Definition combined_text_of (rt : runtime) (od og : option pydict)
  : pyval :=
  match od, og with
  | Some d, Some g =>
      PStr (join nl (structure_section d ++ tables_section rt d
                     ++ ocr_section g)%list)
  | Some d, None => dict_get_or d "text" (PStr "")
  | None, Some g => dict_get_or g "text" (PStr "")
  | None, None => PStr ""
  end.

Definition metadata_of (od og : option pydict) : pydict :=
  ((match od with
    | Some _ => [ ("docling_processed", PBool true) ]
    | None => []
    end)
   ++ (match og with
       | Some _ => [ ("gutenocr_processed", PBool true) ]
       | None => []
       end)
   ++ (match od, og with
       | Some _, Some _ => [ ("processing_mode", PStr "combined") ]
       | Some _, None => [ ("processing_mode", PStr "docling_only") ]
       | None, Some _ => [ ("processing_mode", PStr "gutenocr_only") ]
       | None, None => []
       end))%list.

(** The dict [process_document] returns when step 1 left the payload [od]
    and step 2 the payload [og] ([None] for a step that did not run). *)
Definition document_result (rt : runtime) (file_path timestamp : string)
    (od og : option pydict) : pydict :=
  [ ("file_path", PStr file_path);
    ("timestamp", PStr timestamp);
    ("docling_structure", payload od);
    ("gutenocr_ocr", payload og);
    ("combined_text", combined_text_of rt od og);
    ("metadata", PDict (metadata_of od og));
    ("success", PBool true) ].

(** ** States inside [process_document] *)

(** The state in which step 1 starts: [datetime.now()] has been read. *)
Definition docling_start (st : state) : state := snd (now st).

(** The state in which step 2 starts. *)
Definition ocr_start (rt : runtime) (self : DoclingGutenOCRProcessor.t)
    (file_path : string) (extract_structure extract_tables : bool)
    (st : state) : state :=
  snd (DoclingGutenOCRProcessor.step_docling rt self file_path
         extract_structure extract_tables
         (DoclingGutenOCRProcessor.initial_result file_path
            (rt_isoformat rt (clock st)))
         (docling_start st)).

(** The payloads of a result say how the [try] blocks of the two stages
    ended: a block that raised [e] left the error payload for [e], a block
    that returned left what it returned, a stage that did not run left
    [None]. *)
Definition docling_outcome_recorded (rt : runtime)
    (self : DoclingGutenOCRProcessor.t) (file_path : string)
    (extract_structure extract_tables : bool) (st : state)
    (result : pydict) : Prop :=
  if (DoclingGutenOCRProcessor.use_docling self && extract_structure)%bool
  then match fst (DoclingGutenOCRProcessor._process_with_docling_try rt
                    file_path extract_tables (docling_start st)) with
       | inl e =>
           dict_get result "docling_structure" = PDict (docling_failure e)
       | inr d => dict_get result "docling_structure" = PDict d
       end
  else dict_get result "docling_structure" = PNone.

Definition ocr_outcome_recorded (rt : runtime)
    (self : DoclingGutenOCRProcessor.t) (file_path : string)
    (extract_structure extract_tables ocr_images : bool) (st : state)
    (result : pydict) : Prop :=
  if ocr_images
  then match fst (GutenOCREngine.process_image_try rt
                    (DoclingGutenOCRProcessor.gutenocr self) file_path
                    "reading" "TEXT2D" 4096 None
                    (ocr_start rt self file_path extract_structure
                       extract_tables st)) with
       | inl e =>
           dict_get result "gutenocr_ocr"
           = PDict (ocr_failure file_path e)
       | inr g => dict_get result "gutenocr_ocr" = PDict g
       end
  else dict_get result "gutenocr_ocr" = PNone.

(** What [process_document] returns for a file whose stages may have
    failed: its own [success] is [True] and it has no [error]; the
    failures are in the payloads. *)
Definition stage_failures_recorded (rt : runtime)
    (self : DoclingGutenOCRProcessor.t)
    (extract_structure extract_tables ocr_images : bool)
    (file_path : string) (st : state) (result : pydict) : Prop :=
  dict_get result "file_path" = PStr file_path
  /\ dict_get result "success" = PBool true
  /\ dict_lookup result "error" = None
  /\ docling_outcome_recorded rt self file_path extract_structure
       extract_tables st result
  /\ ocr_outcome_recorded rt self file_path extract_structure
       extract_tables ocr_images st result.

(** The file the combined [batch_process] writes when its loop ended in
    the state [st]. *)
Definition combined_results_path (rt : runtime) (output_dir : string)
    (st : state) : string :=
  path_join output_dir
    ("combined_results_" ++ rt_strftime rt (clock st) ++ ".json").

(** ** Directory trees *)

Definition is_file (n : fsnode) : bool :=
  match n with
  | File _ => true
  | Dir _ _ => false
  end.

(** Every entry at or below a node, with its path. *)
Fixpoint walk_node (n : fsnode) (dir : string) : list (fsnode * string) :=
  match n with
  | File name => [ (n, path_join dir name) ]
  | Dir name children =>
      (n, path_join dir name)
        :: flat_map (fun c => walk_node c (path_join dir name)) children
  end.

(** The entries a scan of the directory looks at. *)
Definition scanned (recursive : bool) (dir : string)
    (entries : list fsnode) : list (fsnode * string) :=
  if recursive then flat_map (fun c => walk_node c dir) entries
  else map (fun c => (c, path_join dir (FileProcessor.node_name c)))
           entries.

(** The name ends with an extension of the list, written all in lower
    case or all in upper case. *)
Definition accepted (name : string) : bool :=
  existsb (fun ext => (ends_with ext name || ends_with (upper ext) name)%bool)
          FileProcessor.SUPPORTED_EXTENSIONS.

Definition is_upper (c : ascii) : bool :=
  let n := nat_of_ascii c in ((65 <=? n)%nat && (n <=? 90)%nat)%bool.

Definition lower_ascii (c : ascii) : ascii :=
  if is_upper c then ascii_of_nat (nat_of_ascii c + 32) else c.

Fixpoint lower (s : string) : string :=
  match s with
  | EmptyString => EmptyString
  | String c s' => String (lower_ascii c) (lower s')
  end.

(** The name ends with an extension of the list in any letter case. *)
Definition accepted_ignoring_case (name : string) : bool :=
  existsb (fun ext => ends_with ext (lower name))
          FileProcessor.SUPPORTED_EXTENSIONS.

Definition sorted_strings (l : list string) : Prop :=
  StronglySorted (fun a b => String.leb a b = true) l.

(** The character occurs in the string. *)
Fixpoint mentions (c : ascii) (s : string) : bool :=
  match s with
  | EmptyString => false
  | String c' s' => (Ascii.eqb c' c || mentions c s')%bool
  end.

(** What a scan returns when the extension set is iterated in [order]. *)
Definition discovered (order : list string) (recursive : bool)
    (dir : string) (entries : list fsnode) : list string :=
  let scan := if recursive then FileProcessor.rglob else FileProcessor.glob in
  sorted
    (flat_map (fun ext => (scan dir entries ext
                           ++ scan dir entries (upper ext))%list)
       order).

(** ** Saved files *)

(** The path [save_results] writes to. *)
Definition results_path (rt : runtime) (self : FileProcessor.t)
    (format : string) (timestamp : bool) (st : state) : string :=
  path_join (FileProcessor.output_dir self)
    ((if timestamp then "ocr_results_" ++ rt_strftime rt (clock st)
      else "ocr_results") ++ "." ++ format).

(** The field names a [csv.DictReader] finds in a file: its first row. *)
Definition csv_fieldnames (content : file_content) : option (list pyval) :=
  match content with
  | FCsv (header :: _) => Some header
  | _ => None
  end.

(** Two dicts have the same key set. *)
Definition same_keys (a b : pydict) : Prop :=
  forall k, In k (dict_keys a) <-> In k (dict_keys b).

(* ================================================================== *)
(** * Further vocabulary                                               *)
(* ================================================================== *)

(** The prompt [process_image] sends: the custom prompt when there is one
    and it is not empty, the prompt of the table otherwise. *)
Definition prompt_used (custom_prompt : option string)
    (task_type output_format : string) : string :=
  match custom_prompt with
  | Some p => if truthy (PStr p) then p
              else GutenOCREngine._generate_prompt task_type output_format
  | None => GutenOCREngine._generate_prompt task_type output_format
  end.

(** Generated sequences that echo the input ids and go on with new ids. *)
Definition echoed (input_ids new_ids : list (list Z)) : list (list Z) :=
  map (fun p => (fst p ++ snd p)%list) (combine input_ids new_ids).

(** The value has a length. *)
Definition has_len (v : pyval) : bool :=
  match v with
  | PStr _ | PList _ | PDict _ => true
  | _ => false
  end.


(** The last character of a string. *)
Fixpoint last_char (s : string) : option ascii :=
  match s with
  | EmptyString => None
  | String c EmptyString => Some c
  | String _ rest => last_char rest
  end.

(** The summary at the end of [main] in docling_gutenocr_combined.py:
    the lines it prints once [batch_process] has returned. *)
Definition main_summary (results : list pydict) : list string :=
  let successful :=
    List.length (filter (fun r => truthy (dict_get r "success")) results) in
  [ nl ++ "=== Processing Complete ===";
    "Total files: " ++ string_of_nat (List.length results);
    "Successful: " ++ string_of_nat successful;
    "Failed: " ++ string_of_nat (List.length results - successful) ].

(* ================================================================== *)
(** * Construction and capabilities                                    *)
(* ================================================================== *)

(** The constructors load the model, import Docling and make directories.
    They leave no trace in the log of [process_image] and
    [process_document], so they are functions of the host alone. *)

Inductive torch_dtype : Type :=
| float32
| bfloat16
| dtype_named (name : string).

(** [str(dtype)] *)
Definition dtype_str (d : torch_dtype) : string :=
  match d with
  | float32 => "torch.float32"
  | bfloat16 => "torch.bfloat16"
  | dtype_named name => name
  end.

Record host : Type := Host {
  (** [torch.cuda.is_available()] and [torch.cuda.device_count()] *)
  host_cuda_available : bool;
  host_cuda_device_count : Z;
  (** [Qwen2_5_VLForConditionalGeneration.from_pretrained(model_id,
      torch_dtype, device_map, low_cpu_mem_usage)]: [None] when it loads *)
  host_load_model : string -> torch_dtype -> string -> bool -> option exn;
  (** [AutoProcessor.from_pretrained(model_id)] *)
  host_load_processor : string -> option exn;
  (** the import of Docling at the top of the module succeeded *)
  host_docling_importable : bool;
  (** [PdfPipelineOptions()] and [DocumentConverter(...)] *)
  host_new_converter : option exn;
  (** [Path(dir).mkdir(parents=True, exist_ok=True)] *)
  host_mkdir : string -> option exn
}.

(** Runs a step that may raise before going on. *)
Definition guard {A} (o : option exn) (k : exn + A) : exn + A :=
  match o with
  | Some e => inl e
  | None => k
  end.

Module EngineSetup.

(** A constructed engine: the attributes [process_image] reads and the
    dtype. *)
Record loaded : Type := Loaded {
  engine : GutenOCREngine.t;
  dtype : torch_dtype
}.

(** [_load_model]: it logs and re-raises what [from_pretrained] raises. *)
Definition _load_model (h : host) (self : loaded) : option exn :=
  if GutenOCREngine.use_cpu (engine self)
  then host_load_model h (GutenOCREngine.model_id (engine self))
         (dtype self) "cpu" true
  else host_load_model h (GutenOCREngine.model_id (engine self))
         (dtype self) (GutenOCREngine.device (engine self)) false.

(** [GutenOCREngine.__init__] *)
Definition init (h : host) (model_id device : string) (use_cpu : bool)
    (torch_dtype_arg : option torch_dtype) : exn + loaded :=
  let self :=
    if (use_cpu || negb (host_cuda_available h))%bool
    then Loaded (GutenOCREngine.Engine model_id "cpu" use_cpu)
           (match torch_dtype_arg with Some d => d | None => float32 end)
    else Loaded (GutenOCREngine.Engine model_id device use_cpu)
           (match torch_dtype_arg with Some d => d | None => bfloat16 end) in
  guard (_load_model h self)
    (guard (host_load_processor h model_id) (inr self)).

(** [get_device_info] *)
Definition get_device_info (h : host) (self : loaded) : pydict :=
  [ ("device", PStr (GutenOCREngine.device (engine self)));
    ("use_cpu", PBool (GutenOCREngine.use_cpu (engine self)));
    ("torch_dtype", PStr (dtype_str (dtype self)));
    ("cuda_available", PBool (host_cuda_available h));
    ("cuda_device_count",
     PInt (if host_cuda_available h then host_cuda_device_count h else 0%Z));
    ("model_id", PStr (GutenOCREngine.model_id (engine self))) ].

End EngineSetup.

Module ProcessorSetup.

(** [FileProcessor.__init__]: both directories are made. *)
Definition init_file_processor (h : host) (input_dir output_dir : string)
  : exn + FileProcessor.t :=
  guard (host_mkdir h input_dir)
    (guard (host_mkdir h output_dir)
       (inr (FileProcessor.Processor input_dir output_dir))).

(** A constructed combined processor. *)
Record loaded : Type := Loaded {
  processor : DoclingGutenOCRProcessor.t;
  gutenocr : EngineSetup.loaded
}.

(** [DoclingGutenOCRProcessor.__init__]: what the engine or the file
    processor raise goes up; what the converter raises switches Docling
    off. *)
Definition init (h : host) (gutenocr_model : string)
    (use_cpu use_docling : bool) : exn + loaded :=
  match EngineSetup.init h gutenocr_model "auto" use_cpu None with
  | inl e => inl e
  | inr eng =>
      let use_docling :=
        if (use_docling && host_docling_importable h)%bool
        then match host_new_converter h with
             | Some _ => false
             | None => true
             end
        else false in
      match init_file_processor h "input" "output" with
      | inl e => inl e
      | inr fp =>
          inr (Loaded (DoclingGutenOCRProcessor.Combined
                         (EngineSetup.engine eng) use_docling fp)
                 eng)
      end
  end.

(** The list under [supported_formats] in [get_capabilities]. *)
Definition supported_formats (use_docling : bool) : list string :=
  if use_docling
  then [ "PDF"; "DOCX"; "PPTX"; "PNG"; "JPG"; "JPEG";
         "TIFF"; "BMP"; "GIF"; "WEBP"; "HTML"; "MD" ]
  else [ "PNG"; "JPG"; "JPEG"; "TIFF"; "BMP"; "GIF"; "WEBP"; "PDF" ].

(** [get_capabilities] *)
Definition get_capabilities (h : host) (self : loaded) : pydict :=
  [ ("docling_available",
     PBool (DoclingGutenOCRProcessor.use_docling (processor self)));
    ("gutenocr_model",
     PStr (GutenOCREngine.model_id (EngineSetup.engine (gutenocr self))));
    ("device_info", PDict (EngineSetup.get_device_info h (gutenocr self)));
    ("supported_formats",
     PList (map PStr
              (supported_formats
                 (DoclingGutenOCRProcessor.use_docling (processor self))))) ].

End ProcessorSetup.

(** A host with one GPU where everything loads. *)
Definition demo_host : host := {|
  host_cuda_available := true;
  host_cuda_device_count := 1;
  host_load_model := fun _ _ _ _ => None;
  host_load_processor := fun _ => None;
  host_docling_importable := true;
  host_new_converter := None;
  host_mkdir := fun _ => None
|}.

(** A host without GPU whose Docling installation is broken and which
    cannot fetch the 7B model. *)
Definition frugal_host : host := {|
  host_cuda_available := false;
  host_cuda_device_count := 0;
  host_load_model := fun model_id _ _ _ =>
    if model_id =? "rootsautomation/GutenOCR-7B"
    then Some (Exn OSError "rootsautomation/GutenOCR-7B is not a local folder")
    else None;
  host_load_processor := fun _ => None;
  host_docling_importable := true;
  host_new_converter := Some (Exn RuntimeError "missing pypdfium2");
  host_mkdir := fun _ => None
|}.

(* ================================================================== *)
(** * file_processor.py: individual files and the summary report       *)
(* ================================================================== *)

(** ** Strings and paths *)

(** [s.replace(a, b)] for one-character [a] and [b]. *)
Fixpoint replace_char (a b : ascii) (s : string) : string :=
  match s with
  | EmptyString => EmptyString
  | String c s' =>
      String (if Ascii.eqb c a then b else c) (replace_char a b s')
  end.

(** [s.title()]: a letter after a letter is lowered, any other letter is
    raised; [after_letter] says what came before. *)
Fixpoint title_from (after_letter : bool) (s : string) : string :=
  match s with
  | EmptyString => EmptyString
  | String c s' =>
      if (is_lower c || is_upper c)%bool
      then String (if after_letter then lower_ascii c else upper_ascii c)
             (title_from true s')
      else String c (title_from false s')
  end.

Definition title (s : string) : string := title_from false s.

(** [s.split("/")] *)
Fixpoint split_slash (s : string) : list string :=
  match s with
  | EmptyString => [ "" ]
  | String c s' =>
      if Ascii.eqb c "/"
      then "" :: split_slash s'
      else match split_slash s' with
           | [] => [ String c "" ]
           | head :: rest => String c head :: rest
           end
  end.

(** The parts of [PurePosixPath(s)] below the root: empty components and
    "." are dropped. *)
Definition path_parts (s : string) : list string :=
  filter (fun part => (negb (part =? "") && negb (part =? "."))%bool)
         (split_slash s).

(** [Path(s).name] *)
Definition path_name (s : string) : string := last (path_parts s) "".

(** The string around the last "." of a name. *)
Fixpoint split_last_dot (s : string) : option (string * string) :=
  match s with
  | EmptyString => None
  | String c s' =>
      match split_last_dot s' with
      | Some (before, after) => Some (String c before, after)
      | None => if Ascii.eqb c "." then Some ("", s') else None
      end
  end.

(** [Path(s).stem] (Python 3.13 and before): the name without its last
    suffix; a dot in first or last place starts no suffix. *)
Definition path_stem (s : string) : string :=
  let name := path_name s in
  match split_last_dot name with
  | Some (before, after) =>
      if ((before =? "") || (after =? ""))%bool then name else before
  | None => name
  end.

(** [Path(v)]: only a string makes a path. *)
Definition as_path (v : pyval) : M string :=
  match v with
  | PStr s => ret s
  | _ => raise (Exn TypeError
                  ("expected str, bytes or os.PathLike object, not "
                   ++ type_name v))
  end.

(** [f.write(v)]: only a string can be written. *)
Definition as_text (v : pyval) : exn + string :=
  match v with
  | PStr s => inr s
  | _ => inl (Exn TypeError
                ("write() argument must be str, not " ++ type_name v))
  end.

(** The file a path holds after the events: what was written last. *)
Fixpoint file_at (evs : list event) (path : string) : option file_content :=
  match evs with
  | [] => None
  | ev :: rest =>
      match file_at rest path with
      | Some content => Some content
      | None =>
          match ev with
          | EvWrite p content => if p =? path then Some content else None
          | _ => None
          end
      end
  end.

Module FileProcessorIO.

Section WithRuntime.
Variable rt : runtime.

(** What the "txt" branch of [save_individual_results] writes for one
    result; [n] is the clock read for the line "Processed". *)
Definition individual_txt (result : pydict) (n : nat)
  : list string * option exn :=
  let head :=
    [ "Source: "
        ++ py_str rt (dict_get_or result "image_path" (PStr "Unknown")) ++ nl;
      "Processed: " ++ rt_isoformat rt n ++ nl;
      "Task: "
        ++ py_str rt (dict_get_or result "task_type" (PStr "Unknown")) ++ nl;
      "Format: "
        ++ py_str rt (dict_get_or result "output_format" (PStr "Unknown"))
        ++ nl;
      nl ++ repeat_string "=" 80 ++ nl ++ nl ] in
  if truthy (dict_get result "success")
  then match as_text (dict_get_or result "text" (PStr "")) with
       | inr text => ((head ++ [ text ])%list, None)
       | inl e => (head, Some e)
       end
  else
    let error_line :=
      "Error: "
      ++ py_str rt (dict_get_or result "error" (PStr "Unknown error")) in
    ((head ++ [ error_line ])%list, None).

(** One turn of the loop of [save_individual_results]. *)
Definition save_individual (self : FileProcessor.t) (format : string)
    (timestamp_str : string) (idx : nat) (result : pydict) : M string :=
  image_path <- as_path (dict_get_or result "image_path"
                           (PStr ("image_" ++ string_of_nat idx))) ;;
  let base_name := path_stem image_path in
  if format =? "txt" then
    let output_path :=
      path_join (FileProcessor.output_dir self)
        (base_name ++ "_" ++ timestamp_str ++ ".txt") in
    o <- ask (fun h => rt_open_w rt h output_path) ;;
    match o with
    | Some e => raise e
    | None =>
        n <- now ;;
        let (chunks, outcome) := individual_txt result n in
        emit (EvWrite output_path (FText chunks)) ;;;
        match outcome with
        | Some e => raise e
        | None => ret output_path
        end
    end
  else if format =? "json" then
    let output_path :=
      path_join (FileProcessor.output_dir self)
        (base_name ++ "_" ++ timestamp_str ++ ".json") in
    with_open_w rt output_path (FJson (PDict result)) None ;;;
    ret output_path
  else
    raise (Exn UnboundLocalError
             "cannot access local variable 'output_path' where it is not associated with a value").

(** [for idx, result in enumerate(results, idx)] *)
Fixpoint save_individual_from (self : FileProcessor.t) (format : string)
    (timestamp_str : string) (idx : nat) (results : list pydict)
  : M (list string) :=
  match results with
  | [] => ret []
  | result :: rest =>
      path <- save_individual self format timestamp_str idx result ;;
      paths <- save_individual_from self format timestamp_str (S idx) rest ;;
      ret (path :: paths)
  end.

Definition save_individual_results (self : FileProcessor.t)
    (results : list pydict) (format : string) : M (list string) :=
  n <- now ;;
  save_individual_from self format (rt_strftime rt n) 0 results.

(** The lines of the report for the result numbered [idx], and how
    writing them ended. *)
Definition report_entry (idx : nat) (result : pydict)
  : list string * option exn :=
  match dict_get_or result "image_path" (PStr "Unknown") with
  | PStr image_path =>
      let name_line := string_of_nat idx ++ ". " ++ path_name image_path ++ nl in
      let status_line :=
        "   Status: "
        ++ (if truthy (dict_get result "success")
            then "✓ Success" else "✗ Failed")
        ++ nl in
      let error_line :=
        "   Error: "
        ++ py_str rt (dict_get_or result "error" (PStr "Unknown")) ++ nl in
      (([ name_line; status_line ]
        ++ (if truthy (dict_get result "success") then []
            else [ error_line ])
        ++ [ nl ])%list,
       None)
  | v =>
      ([],
       Some (Exn TypeError
               ("expected str, bytes or os.PathLike object, not "
                ++ type_name v)))
  end.

(** [for idx, result in enumerate(results, idx)] in the report. *)
Fixpoint report_entries (idx : nat) (results : list pydict)
  : list string * option exn :=
  match results with
  | [] => ([], None)
  | result :: rest =>
      match report_entry idx result with
      | (lines, Some e) => (lines, Some e)
      | (lines, None) =>
          let (more, outcome) := report_entries (S idx) rest in
          ((lines ++ more)%list, outcome)
      end
  end.

Definition report_head (statistics : pydict) : list string :=
  let rule := repeat_string "=" 80 in
  let top :=
    [ rule ++ nl;
      "GutenOCR Processing Summary Report" ++ nl;
      rule ++ nl ++ nl;
      "Statistics:" ++ nl;
      repeat_string "-" 40 ++ nl ] in
  let statistic (kv : string * pyval) :=
    title (replace_char "_" " " (fst kv)) ++ ": " ++ py_str rt (snd kv) ++ nl in
  let bottom :=
    [ nl ++ rule ++ nl;
      "Detailed Results:" ++ nl;
      rule ++ nl ++ nl ] in
  (top ++ map statistic statistics ++ bottom)%list.

Definition create_summary_report (self : FileProcessor.t)
    (results : list pydict) (statistics : pydict) : M string :=
  n <- now ;;
  let report_path :=
    path_join (FileProcessor.output_dir self)
      ("summary_report_" ++ rt_strftime rt n ++ ".txt") in
  let (entries, outcome) := report_entries 1 results in
  with_open_w rt report_path
    (FText (report_head statistics ++ entries)%list) outcome ;;;
  ret report_path.

End WithRuntime.
End FileProcessorIO.

(** ** Vocabulary for the individual files *)

(** The [image_path] of a result of [process_image]. *)
Definition image_path_of (r : pydict) : string :=
  match dict_get r "image_path" with
  | PStr s => s
  | _ => ""
  end.

(** The file [save_individual_results] names after a result, with "txt". *)
Definition individual_path (self : FileProcessor.t) (timestamp_str : string)
    (r : pydict) : string :=
  path_join (FileProcessor.output_dir self)
    (path_stem (image_path_of r) ++ "_" ++ timestamp_str ++ ".txt").

(** The writes of [save_individual_results] with "txt", the first of
    them stamped with the clock at [n]. *)
Fixpoint individual_writes (rt : runtime) (self : FileProcessor.t)
    (timestamp_str : string) (n : nat) (results : list pydict)
  : list event :=
  match results with
  | [] => []
  | r :: rest =>
      EvWrite (individual_path self timestamp_str r)
        (FText (fst (FileProcessorIO.individual_txt rt r n)))
      :: individual_writes rt self timestamp_str (S n) rest
  end.

(** Every file below the output directory can be opened for writing. *)
Definition output_writable (rt : runtime) (self : FileProcessor.t) : Prop :=
  forall history name,
    rt_open_w rt history (path_join (FileProcessor.output_dir self) name)
    = None.

(** The paths written to, in order. *)
Fixpoint written_paths (evs : list event) : list string :=
  match evs with
  | [] => []
  | EvWrite path _ :: rest => path :: written_paths rest
  | _ :: rest => written_paths rest
  end.
(* ================================================================== *)
(** * gradio_ui.py                                                     *)
(* ================================================================== *)

(** The calls of [progress] and of the logger leave no trace in what the
    handlers return or write; they are left out. *)

Module GutenOCRUI.

Record t : Type := UI {
  engine : option EngineSetup.loaded;
  file_processor : FileProcessor.t;
  current_model : option string;
  use_cpu : bool
}.

(** [GutenOCRUI.__init__]; [FileProcessor()] works below "./input" and
    "./output", whose paths print as "input" and "output". *)
Definition init (h : host) : exn + t :=
  match ProcessorSetup.init_file_processor h "input" "output" with
  | inl e => inl e
  | inr fp => inr (UI None fp None false)
  end.

Definition model_map : list (string * string) :=
  [ ("GutenOCR-3B (Faster)", "rootsautomation/GutenOCR-3B");
    ("GutenOCR-7B (More Accurate)", "rootsautomation/GutenOCR-7B") ].

(** The choices of the dropdowns in [create_interface]. *)
Definition task_choices : list string :=
  [ "Reading"; "Detection"; "Localized Reading"; "Conditional Detection" ].

Definition format_choices : list string :=
  [ "TEXT"; "TEXT2D"; "LINES"; "WORDS"; "PARAGRAPHS"; "LATEX"; "BOX" ].

Definition save_format_choices : list string := [ "JSON"; "TXT"; "CSV" ].

(** [task_type.lower().replace(" ", "_")] *)
Definition task_key (task_type : string) : string :=
  replace_char " " "_" (lower task_type).

Section WithRuntime.
Variable rt : runtime.

Definition _format_device_info (info : pydict) : string :=
  join nl
    (map (fun kv =>
            "  " ++ title (replace_char "_" " " (fst kv)) ++ ": "
            ++ py_str rt (snd kv))
       info).

(** [initialize_engine]: the new attributes of the UI and the status.
    The engine is assigned once its constructor has returned; nothing
    after that raises. *)
Definition initialize_engine (h : host) (self : t) (model_choice : string)
    (use_cpu : bool) : t * string :=
  let model_id :=
    match assoc model_map model_choice with
    | Some m => m
    | None => "rootsautomation/GutenOCR-3B"
    end in
  match EngineSetup.init h model_id "auto" use_cpu None with
  | inr eng =>
      (UI (Some eng) (file_processor self) (Some model_choice) use_cpu,
       "✓ Model loaded successfully!" ++ nl ++ nl ++ "Device Info:" ++ nl
       ++ _format_device_info (EngineSetup.get_device_info h eng))
  | inl e => (self, "✗ Error loading model: " ++ exn_msg e)
  end.

Definition process_single_image (self : t) (image_path task_type
    output_format : string) : M (pyval * string) :=
  match engine self with
  | None => ret (PStr "Error: Please initialize the model first!", "")
  | Some eng =>
      try_except
        (result <- GutenOCREngine.process_image rt (EngineSetup.engine eng)
                     image_path (task_key task_type) output_format 4096
                     None ;;
         if truthy (dict_get result "success") then
           let text_output := dict_get_or result "text" (PStr "") in
           n <- py_len text_output ;;
           ret (text_output,
                "✓ Processing successful" ++ nl ++ nl
                ++ "Task: " ++ task_type ++ nl
                ++ "Format: " ++ output_format ++ nl ++ nl
                ++ "Characters: " ++ string_of_Z n)
         else
           let error_msg := dict_get_or result "error" (PStr "Unknown error") in
           ret (PStr ("Error: " ++ py_str rt error_msg),
                "✗ Processing failed"))
        (fun e => ret (PStr ("Error: " ++ exn_msg e), "✗ Processing failed"))
  end.

(** The text [process_batch] returns at the end.  [stats] is the dict
    literal [get_statistics] has just returned, which holds every key that
    is read here. *)
Definition batch_report (stats : pydict) (output_path summary_path : string)
    (individual_paths : list string) : string :=
  join nl
    [ "✓ Batch processing complete!";
      "";
      "Processed: " ++ py_str rt (dict_get stats "total_images") ++ " images";
      "Success: " ++ py_str rt (dict_get stats "successful")
        ++ " (" ++ py_str rt (dict_get stats "success_rate") ++ ")";
      "Failed: " ++ py_str rt (dict_get stats "failed");
      "";
      "Output files:";
      "- Combined results: " ++ output_path;
      "- Summary report: " ++ summary_path;
      "- Individual files: "
        ++ string_of_nat (List.length individual_paths) ++ " files saved";
      "";
      "Total characters extracted: "
        ++ py_str rt (dict_get stats "total_characters");
      "Average per image: "
        ++ py_str rt (dict_get stats "average_characters_per_image");
      "" ].

(** The [try] block of [process_batch]. *)
Definition process_batch_try (self : t) (eng : EngineSetup.loaded)
    (task_type output_format save_format : string) : M string :=
  image_files <- FileProcessor.discover_images rt (file_processor self)
                   true ;;
  match image_files with
  | [] => ret "No images found in ./input directory"
  | _ =>
      results <-
        mapM (fun image_path =>
                GutenOCREngine.process_image rt (EngineSetup.engine eng)
                  image_path (task_key task_type) output_format 4096 None)
             image_files ;;
      output_path <- FileProcessor.save_results rt (file_processor self)
                       results (lower save_format) true ;;
      stats <- FileProcessor.get_statistics rt (file_processor self)
                 results ;;
      summary_path <- FileProcessorIO.create_summary_report rt
                        (file_processor self) results stats ;;
      individual_paths <- FileProcessorIO.save_individual_results rt
                            (file_processor self) results "txt" ;;
      ret (batch_report stats output_path summary_path individual_paths)
  end.

Definition process_batch (self : t) (task_type output_format
    save_format : string) : M string :=
  match engine self with
  | None => ret "Error: Please initialize the model first!"
  | Some eng =>
      try_except
        (process_batch_try self eng task_type output_format save_format)
        (fun e => ret ("Error: " ++ exn_msg e))
  end.

End WithRuntime.
End GutenOCRUI.

(* ================================================================== *)
(** * docling_gradio_ui.py                                             *)
(* ================================================================== *)

Module DoclingGutenOCRUI.

Record t : Type := UI {
  processor : option ProcessorSetup.loaded;
  input_dir : string;
  output_dir : string
}.

(** [DoclingGutenOCRUI.__init__] *)
Definition init (h : host) : exn + t :=
  guard (host_mkdir h "input")
    (guard (host_mkdir h "output") (inr (UI None "input" "output"))).

Section WithRuntime.
Variable rt : runtime.

(** [result['metadata'].get('processing_mode', 'unknown')] *)
Definition mode_of (result : pydict) : M pyval :=
  metadata <- as_dict (dict_get result "metadata") ;;
  ret (dict_get_or metadata "processing_mode" (PStr "unknown")).

(** [_format_result].  It is called on what [process_document] returns,
    a dict that holds every key that is subscripted here. *)
Definition _format_result (result : pydict) : M string :=
  file_path <- as_path (dict_get result "file_path") ;;
  mode <- mode_of result ;;
  let head :=
    [ PStr ("=== PROCESSING METADATA ===" ++ nl);
      PStr ("File: " ++ path_name file_path);
      PStr ("Timestamp: " ++ py_str rt (dict_get result "timestamp"));
      PStr ("Mode: " ++ py_str rt mode);
      PStr "" ] in
  let content :=
    if truthy (dict_get result "combined_text")
    then [ PStr ("=== EXTRACTED CONTENT ===" ++ nl);
           dict_get result "combined_text" ]
    else [] in
  py_join nl (head ++ content)%list.

(** The status of a document that has been processed and saved. *)
Definition saved_status (name : string) (mode : pyval)
    (output_file : string) : string :=
  join nl
    [ "✅ Processing complete!";
      "";
      "**File:** " ++ path_name name;
      "**Processing mode:** " ++ py_str rt mode;
      "**Output saved to:** " ++ output_file;
      "" ].

(** [process_single_document]; [file] is the name of the uploaded file,
    [None] when nothing was uploaded. *)
Definition process_single_document (self : t) (file : option string)
    (extract_structure extract_tables ocr_images : bool)
  : M (string * option string * option string) :=
  match processor self, file with
  | None, _ => ret ("❌ Please initialize the processor first!", None, None)
  | Some _, None => ret ("❌ Please upload a file!", None, None)
  | Some p, Some name =>
      try_except
        (result <- DoclingGutenOCRProcessor.process_document rt
                     (ProcessorSetup.processor p) name extract_structure
                     extract_tables ocr_images ;;
         if truthy (dict_get result "success") then
           output_text <- _format_result result ;;
           n <- now ;;
           let output_file :=
             path_join (output_dir self)
               ("docling_result_" ++ rt_strftime rt n ++ ".json") in
           with_open_w rt output_file (FJson (PDict result)) None ;;;
           mode <- mode_of result ;;
           ret (saved_status name mode output_file,
                Some output_text, Some output_file)
         else
           ret ("❌ Processing failed: "
                ++ py_str rt (dict_get_or result "error"
                                (PStr "Unknown error")),
                None, None))
        (fun e => ret ("❌ Error: " ++ exn_msg e, None, None))
  end.

(** One line of the list of processed files. *)
Definition batch_line (result : pydict) : M string :=
  let status :=
    if truthy (dict_get result "success") then "✅" else "❌" in
  file_path <- as_path (dict_get result "file_path") ;;
  metadata <- as_dict (dict_get_or result "metadata" (PDict [])) ;;
  let mode := dict_get_or metadata "processing_mode" (PStr "unknown") in
  ret (nl ++ status ++ " " ++ path_name file_path
       ++ " (" ++ py_str rt mode ++ ")").

(** The summary before the list of files. *)
Definition batch_head (self : t) (results : list pydict) : string :=
  let successful :=
    List.length (filter (fun r => truthy (dict_get r "success")) results) in
  join nl
    [ "✅ Batch processing complete!";
      "";
      "**Statistics:**";
      "- Total files: " ++ string_of_nat (List.length results);
      "- Successful: " ++ string_of_nat successful;
      "- Failed: " ++ string_of_nat (List.length results - successful);
      "";
      "**Results saved to:** " ++ output_dir self;
      "";
      "**Processed files:**";
      "" ].

Definition batch_process_documents (self : t)
    (extract_structure extract_tables ocr_images : bool) : M string :=
  match processor self with
  | None => ret "❌ Please initialize the processor first!"
  | Some p =>
      try_except
        (results <- DoclingGutenOCRProcessor.batch_process rt
                      (ProcessorSetup.processor p) (input_dir self)
                      (output_dir self) extract_structure extract_tables
                      ocr_images ;;
         lines <- mapM batch_line results ;;
         ret (fold_left append lines (batch_head self results)))
        (fun e => ret ("❌ Error: " ++ exn_msg e))
  end.

End WithRuntime.
End DoclingGutenOCRUI.

(** ** Vocabulary for the two UIs *)

(** The path of the report [create_summary_report] writes when the clock
    is at [n]. *)
Definition summary_path (rt : runtime) (self : FileProcessor.t) (n : nat)
  : string :=
  path_join (FileProcessor.output_dir self)
    ("summary_report_" ++ rt_strftime rt n ++ ".txt").

(** The call of [process_image] the two handlers of the OCR UI make. *)
Definition ui_process_image (rt : runtime) (eng : EngineSetup.loaded)
    (task_type output_format image_path : string) : M pydict :=
  GutenOCREngine.process_image rt (EngineSetup.engine eng) image_path
    (GutenOCRUI.task_key task_type) output_format 4096 None.


(** The OCR UI after its model has been loaded on [demo_host]. *)
Definition demo_ui : GutenOCRUI.t :=
  GutenOCRUI.UI
    (Some (EngineSetup.Loaded Demo.engine bfloat16))
    Demo.files (Some "GutenOCR-3B (Faster)") false.

(** The Docling UI after its processor has been initialised on
    [demo_host]. *)
Definition demo_docling_ui : DoclingGutenOCRUI.t :=
  DoclingGutenOCRUI.UI
    (Some (ProcessorSetup.Loaded Demo.processor
             (EngineSetup.Loaded Demo.engine bfloat16)))
    "input" "output".

(* ================================================================== *)
(** * Proofs: the monad and its loops                                  *)
(* ================================================================== *)

Ltac unfold_monad :=
  unfold bind, ret, raise, lift, ask, call, emit, now, try_except, index0.

(** A loop over a function that never raises runs to its end. *)
Lemma mapM_processed {A B} (f : A -> M B) (P : A -> state -> B -> Prop) :
  (forall a st, exists b st', f a st = (inr b, st') /\ P a st b) ->
  forall l st,
    exists bs st',
      mapM f l st = (inr bs, st') /\ processed_in_turn f P l st bs st'.
Proof.
  intros Hf. induction l as [|a l IH]; intros st; cbn.
  - exists [], st. split; [reflexivity|constructor].
  - unfold bind. destruct (Hf a st) as (b & st1 & Ea & Pa). rewrite Ea.
    destruct (IH st1) as (bs & st2 & El & Hl). rewrite El.
    exists (b :: bs), st2. split; [reflexivity|].
    econstructor; eauto.
Qed.

Lemma processed_in_turn_length {A B} (f : A -> M B) P l st bs st' :
  processed_in_turn f P l st bs st' -> List.length bs = List.length l.
Proof. induction 1; cbn; congruence. Qed.

Lemma processed_in_turn_Forall2 {A B} (f : A -> M B) P
    (Q : A -> B -> Prop) :
  (forall a st b, P a st b -> Q a b) ->
  forall l st bs st',
    processed_in_turn f P l st bs st' -> Forall2 Q l bs.
Proof.
  intros HQ l st bs st' H. induction H; constructor; eauto.
Qed.

Lemma assoc_In {A} (l : list (string * A)) k a :
  assoc l k = Some a -> In (k, a) l.
Proof.
  induction l as [|[k' a'] l IH]; cbn; [discriminate|].
  destruct (k' =? k) eqn:E; intros H.
  - apply String.eqb_eq in E. inversion H; subst. now left.
  - right. auto.
Qed.

(* ================================================================== *)
(** * Proofs: gutenocr_engine.py                                       *)
(* ================================================================== *)

Section EngineProofs.
Variable rt : runtime.

(** The [try] block of [process_image] ends in one of two ways. *)
Lemma process_image_try_outcome self image_path task_type output_format
    max_new_tokens custom_prompt st :
  (exists e st', GutenOCREngine.process_image_try rt self image_path
                   task_type output_format max_new_tokens custom_prompt st
                 = (inl e, st'))
  \/ (exists text prompt st' history ids rest,
         GutenOCREngine.process_image_try rt self image_path task_type
           output_format max_new_tokens custom_prompt st
         = (inr (ocr_success image_path task_type output_format text
                   prompt), st')
         /\ rt_batch_decode rt history ids = inr (text :: rest)).
Proof.
  unfold GutenOCREngine.process_image_try,
    GutenOCREngine.inputs_input_ids.
  unfold_monad. cbn.
  destruct (rt_image_open rt (events st) image_path) as [e|[]];
    [left; do 2 eexists; reflexivity|]; cbn.
  destruct (rt_encode rt _ _ _) as [e|input_ids] eqn:Eenc;
    [left; do 2 eexists; reflexivity|]; cbn.
  destruct (rt_generate rt _ _ _ _) as [e|generated_ids] eqn:Egen;
    [left; do 2 eexists; reflexivity|]; cbn.
  destruct (GutenOCREngine.use_cpu self); cbn;
    [left; do 2 eexists; reflexivity|].
  destruct (rt_batch_decode rt _ _) as [e|output_text] eqn:Edec;
    [left; do 2 eexists; reflexivity|]; cbn.
  destruct output_text as [|text rest]; [left; do 2 eexists; reflexivity|].
  right. do 6 eexists. split; [reflexivity|]. exact Edec.
Qed.

Lemma process_image_returns self image_path task_type output_format
    max_new_tokens custom_prompt st :
  exists result st',
    GutenOCREngine.process_image rt self image_path task_type
      output_format max_new_tokens custom_prompt st = (inr result, st')
    /\ dict_get result "image_path" = PStr image_path
    /\ ((exists e,
            GutenOCREngine.process_image_try rt self image_path task_type
              output_format max_new_tokens custom_prompt st = (inl e, st')
            /\ result = ocr_failure image_path e)
        \/ (exists text prompt history ids rest,
               GutenOCREngine.process_image_try rt self image_path
                 task_type output_format max_new_tokens custom_prompt st
               = (inr result, st')
               /\ result = ocr_success image_path task_type output_format
                             text prompt
               /\ rt_batch_decode rt history ids = inr (text :: rest))).
Proof.
  unfold GutenOCREngine.process_image, try_except.
  destruct (process_image_try_outcome self image_path task_type
              output_format max_new_tokens custom_prompt st)
    as [(e & st' & H)|(text & prompt & st' & history & ids & rest & H & D)];
    rewrite H.
  - exists (ocr_failure image_path e), st'. repeat split.
    left. exists e. split; reflexivity.
  - eexists _, st'. repeat split.
    right. exists text, prompt, history, ids, rest. repeat split. exact D.
Qed.

(** C3: [process_image] never raises.  Whatever the path, the task, the
    format, the token limit and the custom prompt, it returns a dict: when
    its [try] block raised [e] (the image could not be opened, the model
    failed, nothing was decoded), the dict has [success = False] and the
    string [str(e)] under [error]; when the block ran to its end, the dict
    has [success = True] and under [text] the first string the decoder
    returned. *)
Theorem process_image_never_raises self image_path task_type output_format
    max_new_tokens custom_prompt st :
  exists result st',
    GutenOCREngine.process_image rt self image_path task_type
      output_format max_new_tokens custom_prompt st = (inr result, st')
    /\ ((exists e,
            GutenOCREngine.process_image_try rt self image_path task_type
              output_format max_new_tokens custom_prompt st = (inl e, st')
            /\ dict_get result "success" = PBool false
            /\ dict_get result "error" = PStr (exn_msg e))
        \/ (exists text history ids rest,
               GutenOCREngine.process_image_try rt self image_path
                 task_type output_format max_new_tokens custom_prompt st
               = (inr result, st')
               /\ dict_get result "success" = PBool true
               /\ dict_get result "text" = PStr text
               /\ rt_batch_decode rt history ids = inr (text :: rest))).
Proof.
  destruct (process_image_returns self image_path task_type output_format
              max_new_tokens custom_prompt st)
    as (result & st' & Hrun & _ & Hcase).
  exists result, st'. split; [exact Hrun|].
  destruct Hcase as [(e & Htry & ->)
                    |(text & prompt & history & ids & rest & Htry & -> & D)].
  - left. exists e. repeat split. exact Htry.
  - right. exists text, history, ids, rest. repeat split; assumption.
Qed.

(** C10: the engine's [batch_process] returns one result per path, in the
    order of the paths: the i-th result is what [process_image] returned
    for the i-th path, called in the state the previous call left, and its
    [image_path] is that path whether the call succeeded or failed. *)
Theorem batch_process_keeps_order self image_paths task_type output_format
    max_new_tokens st :
  exists results st',
    GutenOCREngine.batch_process rt self image_paths task_type
      output_format max_new_tokens st = (inr results, st')
    /\ List.length results = List.length image_paths
    /\ processed_in_turn
         (fun image_path =>
            GutenOCREngine.process_image rt self image_path task_type
              output_format max_new_tokens None)
         (fun image_path _ result =>
            dict_get result "image_path" = PStr image_path)
         image_paths st results st'
    /\ Forall2 (fun image_path result =>
                  dict_get result "image_path" = PStr image_path)
         image_paths results.
Proof.
  unfold GutenOCREngine.batch_process.
  set (f := fun image_path =>
              GutenOCREngine.process_image rt self image_path task_type
                output_format max_new_tokens None).
  set (P := fun (image_path : string) (_ : state) (result : pydict) =>
              dict_get result "image_path" = PStr image_path).
  assert (Hf : forall a st0, exists b st1, f a st0 = (inr b, st1) /\ P a st0 b).
  { intros a st0. unfold f, P.
    destruct (process_image_returns self a task_type output_format
                max_new_tokens None st0) as (b & st1 & H & Hpath & _).
    eauto. }
  destruct (mapM_processed f P Hf image_paths st)
    as (results & st' & Hrun & Hturn).
  exists results, st'. repeat split; try assumption.
  - eapply processed_in_turn_length; eauto.
  - eapply processed_in_turn_Forall2; [|exact Hturn].
    intros a st0 b Hab. exact Hab.
Qed.

End EngineProofs.

(** C4: prompt resolution is a total function.  A pair found in the table
    of [_generate_prompt] gets the instruction stored for it, and every
    other pair gets "Read all text in the image.". *)
Theorem generate_prompt_total task_type output_format :
  (forall instruction,
      in_prompt_table task_type output_format instruction ->
      GutenOCREngine._generate_prompt task_type output_format = instruction)
  /\ ((forall instruction,
          ~ in_prompt_table task_type output_format instruction) ->
      GutenOCREngine._generate_prompt task_type output_format
      = "Read all text in the image.").
Proof.
  split.
  - intros instruction (inner & Hout & Hin).
    cbn in Hout.
    repeat (destruct Hout as [Hout|Hout];
            [inversion Hout; subst; clear Hout; cbn in Hin;
             repeat (destruct Hin as [Hin|Hin];
                     [inversion Hin; subst; reflexivity|]);
             contradiction|]).
    contradiction.
  - intros Hnot. unfold GutenOCREngine._generate_prompt.
    destruct (assoc GutenOCREngine.prompts task_type) as [inner|] eqn:E1;
      [|reflexivity].
    destruct (assoc inner output_format) as [s|] eqn:E2; [|reflexivity].
    exfalso. apply (Hnot s). exists inner.
    split; apply assoc_In; assumption.
Qed.

Lemma generate_prompt_total_witness :
  GutenOCREngine._generate_prompt "detection" "BOX"
  = "Highlight all text regions in the image by returning their bounding boxes as a JSON array."
  /\ GutenOCREngine._generate_prompt "detection" "TEXT"
     = "Read all text in the image.".
Proof.
  split.
  - apply (proj1 (generate_prompt_total "detection" "BOX")).
    eexists. split; [right; left; reflexivity|left; reflexivity].
  - apply (proj2 (generate_prompt_total "detection" "TEXT")).
    intros instruction (inner & Hout & Hin). cbn in Hout.
    repeat (destruct Hout as [Hout|Hout];
            [inversion Hout; subst; clear Hout; cbn in Hin;
             repeat (destruct Hin as [Hin|Hin]; [discriminate|]);
             contradiction|]).
    contradiction.
Defined.

(* ================================================================== *)
(** * Proofs: file_processor.py, saving and statistics                 *)
(* ================================================================== *)

Lemma filter_nil_iff {A} (f : A -> bool) (l : list A) :
  filter f l = [] <-> (forall x, In x l -> f x = false).
Proof.
  induction l as [|a l IH]; cbn.
  - split; [intros _ x []|reflexivity].
  - destruct (f a) eqn:E; split.
    + discriminate.
    + intros H. rewrite (H a (or_introl eq_refl)) in E. discriminate.
    + intros H x [<-|Hx]; [exact E|]. apply IH; assumption.
    + intros H. apply IH. intros x Hx. apply H. now right.
Qed.

Lemma existsb_eqb_In (k : string) (l : list string) :
  In k l -> existsb (String.eqb k) l = true.
Proof.
  intros H. apply existsb_exists. exists k. split; [exact H|].
  apply String.eqb_refl.
Qed.

Lemma dict_lookup_In (d : pydict) (k : string) :
  In k (dict_keys d) -> exists v, dict_lookup d k = Some v.
Proof.
  induction d as [|[k' v'] d IH]; cbn; [intros []|].
  intros [->|H].
  - rewrite String.eqb_refl. eauto.
  - destruct (k' =? k); eauto.
Qed.

Lemma dict_get_or_present (d : pydict) (k : string) (default : pyval) :
  In k (dict_keys d) -> dict_get_or d k default = dict_get d k.
Proof.
  intros H. unfold dict_get, dict_get_or.
  destruct (dict_lookup_In d k H) as (v & ->). reflexivity.
Qed.

Section SavingProofs.
Variable rt : runtime.

(** A row whose keys are all field names is written as it is. *)
Lemma dict_to_list_same_keys (first r : pydict) :
  same_keys first r ->
  FileProcessor._dict_to_list rt (dict_keys first) r
  = inr (map (dict_get r) (dict_keys first)).
Proof.
  intros Hk. unfold FileProcessor._dict_to_list.
  assert (Hw : FileProcessor.wrong_fields (dict_keys first) r = []).
  { unfold FileProcessor.wrong_fields. apply filter_nil_iff.
    intros k Hin. apply Hk in Hin.
    rewrite (existsb_eqb_In k _ Hin). reflexivity. }
  rewrite Hw. f_equal. apply map_ext_in.
  intros k Hin. apply dict_get_or_present. apply Hk. exact Hin.
Qed.

Lemma writerows_same_keys (first : pydict) (rows : list pydict) :
  Forall (same_keys first) rows ->
  FileProcessor.writerows rt (dict_keys first) rows
  = (map (fun r => map (dict_get r) (dict_keys first)) rows, None).
Proof.
  induction 1 as [|r rows Hr _ IH]; cbn; [reflexivity|].
  rewrite (dict_to_list_same_keys first r Hr), IH. reflexivity.
Qed.

Lemma same_keys_refl (d : pydict) : same_keys d d.
Proof. intros k. reflexivity. Qed.

(** C7: for a result list that is not empty and whose dicts all have the
    key set of the first one, [save_results] with format "csv" returns the
    path of a file whose first row is the keys of the first result, in
    their order: the field names a reader finds are those keys.  Every
    result gives one row, holding its values in the order of these keys.
    The file has to be one that can be opened for writing. *)
Theorem save_results_csv_header self first rest timestamp st :
  Forall (same_keys first) rest ->
  rt_open_w rt (events st) (results_path rt self "csv" timestamp st)
  = None ->
  exists st' content,
    FileProcessor.save_results rt self (first :: rest) "csv" timestamp st
    = (inr (results_path rt self "csv" timestamp st), st')
    /\ events st'
       = (events st
          ++ [EvWrite (results_path rt self "csv" timestamp st) content])%list
    /\ csv_fieldnames content = Some (map PStr (dict_keys first))
    /\ content
       = FCsv (map PStr (dict_keys first)
                 :: map (fun r => map (dict_get r) (dict_keys first))
                      (first :: rest)).
Proof.
  intros Hkeys Hopen.
  assert (Hall : Forall (same_keys first) (first :: rest))
    by (constructor; [apply same_keys_refl|exact Hkeys]).
  unfold FileProcessor.save_results, FileProcessor.csv_body.
  rewrite (writerows_same_keys first (first :: rest) Hall).
  unfold results_path in *.
  destruct timestamp; unfold_monad; cbn in *;
    unfold with_open_w; unfold_monad; cbn; rewrite Hopen; cbn;
    do 2 eexists; repeat split.
Qed.

(** C9: [save_results] knows three formats.  With any other format string
    it leaves the branches without binding [output_path], raises
    [UnboundLocalError] where the path is read, returns no path and has
    written no file. *)
Theorem save_results_unknown_format self results format timestamp st :
  format <> "json" -> format <> "txt" -> format <> "csv" ->
  exists e st',
    FileProcessor.save_results rt self results format timestamp st
    = (inl e, st')
    /\ exn_cls e = UnboundLocalError
    /\ events st' = events st.
Proof.
  intros Hjson Htxt Hcsv.
  apply String.eqb_neq in Hjson, Htxt, Hcsv.
  unfold FileProcessor.save_results.
  destruct timestamp; unfold_monad; cbn; rewrite Hjson, Htxt, Hcsv;
    do 2 eexists; repeat split.
Qed.

End SavingProofs.

Lemma save_results_csv_header_witness :
  exists st' content,
    FileProcessor.save_results Demo.rt Demo.files
      [ [ ("image_path", PStr "a.png"); ("success", PBool false) ];
        [ ("success", PBool true); ("image_path", PStr "b.png") ] ]
      "csv" false Demo.start
    = (inr "output/ocr_results.csv", st')
    /\ events st' = [ EvWrite "output/ocr_results.csv" content ]
    /\ csv_fieldnames content = Some [ PStr "image_path"; PStr "success" ]
    /\ content
       = FCsv [ [ PStr "image_path"; PStr "success" ];
                [ PStr "a.png"; PBool false ];
                [ PStr "b.png"; PBool true ] ].
Proof.
  apply (save_results_csv_header Demo.rt Demo.files
           [ ("image_path", PStr "a.png"); ("success", PBool false) ]
           [ [ ("success", PBool true); ("image_path", PStr "b.png") ] ]
           false Demo.start).
  - constructor; [|constructor]. intros k. cbn. tauto.
  - reflexivity.
Defined.

Lemma save_results_unknown_format_witness :
  exists e st',
    FileProcessor.save_results Demo.rt Demo.files
      [ [ ("image_path", PStr "a.png"); ("success", PBool false) ] ]
      "xml" true Demo.start
    = (inl e, st')
    /\ exn_cls e = UnboundLocalError
    /\ events st' = events Demo.start.
Proof.
  apply (save_results_unknown_format Demo.rt Demo.files _ "xml" true Demo.start);
    discriminate.
Defined.

Section StatisticsProofs.
Variable rt : runtime.

Lemma py_len_raises_TypeError v st e st' :
  py_len v st = (inl e, st') -> exn_cls e = TypeError.
Proof.
  destruct v; cbn; unfold ret, raise; intros H; inversion H; reflexivity.
Qed.

Lemma mapM_py_len_raises_TypeError (f : pydict -> pyval) :
  forall l st e st',
    mapM (fun r => py_len (f r)) l st = (inl e, st') ->
    exn_cls e = TypeError.
Proof.
  induction l as [|r l IH]; intros st e st' H; cbn in H.
  - discriminate.
  - unfold bind in H.
    destruct (py_len (f r) st) as [[e1|n] st1] eqn:E1.
    + inversion H; subst. eapply py_len_raises_TypeError; eauto.
    + destruct (mapM (fun r0 => py_len (f r0)) l st1)
        as [[e2|ns] st2] eqn:E2.
      * inversion H; subst. eapply IH; eauto.
      * discriminate.
Qed.

Lemma py_truediv_nonzero a b st :
  (b >? 0)%Z = true ->
  FileProcessor.py_truediv a b st = (inr (NTrueDiv a b), st).
Proof.
  intros H. unfold FileProcessor.py_truediv.
  destruct (b =? 0)%Z eqn:E; [|reflexivity].
  apply Z.eqb_eq in E. subst. discriminate.
Qed.

(** When the lengths could be taken, [get_statistics] returns. *)
Lemma get_statistics_after_lengths self results st lens st1 :
  mapM (fun r => py_len (dict_get_or r "text" (PStr "")))
    (filter FileProcessor.succeeded results) st = (inr lens, st1) ->
  exists d st',
    FileProcessor.get_statistics rt self results st = (inr d, st')
    /\ (filter FileProcessor.succeeded results = [] ->
        dict_get d "average_characters_per_image" = PStr "0.00")
    /\ (results = [] -> dict_get d "success_rate" = PStr "0%").
Proof.
  intros Hlens. unfold FileProcessor.get_statistics.
  unfold bind at 1. rewrite Hlens.
  set (successful :=
         Z.of_nat (List.length (filter FileProcessor.succeeded results))).
  set (total := Z.of_nat (List.length results)).
  unfold bind at 1.
  destruct (successful >? 0)%Z eqn:Es.
  - rewrite (py_truediv_nonzero _ _ _ Es).
    unfold bind at 1.
    destruct (total >? 0)%Z eqn:Et.
    + unfold bind at 1. rewrite (py_truediv_nonzero _ _ _ Et).
      unfold_monad. cbn. do 2 eexists. split; [reflexivity|]. split.
      * intros Hnone. subst successful. rewrite Hnone in Es. discriminate.
      * intros ->. discriminate.
    + unfold_monad. cbn. do 2 eexists. split; [reflexivity|]. split.
      * intros Hnone. subst successful. rewrite Hnone in Es. discriminate.
      * reflexivity.
  - unfold ret at 1. unfold bind at 1.
    destruct (total >? 0)%Z eqn:Et.
    + unfold bind at 1. rewrite (py_truediv_nonzero _ _ _ Et).
      unfold_monad. cbn. do 2 eexists. split; [reflexivity|]. split.
      * reflexivity.
      * intros ->. discriminate.
    + unfold_monad. cbn. do 2 eexists. split; [reflexivity|]. split;
        reflexivity.
Qed.

(** C6: [get_statistics] on the empty list returns a dict with
    [success_rate] "0%" and the average formatted from 0, and no result
    list makes it raise [ZeroDivisionError]: the average is divided by the
    number of successes only when there is one, and when no result
    succeeded the function returns with the average "0.00". *)
Theorem get_statistics_guards_division self results st :
  (exists d st',
      FileProcessor.get_statistics rt self [] st = (inr d, st')
      /\ dict_get d "success_rate" = PStr "0%"
      /\ dict_get d "average_characters_per_image" = PStr "0.00")
  /\ (forall e st',
         FileProcessor.get_statistics rt self results st = (inl e, st') ->
         exn_cls e <> ZeroDivisionError)
  /\ (filter FileProcessor.succeeded results = [] ->
      exists d st',
        FileProcessor.get_statistics rt self results st = (inr d, st')
        /\ dict_get d "average_characters_per_image" = PStr "0.00").
Proof.
  split; [|split].
  - destruct (get_statistics_after_lengths self [] st [] st eq_refl)
      as (d & st' & Hrun & Havg & Hrate).
    exists d, st'. auto.
  - intros e st' Hrun.
    destruct (mapM (fun r => py_len (dict_get_or r "text" (PStr "")))
                (filter FileProcessor.succeeded results) st)
      as [[e1|lens] st1] eqn:Hlens.
    + unfold FileProcessor.get_statistics in Hrun.
      unfold bind at 1 in Hrun. rewrite Hlens in Hrun.
      inversion Hrun; subst.
      rewrite (mapM_py_len_raises_TypeError _ _ _ _ _ Hlens).
      discriminate.
    + destruct (get_statistics_after_lengths self results st lens st1 Hlens)
        as (d & st2 & Hok & _).
      rewrite Hok in Hrun. discriminate.
  - intros Hnone.
    destruct (get_statistics_after_lengths self results st [] st)
      as (d & st' & Hrun & Havg & _).
    { rewrite Hnone. reflexivity. }
    exists d, st'. auto.
Qed.

End StatisticsProofs.

Lemma get_statistics_guards_division_witness :
  exists d st',
    FileProcessor.get_statistics Demo.rt Demo.files
      [ [ ("success", PBool false); ("image_path", PStr "missing.png");
          ("error", PStr "No such file") ] ]
      Demo.start = (inr d, st')
    /\ dict_get d "average_characters_per_image" = PStr "0.00".
Proof.
  apply (proj2 (proj2 (get_statistics_guards_division Demo.rt Demo.files
                         [ [ ("success", PBool false);
                             ("image_path", PStr "missing.png");
                             ("error", PStr "No such file") ] ]
                         Demo.start))).
  reflexivity.
Defined.

(* ================================================================== *)
(** * Proofs: docling_gutenocr_combined.py                             *)
(* ================================================================== *)

Lemma table_entry_outcome table st :
  (exists e, DoclingGutenOCRProcessor.table_entry table st = (inl e, st))
  \/ (exists v,
         DoclingGutenOCRProcessor.table_entry table st = (inr v, st)
         /\ table_shaped v).
Proof.
  unfold DoclingGutenOCRProcessor.table_entry. unfold_monad.
  destruct (tbl_dataframe table) as [[e|data]|]; cbn.
  - left. eexists. reflexivity.
  - right. eexists. split; [reflexivity|]. do 2 eexists. reflexivity.
  - right. eexists. split; [reflexivity|]. do 2 eexists. reflexivity.
Qed.

Lemma mapM_table_entry_outcome :
  forall tables st,
    (exists e,
        mapM DoclingGutenOCRProcessor.table_entry tables st = (inl e, st))
    \/ (exists l,
           mapM DoclingGutenOCRProcessor.table_entry tables st = (inr l, st)
           /\ Forall table_shaped l).
Proof.
  induction tables as [|table tables IH]; intros st; cbn.
  - right. exists []. split; [reflexivity|constructor].
  - unfold bind.
    destruct (table_entry_outcome table st) as [(e & ->)|(v & -> & Hv)].
    + left. eexists. reflexivity.
    + destruct (IH st) as [(e & ->)|(l & -> & Hl)].
      * left. eauto.
      * right. exists (v :: l). split; [reflexivity|]. constructor; auto.
Qed.


Lemma bind_inr {A B} (m : M A) (k : A -> M B) st a st' :
  m st = (inr a, st') -> bind m k st = k a st'.
Proof. intros H. unfold bind. rewrite H. reflexivity. Qed.

Lemma as_dict_PDict d st : as_dict (PDict d) st = (inr d, st).
Proof. reflexivity. Qed.

Lemma py_iter_PList l st : py_iter (PList l) st = (inr l, st).
Proof. reflexivity. Qed.

Lemma py_join_from_strings :
  forall l i st, py_join_from i (map PStr l) st = (inr l, st).
Proof.
  induction l as [|s l IH]; intros i st; cbn; [reflexivity|].
  rewrite (bind_inr _ _ _ _ _ (IH (S i) st)). reflexivity.
Qed.

Lemma py_join_strings sep l st :
  py_join sep (map PStr l) st = (inr (join sep l), st).
Proof.
  unfold py_join.
  rewrite (bind_inr _ _ _ _ _ (py_join_from_strings l 0 st)). reflexivity.
Qed.

Section CombinedProofs.
Variable rt : runtime.

(** The [try] block of [_process_with_docling] calls the converter once;
    what it returns has the shape of a structure dict. *)
Lemma process_with_docling_try_outcome file_path extract_tables st :
  exists outcome,
    DoclingGutenOCRProcessor._process_with_docling_try rt file_path
      extract_tables st
    = (outcome, State (events st ++ [EvConvert file_path])%list (clock st))
    /\ match outcome with
       | inl _ => True
       | inr d =>
           exists text pages tables metadata,
             d = docling_success text pages tables metadata
             /\ Forall table_shaped tables
       end.
Proof.
  set (st1 := State (events st ++ [EvConvert file_path])%list (clock st)).
  unfold DoclingGutenOCRProcessor._process_with_docling_try.
  unfold bind at 1. unfold call at 1. cbn. fold st1.
  destruct (rt_convert rt (events st) file_path) as [e|document];
    [exists (inl e); split; [reflexivity|exact I]|].
  unfold bind at 1.
  destruct (doc_markdown document) as [e|text]; cbn;
    [exists (inl e); split; [reflexivity|exact I]|].
  unfold bind at 1.
  set (m := match doc_tables document with
            | Some ts =>
                if extract_tables
                then mapM DoclingGutenOCRProcessor.table_entry ts
                else ret []
            | None => ret []
            end).
  assert (Hm : (exists e, m st1 = (inl e, st1))
               \/ (exists l, m st1 = (inr l, st1)
                             /\ Forall table_shaped l)).
  { subst m. destruct (doc_tables document) as [ts|];
      [destruct extract_tables|];
      try (right; exists []; split; [reflexivity|constructor]).
    apply mapM_table_entry_outcome. }
  destruct Hm as [(e & He)|(l & He & Hl)]; rewrite He; cbn.
  - exists (inl e). split; [reflexivity|exact I].
  - eexists (inr _). split; [reflexivity|].
    do 4 eexists. split; [reflexivity|exact Hl].
Qed.

(** [_process_with_docling] never raises: it returns the structure dict
    or, when its [try] block raised, the error dict. *)
Lemma process_with_docling_returns self file_path extract_tables st :
  exists d,
    DoclingGutenOCRProcessor._process_with_docling rt self file_path
      extract_tables st
    = (inr d, State (events st ++ [EvConvert file_path])%list (clock st))
    /\ docling_shaped d
    /\ (forall e st',
           DoclingGutenOCRProcessor._process_with_docling_try rt file_path
             extract_tables st = (inl e, st') ->
           d = docling_failure e).
Proof.
  unfold DoclingGutenOCRProcessor._process_with_docling, try_except.
  destruct (process_with_docling_try_outcome file_path extract_tables st)
    as ([e|d] & H & Hshape); rewrite H.
  - exists (docling_failure e). repeat split.
    + left. eexists. reflexivity.
    + intros e' st' H'. inversion H'. reflexivity.
  - exists d. repeat split.
    + right. exact Hshape.
    + intros e' st' H'. discriminate.
Qed.

Lemma merge_table_shaped idx table st :
  table_shaped table ->
  DoclingGutenOCRProcessor.merge_table rt idx table st
  = (inr (map PStr (table_lines rt idx table)), st).
Proof.
  intros (data & caption & ->).
  unfold DoclingGutenOCRProcessor.merge_table, table_lines.
  rewrite (bind_inr _ _ _ _ _ (as_dict_PDict _ st)).
  destruct (truthy (dict_get [("data", data); ("caption", caption)]
                      "caption")); reflexivity.
Qed.

Lemma merge_tables_shaped :
  forall tables idx st,
    Forall table_shaped tables ->
    DoclingGutenOCRProcessor.merge_tables rt idx tables st
    = (inr (map PStr (tables_lines rt idx tables)), st).
Proof.
  induction tables as [|table tables IH]; intros idx st H; cbn;
    [reflexivity|].
  inversion H as [|? ? Ht Hts]; subst.
  rewrite (bind_inr _ _ _ _ _ (merge_table_shaped idx table st Ht)).
  rewrite (bind_inr _ _ _ _ _ (IH (S idx) st Hts)).
  unfold ret. rewrite map_app. reflexivity.
Qed.

Lemma structure_part_shaped d :
  docling_shaped d ->
  DoclingGutenOCRProcessor.structure_part d = map PStr (structure_section d).
Proof.
  intros [(e & ->)|(text & pages & tables & metadata & -> & _)].
  - reflexivity.
  - unfold DoclingGutenOCRProcessor.structure_part, structure_section.
    cbn. destruct (text =? ""); reflexivity.
Qed.

Lemma tables_part_shaped d st :
  docling_shaped d ->
  DoclingGutenOCRProcessor.tables_part rt d st
  = (inr (map PStr (tables_section rt d)), st).
Proof.
  intros [(e & ->)|(text & pages & tables & metadata & -> & Ht)].
  - reflexivity.
  - unfold DoclingGutenOCRProcessor.tables_part, tables_section.
    cbn [docling_success dict_get dict_get_or dict_lookup tables_of
           String.eqb Ascii.eqb Bool.eqb truthy].
    destruct tables as [|table tables]; [reflexivity|].
    rewrite (bind_inr _ _ _ _ _ (py_iter_PList _ st)).
    rewrite (bind_inr _ _ _ _ _ (merge_tables_shaped _ 1 st Ht)).
    reflexivity.
Qed.

Lemma ocr_part_shaped g :
  ocr_shaped g ->
  DoclingGutenOCRProcessor.ocr_part g = map PStr (ocr_section g).
Proof.
  intros [(p & e & ->)|(p & t & f & text & prompt & ->)].
  - reflexivity.
  - unfold DoclingGutenOCRProcessor.ocr_part, ocr_section.
    cbn. destruct (text =? ""); reflexivity.
Qed.

(** On the payloads of the two stages [_merge_results] does not raise and
    joins the three sections. *)
Lemma merge_results_shaped d g st :
  docling_shaped d -> ocr_shaped g ->
  DoclingGutenOCRProcessor._merge_results rt (PDict d) (PDict g) st
  = (inr (join nl (structure_section d ++ tables_section rt d
                   ++ ocr_section g)%list), st).
Proof.
  intros Hd Hg. unfold DoclingGutenOCRProcessor._merge_results.
  rewrite (bind_inr _ _ _ _ _ (as_dict_PDict d st)).
  rewrite (bind_inr _ _ _ _ _ (tables_part_shaped d st Hd)).
  rewrite (bind_inr _ _ _ _ _ (as_dict_PDict g st)).
  rewrite (structure_part_shaped d Hd), (ocr_part_shaped g Hg).
  rewrite <- !map_app. apply py_join_strings.
Qed.

Lemma docling_shaped_truthy d : docling_shaped d -> truthy (PDict d) = true.
Proof.
  intros [(e & ->)|(text & pages & tables & metadata & -> & _)];
    reflexivity.
Qed.

Lemma process_image_shaped self image_path task_type output_format
    max_new_tokens custom_prompt st g st' :
  GutenOCREngine.process_image rt self image_path task_type output_format
    max_new_tokens custom_prompt st = (inr g, st') ->
  ocr_shaped g.
Proof.
  intros H.
  destruct (process_image_returns rt self image_path task_type
              output_format max_new_tokens custom_prompt st)
    as (g' & st1 & Hrun & _ & Hcase).
  rewrite Hrun in H. inversion H; subst.
  destruct Hcase as [(e & _ & ->)|(text & prompt & _ & _ & _ & _ & -> & _)].
  - left. do 2 eexists. reflexivity.
  - right. do 5 eexists. reflexivity.
Qed.

Lemma ocr_shaped_truthy g : ocr_shaped g -> truthy (PDict g) = true.
Proof.
  intros [(p & e & ->)|(p & t & f & text & prompt & ->)]; reflexivity.
Qed.

(** Step 1 stores the payload of [_process_with_docling] when Docling is
    in use and structure extraction is asked for, and does nothing
    otherwise. *)
Lemma step_docling_run self file_path extract_structure extract_tables
    result st :
  exists od st1,
    DoclingGutenOCRProcessor.step_docling rt self file_path
      extract_structure extract_tables result st
    = (inr match od with
           | Some d =>
               dict_set_in
                 (dict_set result "docling_structure" (PDict d))
                 "metadata" "docling_processed" (PBool true)
           | None => result
           end, st1)
    /\ if (DoclingGutenOCRProcessor.use_docling self
           && extract_structure)%bool
       then exists d,
           od = Some d
           /\ DoclingGutenOCRProcessor._process_with_docling rt self
                file_path extract_tables st = (inr d, st1)
           /\ docling_shaped d
       else od = None /\ st1 = st.
Proof.
  unfold DoclingGutenOCRProcessor.step_docling.
  destruct (DoclingGutenOCRProcessor.use_docling self
            && extract_structure)%bool.
  - destruct (process_with_docling_returns self file_path extract_tables st)
      as (d & Hrun & Hshape & _).
    rewrite (bind_inr _ _ _ _ _ Hrun).
    exists (Some d). eexists. split; [reflexivity|].
    exists d. repeat split; assumption.
  - exists None, st. repeat split.
Qed.

(** Step 2 stores the payload of [process_image] when OCR is asked for. *)
Lemma step_gutenocr_run self file_path ocr_images result st :
  exists og st1,
    DoclingGutenOCRProcessor.step_gutenocr rt self file_path ocr_images
      result st
    = (inr match og with
           | Some g =>
               let result :=
                 dict_set_in (dict_set result "gutenocr_ocr" (PDict g))
                   "metadata" "gutenocr_processed" (PBool true) in
               if truthy (dict_get g "success")
               then dict_set result "combined_text"
                      (dict_get_or g "text" (PStr ""))
               else result
           | None => result
           end, st1)
    /\ if ocr_images
       then exists g,
           og = Some g
           /\ GutenOCREngine.process_image rt
                (DoclingGutenOCRProcessor.gutenocr self) file_path
                "reading" "TEXT2D" 4096 None st = (inr g, st1)
           /\ ocr_shaped g
       else og = None /\ st1 = st.
Proof.
  unfold DoclingGutenOCRProcessor.step_gutenocr.
  destruct ocr_images.
  - destruct (process_image_returns rt
                (DoclingGutenOCRProcessor.gutenocr self) file_path
                "reading" "TEXT2D" 4096 None st)
      as (g & st1 & Hrun & _).
    rewrite (bind_inr _ _ _ _ _ Hrun).
    exists (Some g), st1. split; [reflexivity|].
    exists g. repeat split; [assumption|].
    eapply process_image_shaped; eauto.
  - exists None, st. repeat split.
Qed.

Lemma now_run st : now st = (inr (clock st), docling_start st).
Proof. reflexivity. Qed.

(** [process_document] never raises.  It returns the dict built from the
    payloads of the stages that ran; step 1 runs in the state after the
    timestamp was taken, step 2 in the state step 1 left. *)
Lemma process_document_run self file_path extract_structure
    extract_tables ocr_images st :
  exists od og st',
    DoclingGutenOCRProcessor.process_document rt self file_path
      extract_structure extract_tables ocr_images st
    = (inr (document_result rt file_path (rt_isoformat rt (clock st))
              od og), st')
    /\ (if (DoclingGutenOCRProcessor.use_docling self
            && extract_structure)%bool
        then exists d,
            od = Some d
            /\ DoclingGutenOCRProcessor._process_with_docling rt self
                 file_path extract_tables (docling_start st)
               = (inr d, ocr_start rt self file_path extract_structure
                           extract_tables st)
            /\ docling_shaped d
        else od = None
             /\ ocr_start rt self file_path extract_structure
                  extract_tables st = docling_start st)
    /\ (if ocr_images
        then exists g,
            og = Some g
            /\ GutenOCREngine.process_image rt
                 (DoclingGutenOCRProcessor.gutenocr self) file_path
                 "reading" "TEXT2D" 4096 None
                 (ocr_start rt self file_path extract_structure
                    extract_tables st)
               = (inr g, st')
            /\ ocr_shaped g
        else og = None
             /\ st' = ocr_start rt self file_path extract_structure
                        extract_tables st).
Proof.
  unfold DoclingGutenOCRProcessor.process_document.
  rewrite (bind_inr _ _ _ _ _ (now_run st)).
  set (r0 := DoclingGutenOCRProcessor.initial_result file_path
               (rt_isoformat rt (clock st))).
  destruct (step_docling_run self file_path extract_structure
              extract_tables r0 (docling_start st))
    as (od & st1 & Hstep1 & Hod).
  assert (Hst1 : ocr_start rt self file_path extract_structure
                   extract_tables st = st1).
  { unfold ocr_start. fold r0. rewrite Hstep1. reflexivity. }
  rewrite Hst1.
  match type of Hstep1 with _ = (inr ?r, _) => set (r1 := r) in * end.
  destruct (step_gutenocr_run self file_path ocr_images r1 st1)
    as (og & st2 & Hstep2 & Hog).
  exists od, og, st2.
  split; [|split; [exact Hod|exact Hog]].
  unfold bind. cbn [run_statements]. rewrite Hstep1, Hstep2.
  assert (Hd : forall d, od = Some d -> docling_shaped d).
  { intros d ->.
    destruct (DoclingGutenOCRProcessor.use_docling self
              && extract_structure)%bool.
    - destruct Hod as (d' & Heq & _ & Hs). inversion Heq. exact Hs.
    - destruct Hod as [Heq _]. discriminate. }
  assert (Hg : forall g, og = Some g -> ocr_shaped g).
  { intros g ->. destruct ocr_images.
    - destruct Hog as (g' & Heq & _ & Hs). inversion Heq. exact Hs.
    - destruct Hog as [Heq _]. discriminate. }
  clear Hstep1 Hstep2 Hod Hog Hst1.
  unfold DoclingGutenOCRProcessor.step_combine.
  destruct od as [d|], og as [g|]; subst r1 r0;
    try pose proof (docling_shaped_truthy d (Hd d eq_refl)) as Td;
    try pose proof (ocr_shaped_truthy g (Hg g eq_refl)) as Tg.
  - destruct (truthy (dict_get g "success"));
      cbn -[truthy DoclingGutenOCRProcessor._merge_results];
      rewrite Td, Tg; cbn -[DoclingGutenOCRProcessor._merge_results];
      rewrite (bind_inr _ _ _ _ _
                 (merge_results_shaped d g st2 (Hd d eq_refl)
                    (Hg g eq_refl)));
      reflexivity.
  - cbn -[truthy]. rewrite Td. reflexivity.
  - destruct (truthy (dict_get g "success"));
      cbn -[truthy]; rewrite Tg; reflexivity.
  - reflexivity.
Qed.

Lemma docling_payload_of_try self file_path extract_tables st d st' :
  DoclingGutenOCRProcessor._process_with_docling rt self file_path
    extract_tables st = (inr d, st') ->
  match fst (DoclingGutenOCRProcessor._process_with_docling_try rt
               file_path extract_tables st) with
  | inl e => d = docling_failure e
  | inr d' => d = d'
  end.
Proof.
  unfold DoclingGutenOCRProcessor._process_with_docling, try_except.
  destruct (DoclingGutenOCRProcessor._process_with_docling_try rt
              file_path extract_tables st) as [[e|d'] st1];
    cbn; intros H; inversion H; reflexivity.
Qed.

Lemma ocr_payload_of_try self image_path task_type output_format
    max_new_tokens custom_prompt st g st' :
  GutenOCREngine.process_image rt self image_path task_type output_format
    max_new_tokens custom_prompt st = (inr g, st') ->
  match fst (GutenOCREngine.process_image_try rt self image_path
               task_type output_format max_new_tokens custom_prompt st) with
  | inl e => g = ocr_failure image_path e
  | inr g' => g = g'
  end.
Proof.
  unfold GutenOCREngine.process_image, try_except.
  destruct (GutenOCREngine.process_image_try rt self image_path task_type
              output_format max_new_tokens custom_prompt st)
    as [[e|g'] st1];
    cbn; intros H; inversion H; reflexivity.
Qed.

(** [process_image] opens the image first, whatever happens next. *)
Lemma process_image_events self image_path task_type output_format
    max_new_tokens custom_prompt st :
  exists tail,
    events (snd (GutenOCREngine.process_image rt self image_path task_type
                   output_format max_new_tokens custom_prompt st))
    = (events st ++ EvImageOpen image_path :: tail)%list.
Proof.
  unfold GutenOCREngine.process_image, GutenOCREngine.process_image_try,
    GutenOCREngine.process_image_except, GutenOCREngine.inputs_input_ids.
  unfold_monad. cbn.
  destruct (rt_image_open rt (events st) image_path) as [e|[]]; cbn;
    [exists []; reflexivity|].
  destruct (rt_encode rt _ _ _) as [e|input_ids]; cbn;
    [exists []; reflexivity|].
  destruct (rt_generate rt _ _ _ _) as [e|generated_ids]; cbn;
    [eexists; rewrite <- app_assoc; reflexivity|].
  destruct (GutenOCREngine.use_cpu self); cbn;
    [eexists; rewrite <- app_assoc; reflexivity|].
  destruct (rt_batch_decode rt _ _) as [e|output_text]; cbn;
    [eexists; rewrite <- app_assoc; reflexivity|].
  destruct output_text as [|text rest]; cbn;
    eexists; rewrite <- app_assoc; reflexivity.
Qed.

Lemma new_events_app st st' l :
  events st' = (events st ++ l)%list -> new_events st st' = l.
Proof.
  intros H. unfold new_events. rewrite H.
  generalize (events st) as evs.
  induction evs as [|ev evs IH]; [reflexivity|exact IH].
Qed.

(** What one call of [process_document] leaves behind. *)
Lemma process_document_records self file_path extract_structure
    extract_tables ocr_images st :
  exists result st' tail,
    DoclingGutenOCRProcessor.process_document rt self file_path
      extract_structure extract_tables ocr_images st = (inr result, st')
    /\ stage_failures_recorded rt self extract_structure extract_tables
         ocr_images file_path st result
    /\ new_events st st'
       = ((if (DoclingGutenOCRProcessor.use_docling self
               && extract_structure)%bool
           then [ EvConvert file_path ] else [])
          ++ (if ocr_images then EvImageOpen file_path :: tail else []))%list.
Proof.
  destruct (process_document_run self file_path extract_structure
              extract_tables ocr_images st)
    as (od & og & st' & Hrun & Hod & Hog).
  unfold stage_failures_recorded, docling_outcome_recorded,
    ocr_outcome_recorded.
  set (st1 := ocr_start rt self file_path extract_structure
                extract_tables st) in *.
  assert (Hev1 : events st1
                 = (events st
                    ++ (if (DoclingGutenOCRProcessor.use_docling self
                            && extract_structure)%bool
                        then [ EvConvert file_path ] else []))%list).
  { destruct (DoclingGutenOCRProcessor.use_docling self
              && extract_structure)%bool.
    - destruct Hod as (d & _ & Hd & _).
      destruct (process_with_docling_returns self file_path extract_tables
                  (docling_start st)) as (d' & Hd' & _).
      rewrite Hd' in Hd. inversion Hd as [[Heq Hst]]. reflexivity.
    - destruct Hod as [_ ->]. cbn. rewrite app_nil_r. reflexivity. }
  assert (Hev2 : exists tail,
             events st'
             = (events st1
                ++ (if ocr_images then EvImageOpen file_path :: tail
                    else []))%list).
  { destruct ocr_images.
    - destruct Hog as (g & _ & Hg & _).
      destruct (process_image_events
                  (DoclingGutenOCRProcessor.gutenocr self) file_path
                  "reading" "TEXT2D" 4096%Z None st1) as (tail & Ht).
      rewrite Hg in Ht. exists tail. exact Ht.
    - destruct Hog as [_ ->]. exists []. rewrite app_nil_r. reflexivity. }
  destruct Hev2 as (tail & Hev2).
  exists (document_result rt file_path (rt_isoformat rt (clock st)) od og),
    st', tail.
  split; [exact Hrun|]. split.
  - split; [reflexivity|]. split; [reflexivity|]. split; [reflexivity|].
    split.
    + destruct (DoclingGutenOCRProcessor.use_docling self
                && extract_structure)%bool.
      * destruct Hod as (d & -> & Hd & _).
        pose proof (docling_payload_of_try _ _ _ _ _ _ Hd) as Hp.
        destruct (fst (DoclingGutenOCRProcessor._process_with_docling_try
                         rt file_path extract_tables (docling_start st)));
          subst; reflexivity.
      * destruct Hod as [-> _]. reflexivity.
    + destruct ocr_images.
      * destruct Hog as (g & -> & Hg & _).
        pose proof (ocr_payload_of_try _ _ _ _ _ _ _ _ _ Hg) as Hp.
        fold st1.
        destruct (fst (GutenOCREngine.process_image_try rt
                         (DoclingGutenOCRProcessor.gutenocr self) file_path
                         "reading" "TEXT2D" 4096 None st1));
          subst; reflexivity.
      * destruct Hog as [-> _]. reflexivity.
  - apply new_events_app. rewrite Hev2, Hev1, <- app_assoc. reflexivity.
Qed.

Lemma string_app_assoc (a b c : string) : (a ++ b) ++ c = a ++ b ++ c.
Proof. induction a as [|x a IH]; cbn; [reflexivity|]. now rewrite IH. Qed.

Lemma join_cons sep x l :
  l <> [] -> join sep (x :: l) = x ++ sep ++ join sep l.
Proof. destruct l; [contradiction|reflexivity]. Qed.

(** An element of a joined list is a piece of the joined string. *)
Lemma join_through sep :
  forall l x r, exists pre post, join sep (l ++ x :: r)%list = pre ++ x ++ post.
Proof.
  induction l as [|a l IH]; intros x r.
  - exists "". destruct r as [|y r].
    + exists "". cbn. induction x; cbn; congruence.
    + exists (sep ++ join sep (y :: r)). reflexivity.
  - destruct (IH x r) as (pre & post & H).
    exists (a ++ sep ++ pre), post.
    change ((a :: l) ++ x :: r)%list with (a :: (l ++ x :: r))%list.
    rewrite join_cons by (destruct l; discriminate).
    rewrite H, !string_app_assoc. reflexivity.
Qed.

(** When the three sections are all there, the three banners come in the
    order structure, tables, OCR. *)
Lemma banners_in_fixed_order d g :
  structure_section d <> [] ->
  tables_section rt d <> [] ->
  ocr_section g <> [] ->
  exists a b c,
    join nl (structure_section d ++ tables_section rt d ++ ocr_section g)%list
    = DoclingGutenOCRProcessor.banner_structure ++ a
      ++ DoclingGutenOCRProcessor.banner_tables ++ b
      ++ DoclingGutenOCRProcessor.banner_ocr ++ c.
Proof.
  unfold structure_section, tables_section, ocr_section.
  destruct (text_of d =? ""); [contradiction|]. intros _.
  destruct (tables_of d) as [|table tables]; [contradiction|]. intros _.
  destruct (truthy (dict_get g "success") && negb (text_of g =? ""))%bool;
    [|contradiction]. intros _.
  set (lines := tables_lines rt 1 (table :: tables)).
  destruct (join_through nl lines DoclingGutenOCRProcessor.banner_ocr
              [ text_of g ]) as (pre & post & H).
  exists (nl ++ text_of d ++ nl ++ nl ++ nl), (nl ++ pre), post.
  cbn [app].
  rewrite !join_cons by discriminate.
  rewrite (join_cons nl DoclingGutenOCRProcessor.banner_tables)
    by (destruct lines; discriminate).
  rewrite H, !string_app_assoc. reflexivity.
Qed.

(** C1, as the code has it: [process_document] always returns, the
    payload of a stage is there exactly when the stage was enabled, and
    [combined_text] and [metadata.processing_mode] follow the payloads.
    With both payloads the mode is "combined" and the text is the
    newline-join of three sections in the order structure, tables, OCR;
    a section opens with its banner and is left out, banner included, when
    it has nothing to show: no structure text, no table, no successful
    non-empty OCR text.  When the three sections are there, the text
    carries the three banners in that order.  With the structure payload
    alone the mode is
    "docling_only" and the text is the payload's [text] as it is ("" for
    an error payload); with the OCR payload alone the mode is
    "gutenocr_only" and the text is that payload's [text] ("" after a
    failure). *)
Theorem process_document_merge_policy self file_path extract_structure
    extract_tables ocr_images st :
  exists result st',
    DoclingGutenOCRProcessor.process_document rt self file_path
      extract_structure extract_tables ocr_images st = (inr result, st')
    /\ truthy (dict_get result "docling_structure")
       = (DoclingGutenOCRProcessor.use_docling self
          && extract_structure)%bool
    /\ truthy (dict_get result "gutenocr_ocr") = ocr_images
    /\ match dict_get result "docling_structure",
             dict_get result "gutenocr_ocr" with
       | PDict d, PDict g =>
           dict_get result "combined_text"
           = PStr (join nl (structure_section d ++ tables_section rt d
                            ++ ocr_section g)%list)
           /\ processing_mode result = Some (PStr "combined")
           /\ (structure_section d <> [] ->
               tables_section rt d <> [] ->
               ocr_section g <> [] ->
               exists a b c,
                 dict_get result "combined_text"
                 = PStr (DoclingGutenOCRProcessor.banner_structure ++ a
                         ++ DoclingGutenOCRProcessor.banner_tables ++ b
                         ++ DoclingGutenOCRProcessor.banner_ocr ++ c))
       | PDict d, _ =>
           dict_get result "combined_text"
           = dict_get_or d "text" (PStr "")
           /\ processing_mode result = Some (PStr "docling_only")
       | _, PDict g =>
           dict_get result "combined_text"
           = dict_get_or g "text" (PStr "")
           /\ processing_mode result = Some (PStr "gutenocr_only")
       | _, _ =>
           dict_get result "combined_text" = PStr ""
           /\ processing_mode result = None
       end.
Proof.
  destruct (process_document_run self file_path extract_structure
              extract_tables ocr_images st)
    as (od & og & st' & Hrun & Hod & Hog).
  exists (document_result rt file_path (rt_isoformat rt (clock st)) od og),
    st'.
  split; [exact Hrun|].
  change (dict_get (document_result rt file_path
                      (rt_isoformat rt (clock st)) od og)
            "docling_structure") with (payload od).
  change (dict_get (document_result rt file_path
                      (rt_isoformat rt (clock st)) od og)
            "gutenocr_ocr") with (payload og).
  split; [|split].
  - destruct (DoclingGutenOCRProcessor.use_docling self
              && extract_structure)%bool.
    + destruct Hod as (d & -> & _ & Hd). apply docling_shaped_truthy, Hd.
    + destruct Hod as [-> _]. reflexivity.
  - destruct ocr_images.
    + destruct Hog as (g & -> & _ & Hg). apply ocr_shaped_truthy, Hg.
    + destruct Hog as [-> _]. reflexivity.
  - destruct od as [d|], og as [g|]; try (split; reflexivity).
    split; [reflexivity|]. split; [reflexivity|].
    intros Hs Ht Ho.
    destruct (banners_in_fixed_order d g Hs Ht Ho) as (a & b & c & H).
    exists a, b, c. cbn [document_result dict_get dict_get_or dict_lookup
                         String.eqb Ascii.eqb Bool.eqb combined_text_of].
    rewrite H. reflexivity.
Qed.

(** C8: the two stages of [process_document] do not depend on each
    other's outcome.  The call returns; when structure extraction is on,
    the converter is called and the payload [docling_structure] holds what
    the [try] block of [_process_with_docling] returned or, when it raised
    [e], the error dict of [e]; when [ocr_images] is on, the image is then
    opened by [process_image] whatever the converter did, and
    [gutenocr_ocr] holds the outcome of its [try] block in the same way. *)
Theorem process_document_isolates_stages self file_path extract_structure
    extract_tables ocr_images st :
  exists result st' tail,
    DoclingGutenOCRProcessor.process_document rt self file_path
      extract_structure extract_tables ocr_images st = (inr result, st')
    /\ docling_outcome_recorded rt self file_path extract_structure
         extract_tables st result
    /\ ocr_outcome_recorded rt self file_path extract_structure
         extract_tables ocr_images st result
    /\ new_events st st'
       = ((if (DoclingGutenOCRProcessor.use_docling self
               && extract_structure)%bool
           then [ EvConvert file_path ] else [])
          ++ (if ocr_images then EvImageOpen file_path :: tail else []))%list.
Proof.
  destruct (process_document_records self file_path extract_structure
              extract_tables ocr_images st)
    as (result & st' & tail & Hrun & (_ & _ & _ & Hd & Hg) & Hev).
  exists result, st', tail. repeat split; assumption.
Qed.

(** Discovery reads the directory and leaves the state as it was. *)
Lemma discover_images_returns self recursive st :
  exists files,
    FileProcessor.discover_images rt self recursive st = (inr files, st).
Proof. eexists. reflexivity. Qed.

(** C2, as the code has it: a failure of the model or of the converter is
    caught inside its stage.  The combined [batch_process] calls
    [process_document] on every discovered file, in order, each call
    returns, and there is one result per file: it has [success = True] and
    no [error] of its own, and the stage that failed with [e] left its
    error payload, with [str(e)], under [gutenocr_ocr] or
    [docling_structure].  [batch_process] then returns these results,
    unless the aggregate JSON file cannot be opened. *)
Theorem batch_process_records_stage_failures self input_dir output_dir
    extract_structure extract_tables ocr_images st :
  exists files results st1,
    FileProcessor.discover_images rt
      (FileProcessor.Processor input_dir output_dir) true st
    = (inr files, st)
    /\ processed_in_turn
         (fun file_path =>
            DoclingGutenOCRProcessor.process_document rt self file_path
              extract_structure extract_tables ocr_images)
         (stage_failures_recorded rt self extract_structure extract_tables
            ocr_images)
         files st results st1
    /\ List.length results = List.length files
    /\ DoclingGutenOCRProcessor.batch_process rt self input_dir output_dir
         extract_structure extract_tables ocr_images st
       = match rt_open_w rt (events st1)
                 (combined_results_path rt output_dir st1) with
         | None =>
             (inr results,
              State (events st1
                     ++ [ EvWrite (combined_results_path rt output_dir st1)
                            (FJson (PList (map PDict results))) ])%list
                    (S (clock st1)))
         | Some e => (inl e, State (events st1) (S (clock st1)))
         end.
Proof.
  set (f := fun file_path =>
              DoclingGutenOCRProcessor.process_document rt self file_path
                extract_structure extract_tables ocr_images).
  set (P := stage_failures_recorded rt self extract_structure
              extract_tables ocr_images).
  assert (Hf : forall a st0, exists b st', f a st0 = (inr b, st') /\ P a st0 b).
  { intros a st0.
    destruct (process_document_records self a extract_structure
                extract_tables ocr_images st0)
      as (result & st' & _ & Hrun & Hrec & _).
    eauto. }
  destruct (discover_images_returns
              (FileProcessor.Processor input_dir output_dir) true st)
    as (files & Hdisc).
  destruct (mapM_processed f P Hf files st)
    as (results & st1 & Hloop & Hturn).
  exists files, results, st1.
  split; [exact Hdisc|]. split; [exact Hturn|]. split.
  - eapply processed_in_turn_length; eauto.
  - unfold DoclingGutenOCRProcessor.batch_process.
    rewrite (bind_inr _ _ _ _ _ Hdisc). fold f.
    rewrite (bind_inr _ _ _ _ _ Hloop).
    unfold with_open_w, combined_results_path. unfold_monad. cbn.
    destruct (rt_open_w rt (events st1) _); reflexivity.
Qed.

End CombinedProofs.

Lemma merge_policy_counterexample :
  exists result st' text,
    DoclingGutenOCRProcessor.process_document Demo.rt Demo.processor
      "letter.pdf" true true true Demo.start = (inr result, st')
    /\ truthy (dict_get result "docling_structure") = true
    /\ truthy (dict_get result "gutenocr_ocr") = true
    /\ processing_mode result = Some (PStr "combined")
    /\ dict_get result "combined_text" = PStr text
    /\ contains "DOCUMENT STRUCTURE" text = true
    /\ contains "OCR CONTENT" text = true
    /\ contains "EXTRACTED TABLES" text = false.
Proof.
  do 3 eexists. split; [vm_compute; reflexivity|].
  repeat split; vm_compute; reflexivity.
Qed.

Lemma process_document_merge_policy_witness :
  exists result st' a b c,
    DoclingGutenOCRProcessor.process_document Demo.rt Demo.processor
      "report.pdf" true true true Demo.start = (inr result, st')
    /\ dict_get result "combined_text"
       = PStr (DoclingGutenOCRProcessor.banner_structure ++ a
               ++ DoclingGutenOCRProcessor.banner_tables ++ b
               ++ DoclingGutenOCRProcessor.banner_ocr ++ c).
Proof.
  destruct (process_document_merge_policy Demo.rt Demo.processor
              "report.pdf" true true true Demo.start)
    as (result & st' & Hrun & _ & _ & Hpolicy).
  vm_compute in Hrun. inversion Hrun; subst result st'. clear Hrun.
  cbn in Hpolicy. destruct Hpolicy as (_ & _ & Horder).
  destruct Horder as (a & b & c & H); try (vm_compute; discriminate).
  do 2 eexists. exists a, b, c.
  split; [vm_compute; reflexivity|exact H].
Defined.

Lemma stage_failure_counterexample :
  exists e st1 result st',
    GutenOCREngine.process_image_try Demo.rt Demo.engine "blurry.png"
      "reading" "TEXT2D" 4096 None
      (ocr_start Demo.rt Demo.processor "blurry.png" true true Demo.start)
    = (inl e, st1)
    /\ DoclingGutenOCRProcessor.process_document Demo.rt Demo.processor
         "blurry.png" true true true Demo.start = (inr result, st')
    /\ dict_get result "success" = PBool true
    /\ dict_lookup result "error" = None
    /\ (exists quiet st2,
           DoclingGutenOCRProcessor.process_document Demo.rt Demo.processor
             "silent.png" false true true Demo.start = (inr quiet, st2)
           /\ dict_get quiet "success" = PBool true
           /\ dict_get quiet "gutenocr_ocr"
              = PDict [ ("success", PBool false);
                        ("image_path", PStr "silent.png");
                        ("error", PStr "") ]).
Proof.
  do 4 eexists. split; [vm_compute; reflexivity|].
  split; [vm_compute; reflexivity|].
  split; [vm_compute; reflexivity|].
  split; [vm_compute; reflexivity|].
  do 2 eexists. split; [vm_compute; reflexivity|].
  split; vm_compute; reflexivity.
Qed.

(* ================================================================== *)
(** * Proofs: file_processor.py, discovery                             *)
(* ================================================================== *)

(** ** The order of [sorted] *)

Lemma ascii_compare_lt_trans a b c :
  Ascii.compare a b = Lt -> Ascii.compare b c = Lt ->
  Ascii.compare a c = Lt.
Proof.
  unfold Ascii.compare. rewrite !N.compare_lt_iff. apply N.lt_trans.
Qed.

Lemma string_leb_trans :
  forall s1 s2 s3,
    String.leb s1 s2 = true -> String.leb s2 s3 = true ->
    String.leb s1 s3 = true.
Proof.
  unfold String.leb.
  induction s1 as [|a s1 IH]; intros [|b s2] [|c s3]; cbn; try congruence.
  destruct (Ascii.compare a b) eqn:Eab; try congruence.
  - apply Ascii.compare_eq_iff in Eab. subst b.
    destruct (Ascii.compare a c) eqn:Eac; try congruence.
    apply IH.
  - intros _.
    destruct (Ascii.compare b c) eqn:Ebc; try congruence.
    + apply Ascii.compare_eq_iff in Ebc. subst c. rewrite Eab. reflexivity.
    + rewrite (ascii_compare_lt_trans a b c Eab Ebc). reflexivity.
Qed.

Lemma sorted_is_sorted l : sorted_strings (sorted l).
Proof.
  unfold sorted_strings, sorted.
  apply StringSort.StronglySorted_sort.
  intros x y z Hxy Hyz. exact (string_leb_trans x y z Hxy Hyz).
Qed.

Lemma sorted_In l x : In x (sorted l) <-> In x l.
Proof.
  unfold sorted. split; intros H.
  - eapply Permutation_in; [|exact H].
    apply Permutation_sym, StringSort.Permuted_sort.
  - eapply Permutation_in; [|exact H]. apply StringSort.Permuted_sort.
Qed.

(** A sorted list is determined by its elements. *)
Lemma sorted_strings_unique :
  forall l1 l2,
    sorted_strings l1 -> sorted_strings l2 -> Permutation l1 l2 ->
    l1 = l2.
Proof.
  unfold sorted_strings.
  induction l1 as [|a l1 IH]; intros l2 H1 H2 HP.
  - apply Permutation_nil in HP. congruence.
  - destruct l2 as [|b l2].
    + apply Permutation_sym, Permutation_nil in HP. discriminate.
    + inversion H1 as [|? ? S1 F1]; subst.
      inversion H2 as [|? ? S2 F2]; subst.
      assert (Hab : a = b).
      { assert (Ia : In a (b :: l2))
          by (eapply Permutation_in; [exact HP|now left]).
        assert (Ib : In b (a :: l1))
          by (eapply Permutation_in;
              [apply Permutation_sym; exact HP|now left]).
        destruct Ia as [->|Ia]; [reflexivity|].
        destruct Ib as [->|Ib]; [reflexivity|].
        rewrite Forall_forall in F1, F2.
        apply String.leb_antisym; auto. }
      subst b. f_equal. apply IH; auto.
      eapply Permutation_cons_inv; eauto.
Qed.

Lemma sorted_permutation l1 l2 :
  Permutation l1 l2 -> sorted l1 = sorted l2.
Proof.
  intros HP. apply sorted_strings_unique; try apply sorted_is_sorted.
  unfold sorted.
  eapply Permutation_trans;
    [apply Permutation_sym, StringSort.Permuted_sort|].
  eapply Permutation_trans; [exact HP|]. apply StringSort.Permuted_sort.
Qed.

(** ** Suffixes and paths *)

Lemma mentions_eq c s1 s2 : s1 = s2 -> mentions c s1 = mentions c s2.
Proof. intros ->. reflexivity. Qed.

Lemma mentions_append c pre rest :
  mentions c (pre ++ String c rest) = true.
Proof.
  induction pre as [|a pre IH]; cbn.
  - rewrite Ascii.eqb_refl. reflexivity.
  - rewrite IH. apply orb_true_r.
Qed.

(** A suffix without "/" is looked for in the last component of a path. *)
Lemma ends_with_after_slash suffix pre name :
  mentions "/"%char suffix = false ->
  ends_with suffix (pre ++ String "/"%char name) = ends_with suffix name.
Proof.
  intros Hs.
  assert (Hne : forall p, (p ++ String "/"%char name =? suffix) = false).
  { intros p. apply String.eqb_neq. intros Heq.
    apply (mentions_eq "/"%char) in Heq.
    rewrite mentions_append, Hs in Heq. discriminate. }
  induction pre as [|a pre IH].
  - pose proof (Hne "") as H0. cbn [append] in H0.
    cbn [append ends_with]. rewrite H0. reflexivity.
  - pose proof (Hne (String a pre)) as H0. cbn [append] in H0.
    cbn [append ends_with]. rewrite H0. exact IH.
Qed.

Lemma ends_with_path_join suffix dir name :
  mentions "/"%char suffix = false ->
  ends_with suffix (path_join dir name) = ends_with suffix name.
Proof.
  intros Hs. unfold path_join.
  destruct (dir =? "."); [reflexivity|].
  destruct (dir =? "/").
  - apply (ends_with_after_slash suffix "" name Hs).
  - apply (ends_with_after_slash suffix dir name Hs).
Qed.

(** ** Directory trees *)

Lemma fsnode_induction (P : fsnode -> Prop) :
  (forall name, P (File name)) ->
  (forall name children, Forall P children -> P (Dir name children)) ->
  forall n, P n.
Proof.
  intros Hfile Hdir. fix IH 1. intros [name|name children].
  - apply Hfile.
  - apply Hdir. induction children as [|c cs IHcs]; constructor.
    + apply IH.
    + exact IHcs.
Qed.

(** The path of an entry ends with its name. *)
Lemma walk_node_path :
  forall n dir m path,
    In (m, path) (walk_node n dir) ->
    exists d, path = path_join d (FileProcessor.node_name m).
Proof.
  induction n as [name|name children IH] using fsnode_induction;
    intros dir m path Hin; cbn in Hin.
  - destruct Hin as [Heq|[]]. inversion Heq; subst. eauto.
  - destruct Hin as [Heq|Hin]; [inversion Heq; subst; eauto|].
    apply in_flat_map in Hin. destruct Hin as (c & Hc & Hin).
    rewrite Forall_forall in IH. eapply IH; eauto.
Qed.

Lemma scanned_path recursive dir entries m path :
  In (m, path) (scanned recursive dir entries) ->
  exists d, path = path_join d (FileProcessor.node_name m).
Proof.
  unfold scanned. destruct recursive; intros Hin.
  - apply in_flat_map in Hin. destruct Hin as (c & _ & Hin).
    eapply walk_node_path; eauto.
  - apply in_map_iff in Hin. destruct Hin as (c & Heq & _).
    inversion Heq; subst. eauto.
Qed.

Lemma rglob_node_In suffix :
  forall n dir path,
    In path (FileProcessor.rglob_node suffix n dir)
    <-> exists m, In (m, path) (walk_node n dir)
                  /\ ends_with suffix (FileProcessor.node_name m) = true.
Proof.
  induction n as [name|name children IH] using fsnode_induction;
    intros dir path; cbn [FileProcessor.rglob_node walk_node].
  - destruct (ends_with suffix name) eqn:E; split.
    + intros [<-|[]]. exists (File name). split; [now left|exact E].
    + intros (m & [Heq|[]] & _). inversion Heq. now left.
    + intros [].
    + intros (m & [Heq|[]] & Hm). inversion Heq; subst. cbn in Hm.
      congruence.
  - rewrite Forall_forall in IH. rewrite in_app_iff, in_flat_map. split.
    + intros [H|(c & Hc & H)].
      * destruct (ends_with suffix name) eqn:E; [|destruct H].
        destruct H as [<-|[]].
        exists (Dir name children). split; [now left|exact E].
      * apply (IH c Hc) in H. destruct H as (m & Hm & Em).
        exists m. split; [|exact Em].
        right. apply in_flat_map. eauto.
    + intros (m & [Heq|Hm] & Em).
      * inversion Heq; subst. cbn in Em. rewrite Em. left. now left.
      * apply in_flat_map in Hm. destruct Hm as (c & Hc & Hm).
        right. exists c. split; [exact Hc|].
        apply (IH c Hc). eauto.
Qed.

(** A scan for a suffix returns the paths of the scanned entries whose
    name ends with it. *)
Lemma scan_In (recursive : bool) dir entries suffix path :
  In path ((if recursive then FileProcessor.rglob else FileProcessor.glob)
             dir entries suffix)
  <-> exists m, In (m, path) (scanned recursive dir entries)
                /\ ends_with suffix (FileProcessor.node_name m) = true.
Proof.
  unfold scanned. destruct recursive.
  - unfold FileProcessor.rglob. rewrite in_flat_map. split.
    + intros (c & Hc & H). apply rglob_node_In in H.
      destruct H as (m & Hm & Em). exists m. split; [|exact Em].
      apply in_flat_map. eauto.
    + intros (m & Hm & Em). apply in_flat_map in Hm.
      destruct Hm as (c & Hc & Hm). exists c. split; [exact Hc|].
      apply rglob_node_In. eauto.
  - unfold FileProcessor.glob. rewrite in_map_iff. split.
    + intros (name & <- & H). apply filter_In in H. destruct H as [H E].
      apply in_map_iff in H. destruct H as (c & <- & Hc).
      exists c. split; [|exact E]. apply in_map_iff. eauto.
    + intros (m & Hm & Em). apply in_map_iff in Hm.
      destruct Hm as (c & Heq & Hc). inversion Heq; subst.
      exists (FileProcessor.node_name m). split; [reflexivity|].
      apply filter_In. split; [|exact Em]. apply in_map_iff. eauto.
Qed.

Lemma existsb_ext_in {A} (f g : A -> bool) (l : list A) :
  (forall x, In x l -> f x = g x) -> existsb f l = existsb g l.
Proof.
  induction l as [|a l IH]; intros H; cbn; [reflexivity|].
  rewrite (H a (or_introl eq_refl)), IH; [reflexivity|].
  intros x Hx. apply H. now right.
Qed.

Lemma accepted_iff name :
  accepted name = true
  <-> exists ext,
        In ext FileProcessor.SUPPORTED_EXTENSIONS
        /\ (ends_with ext name = true
            \/ ends_with (upper ext) name = true).
Proof.
  unfold accepted. rewrite existsb_exists.
  split; intros (ext & Hin & H); exists ext; (split; [exact Hin|]).
  - apply orb_true_iff. exact H.
  - apply orb_true_iff. exact H.
Qed.

(** No extension of the list holds a "/", in either case. *)
Lemma extensions_without_slash ext :
  In ext FileProcessor.SUPPORTED_EXTENSIONS ->
  mentions "/"%char ext = false /\ mentions "/"%char (upper ext) = false.
Proof.
  intros Hin.
  assert (Hall : forallb (fun e => (negb (mentions "/"%char e)
                                    && negb (mentions "/"%char (upper e)))%bool)
                   FileProcessor.SUPPORTED_EXTENSIONS = true)
    by reflexivity.
  rewrite forallb_forall in Hall. specialize (Hall ext Hin).
  apply andb_true_iff in Hall. destruct Hall as [H1 H2].
  apply negb_true_iff in H1, H2. auto.
Qed.

(** Whether an entry is accepted can be read off its path. *)
Lemma accepted_by_path recursive dir entries m path :
  In (m, path) (scanned recursive dir entries) ->
  accepted (FileProcessor.node_name m) = accepted path.
Proof.
  intros Hin. apply scanned_path in Hin. destruct Hin as (d & ->).
  unfold accepted. apply existsb_ext_in. intros ext Hext.
  destruct (extensions_without_slash ext Hext) as [H1 H2].
  rewrite !ends_with_path_join by assumption. reflexivity.
Qed.

Section DiscoveryProofs.
Variable rt : runtime.

(** What is found does not depend on the order of the extensions beyond
    their being the same extensions. *)
Lemma discovered_In order (recursive : bool) dir entries path :
  Permutation order FileProcessor.SUPPORTED_EXTENSIONS ->
  In path (discovered order recursive dir entries)
  <-> exists m, In (m, path) (scanned recursive dir entries)
                /\ accepted (FileProcessor.node_name m) = true.
Proof.
  intros HP. unfold discovered. rewrite sorted_In, in_flat_map. split.
  - intros (ext & Hext & H). apply in_app_iff in H.
    assert (Hsup : In ext FileProcessor.SUPPORTED_EXTENSIONS)
      by (eapply Permutation_in; eauto).
    destruct H as [H|H]; apply scan_In in H;
      destruct H as (m & Hm & Em); exists m; (split; [exact Hm|]);
      apply accepted_iff; exists ext; auto.
  - intros (m & Hm & Hacc). apply accepted_iff in Hacc.
    destruct Hacc as (ext & Hsup & H). exists ext. split.
    + eapply Permutation_in; [apply Permutation_sym; exact HP|exact Hsup].
    + apply in_app_iff.
      destruct H as [H|H]; [left|right]; apply scan_In; eauto.
Qed.

Lemma discovered_order_irrelevant order1 order2 recursive dir entries :
  Permutation order1 order2 ->
  discovered order1 recursive dir entries
  = discovered order2 recursive dir entries.
Proof.
  intros HP. unfold discovered. apply sorted_permutation.
  apply Permutation_flat_map. exact HP.
Qed.

(** C5, as the code has it: [discover_images] returns a lexicographically
    sorted list.  A file of the scanned tree is in it exactly when its name
    ends with an extension of the allow-list written all in lower case or
    all in upper case; every path in the list is that of a scanned entry
    with such a name; and the list is the same for every order in which
    the extension set may be iterated, so it is the same from run to run
    on the same tree.  The extension set has to be iterated as a set:
    every extension once. *)
Theorem discover_images_sorted_exact self recursive st :
  Permutation (rt_iter_set rt FileProcessor.SUPPORTED_EXTENSIONS)
    FileProcessor.SUPPORTED_EXTENSIONS ->
  exists files,
    FileProcessor.discover_images rt self recursive st = (inr files, st)
    /\ sorted_strings files
    /\ (forall n path,
           In (n, path)
              (scanned recursive (FileProcessor.input_dir self)
                 (rt_tree rt (events st) (FileProcessor.input_dir self))) ->
           is_file n = true ->
           (In path files <-> accepted (FileProcessor.node_name n) = true))
    /\ (forall path,
           In path files ->
           exists n,
             In (n, path)
                (scanned recursive (FileProcessor.input_dir self)
                   (rt_tree rt (events st) (FileProcessor.input_dir self)))
             /\ accepted (FileProcessor.node_name n) = true)
    /\ (forall order,
           Permutation order FileProcessor.SUPPORTED_EXTENSIONS ->
           files = discovered order recursive (FileProcessor.input_dir self)
                     (rt_tree rt (events st) (FileProcessor.input_dir self))).
Proof.
  intros HP.
  set (dir := FileProcessor.input_dir self).
  set (entries := rt_tree rt (events st) dir).
  exists (discovered (rt_iter_set rt FileProcessor.SUPPORTED_EXTENSIONS)
            recursive dir entries).
  split; [reflexivity|]. split; [apply sorted_is_sorted|].
  split; [|split].
  - intros n path Hin _. rewrite (discovered_In _ _ _ _ _ HP). split.
    + intros (m & Hm & Hacc).
      rewrite (accepted_by_path _ _ _ _ _ Hin).
      rewrite <- (accepted_by_path _ _ _ _ _ Hm). exact Hacc.
    + intros Hacc. exists n. auto.
  - intros path Hin. apply (discovered_In _ _ _ _ _ HP). exact Hin.
  - intros order Ho. apply discovered_order_irrelevant.
    eapply Permutation_trans; [exact HP|apply Permutation_sym; exact Ho].
Qed.

End DiscoveryProofs.

Lemma discover_images_sorted_exact_witness :
  exists files,
    FileProcessor.discover_images Demo.rt Demo.files true Demo.start
    = (inr files, Demo.start)
    /\ sorted_strings files
    /\ (In "input/scans/c.PDF" files <-> accepted "c.PDF" = true)
    /\ (In "input/notes.txt" files <-> accepted "notes.txt" = true).
Proof.
  destruct (discover_images_sorted_exact Demo.rt Demo.files true Demo.start)
    as (files & Hrun & Hsorted & Hfiles & _).
  - apply Permutation_sym, Permutation_rev.
  - exists files. split; [exact Hrun|]. split; [exact Hsorted|]. split.
    + apply (Hfiles (File "c.PDF")); [|reflexivity].
      cbn. repeat (first [left; reflexivity|right]).
    + apply (Hfiles (File "notes.txt")); [|reflexivity].
      cbn. repeat (first [left; reflexivity|right]).
Defined.

Lemma discover_images_counterexample :
  exists files,
    FileProcessor.discover_images Demo.rt Demo.files true Demo.start
    = (inr files, Demo.start)
    /\ In (File "a.Png", "input/a.Png")
          (scanned true "input" (rt_tree Demo.rt [] "input"))
    /\ accepted_ignoring_case "a.Png" = true
    /\ ~ In "input/a.Png" files.
Proof.
  eexists. split; [vm_compute; reflexivity|].
  split; [cbn; right; left; reflexivity|].
  split; [reflexivity|].
  intros H. cbn in H.
  repeat (destruct H as [H|H]; [discriminate|]). exact H.
Qed.

(* ================================================================== *)
(** * The model at work                                                *)
(* ================================================================== *)

(** With "json" and "txt" [save_results] returns the path of the file it
    wrote whenever that file can be opened. *)
Lemma save_results_json_txt rt self results format timestamp st :
  format = "json" \/ format = "txt" ->
  rt_open_w rt (events st) (results_path rt self format timestamp st)
  = None ->
  exists st' content,
    FileProcessor.save_results rt self results format timestamp st
    = (inr (results_path rt self format timestamp st), st')
    /\ new_events st st'
       = [ EvWrite (results_path rt self format timestamp st) content ].
Proof.
  intros [-> | ->] Hopen; unfold FileProcessor.save_results, results_path in *;
    destruct timestamp; unfold with_open_w; unfold_monad; cbn in *;
    rewrite Hopen; cbn; do 2 eexists;
    (split; [reflexivity|]); apply new_events_app; reflexivity.
Qed.

(** With "csv" and dicts of different key sets the header and the rows up
    to the offending dict are on disk when [ValueError] is raised. *)
Example save_results_csv_mixed_keys :
  FileProcessor.save_results Demo.rt Demo.files
    [ [ ("success", PBool true); ("image_path", PStr "a.png");
        ("text", PStr "Hello world") ];
      [ ("success", PBool false); ("image_path", PStr "b.png");
        ("error", PStr "No such file") ] ]
    "csv" false Demo.start
  = (inl (Exn ValueError
            "dict contains fields not in fieldnames: <repr>"),
     State [ EvWrite "output/ocr_results.csv"
               (FCsv [ [ PStr "success"; PStr "image_path"; PStr "text" ];
                       [ PBool true; PStr "a.png"; PStr "Hello world" ] ]) ]
           0).
Proof. reflexivity. Qed.

Example discover_images_demo :
  FileProcessor.discover_images Demo.rt Demo.files true Demo.start
  = (inr [ "input/a.tif"; "input/b.png"; "input/scans/c.PDF";
           "input/scans/d.jpeg" ],
     Demo.start).
Proof. vm_compute. reflexivity. Qed.

Example discover_images_demo_flat :
  FileProcessor.discover_images Demo.rt Demo.files false Demo.start
  = (inr [ "input/a.tif"; "input/b.png" ], Demo.start).
Proof. vm_compute. reflexivity. Qed.

(** On the CPU path every call ends in the [except] block, after the
    model has run. *)
Example process_image_on_cpu :
  GutenOCREngine.process_image Demo.rt
    (GutenOCREngine.Engine "rootsautomation/GutenOCR-3B" "auto" true)
    "b.png" "reading" "TEXT" 4096 None Demo.start
  = (inr [ ("success", PBool false);
           ("image_path", PStr "b.png");
           ("error", PStr "'dict' object has no attribute 'input_ids'") ],
     State [ EvImageOpen "b.png";
             EvGenerate "b.png"
               "Read all text in the image and return a single TEXT string, linearized left-to-right/top-to-bottom."
               4096 ]
           0).
Proof. reflexivity. Qed.

Example process_image_custom_prompt :
  dict_get
    (match fst (GutenOCREngine.process_image Demo.rt Demo.engine "b.png"
                  "reading" "TEXT" 4096 (Some "Read the title only.")
                  Demo.start) with
     | inr result => result
     | inl _ => []
     end)
    "prompt"
  = PStr "Read the title only.".
Proof. reflexivity. Qed.

Example get_statistics_demo :
  fst (FileProcessor.get_statistics Demo.rt Demo.files
         [ [ ("success", PBool true); ("image_path", PStr "a.png");
             ("text", PStr "Hello world") ];
           [ ("success", PBool false); ("image_path", PStr "b.png");
             ("error", PStr "No such file") ] ]
         Demo.start)
  = inr [ ("total_images", PInt 2);
          ("successful", PInt 1);
          ("failed", PInt 1);
          ("success_rate", PStr "<float>%");
          ("total_characters", PInt 11);
          ("average_characters_per_image", PStr "<float>");
          ("timestamp", PStr "2025-01-01T00:00:00") ].
Proof. reflexivity. Qed.

(** A structure payload that is an error dict still counts as a payload:
    the mode is "combined" and only the OCR section is left. *)
Example process_document_broken_pdf :
  exists result st',
    DoclingGutenOCRProcessor.process_document Demo.rt Demo.processor
      "broken.pdf" true true true Demo.start = (inr result, st')
    /\ dict_get result "docling_structure"
       = PDict [ ("error", PStr "File format not allowed") ]
    /\ processing_mode result = Some (PStr "combined")
    /\ dict_get result "combined_text"
       = PStr (DoclingGutenOCRProcessor.banner_ocr ++ nl ++ "Hello world")
    /\ events st'
       = [ EvConvert "broken.pdf"; EvImageOpen "broken.pdf";
           EvGenerate "broken.pdf"
             "Return a layout-sensitive TEXT2D representation of the image."
             4096 ].
Proof.
  do 2 eexists. split; [vm_compute; reflexivity|].
  repeat split; vm_compute; reflexivity.
Qed.

(* ================================================================== *)
(** * More about gutenocr_engine.py                                    *)
(* ================================================================== *)

Section EngineExtras.
Variable rt : runtime.

(** X1: with [use_cpu] no call of [process_image] succeeds.  The result is
    always a failure dict; when the image opens, the inputs are prepared
    and the model has generated, the error is the [AttributeError] of
    reading [input_ids] off the dict that replaced [inputs], and the model
    has been run for nothing. *)
Theorem process_image_cpu_always_fails self image_path task_type
    output_format max_new_tokens custom_prompt st :
  GutenOCREngine.use_cpu self = true ->
  exists e st',
    GutenOCREngine.process_image rt self image_path task_type output_format
      max_new_tokens custom_prompt st
    = (inr (ocr_failure image_path e), st')
    /\ (forall ids generated,
           rt_image_open rt (events st) image_path = inr tt ->
           rt_encode rt (events st ++ [ EvImageOpen image_path ])%list
             image_path (prompt_used custom_prompt task_type output_format)
           = inr ids ->
           rt_generate rt (events st ++ [ EvImageOpen image_path ])%list
             image_path (prompt_used custom_prompt task_type output_format)
             max_new_tokens
           = inr generated ->
           e = Exn AttributeError
                 "'dict' object has no attribute 'input_ids'"
           /\ new_events st st'
              = [ EvImageOpen image_path;
                  EvGenerate image_path
                    (prompt_used custom_prompt task_type output_format)
                    max_new_tokens ]).
Proof.
  intros Hcpu.
  unfold GutenOCREngine.process_image, GutenOCREngine.process_image_try,
    GutenOCREngine.process_image_except, GutenOCREngine.inputs_input_ids.
  fold (prompt_used custom_prompt task_type output_format).
  set (prompt := prompt_used custom_prompt task_type output_format).
  rewrite Hcpu. unfold_monad. cbn.
  destruct (rt_image_open rt (events st) image_path) as [e|[]]; cbn.
  { do 2 eexists. split; [reflexivity|]. intros ids gen H. discriminate. }
  destruct (rt_encode rt _ _ _) as [e|input_ids]; cbn.
  { do 2 eexists. split; [reflexivity|]. intros ids gen _ H. discriminate. }
  destruct (rt_generate rt _ _ _ _) as [e|generated_ids]; cbn.
  { do 2 eexists. split; [reflexivity|]. intros ids gen _ _ H.
    discriminate. }
  exists (Exn AttributeError "'dict' object has no attribute 'input_ids'").
  eexists. split; [reflexivity|]. intros ids gen _ _ _.
  split; [reflexivity|].
  apply new_events_app. cbn. rewrite <- app_assoc. reflexivity.
Qed.


Lemma skipn_app_exact {A} (a b : list A) :
  skipn (List.length a) (a ++ b) = b.
Proof. induction a as [|x a IH]; [reflexivity|exact IH]. Qed.

(** Cutting the echoed input ids off leaves the new ids. *)
Lemma trim_echoed :
  forall input_ids new_ids,
    List.length input_ids = List.length new_ids ->
    map (fun io => skipn (List.length (fst io)) (snd io))
      (combine input_ids (echoed input_ids new_ids))
    = new_ids.
Proof.
  unfold echoed.
  induction input_ids as [|i ins IH]; intros [|n news] Hlen;
    try discriminate; [reflexivity|].
  cbn. rewrite skipn_app_exact. f_equal. apply IH.
  cbn in Hlen. congruence.
Qed.

(** X3: [process_image] decodes the newly generated ids only.  When the
    model answers with the input ids followed by new ids, one sequence per
    input, the decoder is given exactly the new ids, and its first string
    becomes the text. *)
Theorem process_image_decodes_new_ids self image_path task_type
    output_format max_new_tokens custom_prompt st input_ids new_ids :
  GutenOCREngine.use_cpu self = false ->
  rt_image_open rt (events st) image_path = inr tt ->
  rt_encode rt (events st ++ [ EvImageOpen image_path ])%list image_path
    (prompt_used custom_prompt task_type output_format)
  = inr input_ids ->
  rt_generate rt (events st ++ [ EvImageOpen image_path ])%list image_path
    (prompt_used custom_prompt task_type output_format) max_new_tokens
  = inr (echoed input_ids new_ids) ->
  List.length input_ids = List.length new_ids ->
  let prompt := prompt_used custom_prompt task_type output_format in
  let history :=
    (events st
     ++ [ EvImageOpen image_path;
          EvGenerate image_path prompt max_new_tokens ])%list in
  GutenOCREngine.process_image rt self image_path task_type output_format
    max_new_tokens custom_prompt st
  = (inr match rt_batch_decode rt history new_ids with
         | inr (text :: _) =>
             ocr_success image_path task_type output_format text prompt
         | inr [] =>
             ocr_failure image_path
               (Exn IndexError "list index out of range")
         | inl e => ocr_failure image_path e
         end,
     State history (clock st)).
Proof.
  intros Hcpu Hopen Henc Hgen Hlen prompt history.
  unfold GutenOCREngine.process_image, GutenOCREngine.process_image_try,
    GutenOCREngine.process_image_except, GutenOCREngine.inputs_input_ids.
  fold (prompt_used custom_prompt task_type output_format). fold prompt.
  rewrite Hcpu. unfold_monad. cbn. rewrite Hopen. cbn.
  fold prompt in Henc, Hgen. rewrite Henc. cbn. rewrite Hgen. cbn.
  rewrite (trim_echoed input_ids new_ids Hlen).
  assert (Hh : ((events st ++ [ EvImageOpen image_path ])
                ++ [ EvGenerate image_path prompt max_new_tokens ])%list
               = history)
    by (unfold history; rewrite <- app_assoc; reflexivity).
  rewrite Hh.
  destruct (rt_batch_decode rt history new_ids) as [e|[|text rest]];
    reflexivity.
Qed.

(** X4: a custom prompt that is not empty is the prompt: a successful
    result reports it and the model was run with it, whatever the task type
    and the output format; an empty custom prompt counts as none. *)
Theorem process_image_custom_prompt_wins self image_path task_type
    output_format max_new_tokens p st :
  (p <> "" ->
   forall result st',
     GutenOCREngine.process_image rt self image_path task_type
       output_format max_new_tokens (Some p) st = (inr result, st') ->
     dict_get result "success" = PBool true ->
     dict_get result "prompt" = PStr p
     /\ In (EvGenerate image_path p max_new_tokens) (new_events st st'))
  /\ GutenOCREngine.process_image rt self image_path task_type
       output_format max_new_tokens (Some "") st
     = GutenOCREngine.process_image rt self image_path task_type
         output_format max_new_tokens None st.
Proof.
  split; [|reflexivity].
  intros Hp result st'.
  assert (Hprompt : prompt_used (Some p) task_type output_format = p).
  { unfold prompt_used. cbn. destruct (p =? "") eqn:E; [|reflexivity].
    apply String.eqb_eq in E. contradiction. }
  unfold GutenOCREngine.process_image, GutenOCREngine.process_image_try,
    GutenOCREngine.process_image_except, GutenOCREngine.inputs_input_ids.
  fold (prompt_used (Some p) task_type output_format). rewrite Hprompt.
  unfold_monad. cbn.
  destruct (rt_image_open rt (events st) image_path) as [e|[]]; cbn;
    [intros H; inversion H; subst; discriminate|].
  destruct (rt_encode rt _ _ _) as [e|input_ids]; cbn;
    [intros H; inversion H; subst; discriminate|].
  destruct (rt_generate rt _ _ _ _) as [e|generated_ids]; cbn;
    [intros H; inversion H; subst; discriminate|].
  destruct (GutenOCREngine.use_cpu self); cbn;
    [intros H; inversion H; subst; discriminate|].
  destruct (rt_batch_decode rt _ _) as [e|[|text rest]]; cbn;
    try (intros H; inversion H; subst; discriminate).
  intros H _. inversion H; subst. split; [reflexivity|].
  unfold new_events. cbn. rewrite <- app_assoc, skipn_app_exact.
  right. left. reflexivity.
Qed.

End EngineExtras.

Lemma process_image_cpu_always_fails_witness :
  exists e st',
    GutenOCREngine.process_image Demo.rt
      (GutenOCREngine.Engine "rootsautomation/GutenOCR-3B" "auto" true)
      "b.png" "reading" "TEXT" 4096 None Demo.start
    = (inr (ocr_failure "b.png" e), st')
    /\ e = Exn AttributeError "'dict' object has no attribute 'input_ids'"
    /\ List.length (new_events Demo.start st') = 2%nat.
Proof.
  destruct (process_image_cpu_always_fails Demo.rt
              (GutenOCREngine.Engine "rootsautomation/GutenOCR-3B" "auto"
                 true)
              "b.png" "reading" "TEXT" 4096%Z None Demo.start eq_refl)
    as (e & st' & Hrun & Hlate).
  destruct (Hlate [ [101; 102; 103]%Z ] [ [101; 102; 103; 7; 8]%Z ]
              eq_refl eq_refl eq_refl) as [He Hev].
  exists e, st'. split; [exact Hrun|]. split; [exact He|].
  rewrite Hev. reflexivity.
Defined.


Lemma process_image_decodes_new_ids_witness :
  GutenOCREngine.process_image Demo.rt Demo.engine "b.png" "reading" "TEXT"
    4096 None Demo.start
  = (inr (ocr_success "b.png" "reading" "TEXT" "Hello world"
            "Read all text in the image and return a single TEXT string, linearized left-to-right/top-to-bottom."),
     State [ EvImageOpen "b.png";
             EvGenerate "b.png"
               "Read all text in the image and return a single TEXT string, linearized left-to-right/top-to-bottom."
               4096 ]
           0).
Proof.
  apply (process_image_decodes_new_ids Demo.rt Demo.engine "b.png"
           "reading" "TEXT" 4096%Z None Demo.start
           [ [101; 102; 103]%Z ] [ [7; 8]%Z ]);
    reflexivity.
Defined.

Lemma process_image_custom_prompt_wins_witness :
  exists result st',
    GutenOCREngine.process_image Demo.rt Demo.engine "b.png" "detection"
      "BOX" 4096 (Some "Read the title only.") Demo.start
    = (inr result, st')
    /\ dict_get result "prompt" = PStr "Read the title only."
    /\ In (EvGenerate "b.png" "Read the title only." 4096)
          (new_events Demo.start st').
Proof.
  do 2 eexists. split; [reflexivity|].
  apply (proj1 (process_image_custom_prompt_wins Demo.rt Demo.engine
                  "b.png" "detection" "BOX" 4096%Z "Read the title only."
                  Demo.start));
    [discriminate|reflexivity|reflexivity].
Defined.

(* ================================================================== *)
(** * More about file_processor.py                                     *)
(* ================================================================== *)

Section SavingExtras.
Variable rt : runtime.





(** X6: [save_results] with "csv" and no result writes a file without a
    header, not even an empty one: a reader finds no field names in it. *)
Theorem save_results_csv_empty self timestamp st :
  rt_open_w rt (events st) (results_path rt self "csv" timestamp st)
  = None ->
  exists st',
    FileProcessor.save_results rt self [] "csv" timestamp st
    = (inr (results_path rt self "csv" timestamp st), st')
    /\ new_events st st'
       = [ EvWrite (results_path rt self "csv" timestamp st) (FCsv []) ]
    /\ csv_fieldnames (FCsv []) = None.
Proof.
  intros Hopen. unfold FileProcessor.save_results, results_path in *.
  destruct timestamp; unfold with_open_w; unfold_monad; cbn in *;
    rewrite Hopen; cbn; eexists;
    (split; [reflexivity|]); (split; [|reflexivity]);
    apply new_events_app; reflexivity.
Qed.

End SavingExtras.

Section StatisticsExtras.
Variable rt : runtime.

(** Taking the lengths leaves the state alone; it fails with [TypeError]
    at a value without length and gives the lengths otherwise. *)
Lemma mapM_py_len_outcome (f : pydict -> pyval) :
  forall l st,
    exists outcome,
      mapM (fun r => py_len (f r)) l st = (outcome, st)
      /\ match outcome with
         | inl e =>
             exn_cls e = TypeError
             /\ Exists (fun r => has_len (f r) = false) l
         | inr lens =>
             Forall (fun r => has_len (f r) = true) l
             /\ Forall2 (fun r n => py_len (f r) st = (inr n, st)) l lens
         end.
Proof.
  induction l as [|r l IH]; intros st; cbn [mapM].
  - exists (inr []). split; [reflexivity|]. split; constructor.
  - unfold bind.
    destruct (f r) eqn:Ef; cbn [py_len]; unfold ret, raise;
      try (eexists (inl _); split; [reflexivity|];
           split; [reflexivity|];
           apply Exists_cons_hd; rewrite Ef; reflexivity);
      destruct (IH st) as ([e|lens] & Hrun & Hout); rewrite Hrun;
      try (exists (inl e); split; [reflexivity|];
           destruct Hout as [Hcls Hex]; split; [exact Hcls|];
           apply Exists_cons_tl; exact Hex);
      (eexists (inr _); split; [reflexivity|];
       destruct Hout as [Hall Hlens];
       split; constructor; try assumption; rewrite Ef; reflexivity).
Qed.



Lemma ocr_shaped_text_length r st :
  ocr_shaped r -> FileProcessor.succeeded r = true ->
  py_len (dict_get_or r "text" (PStr "")) st
  = (inr (Z.of_nat (String.length (text_of r))), st).
Proof.
  intros [(p & e & ->)|(p & t & f & text & q & ->)] H;
    [discriminate|reflexivity].
Qed.



(** X8: a result that counts as a success and whose [text] has no length
    ([None], a number, a boolean) makes [get_statistics] raise [TypeError];
    nothing has happened by then. *)
Theorem get_statistics_text_without_length self results st :
  Exists (fun r => FileProcessor.succeeded r = true
                   /\ has_len (dict_get_or r "text" (PStr "")) = false)
    results ->
  exists e,
    FileProcessor.get_statistics rt self results st = (inl e, st)
    /\ exn_cls e = TypeError.
Proof.
  intros Hex.
  destruct (mapM_py_len_outcome (fun r => dict_get_or r "text" (PStr ""))
              (filter FileProcessor.succeeded results) st)
    as ([e|lens] & Hrun & Hout).
  - exists e. split; [|apply Hout].
    unfold FileProcessor.get_statistics. unfold bind at 1. rewrite Hrun.
    reflexivity.
  - exfalso. destruct Hout as [Hall _]. apply Exists_exists in Hex.
    destruct Hex as (r & Hin & Hok & Hno). rewrite Forall_forall in Hall.
    rewrite (Hall r) in Hno; [discriminate|].
    apply filter_In. auto.
Qed.

End StatisticsExtras.

Lemma ocr_success_shaped p t f text q : ocr_shaped (ocr_success p t f text q).
Proof. right. do 5 eexists. reflexivity. Qed.

Lemma ocr_failure_shaped p e : ocr_shaped (ocr_failure p e).
Proof. left. do 2 eexists. reflexivity. Qed.


Lemma save_results_csv_empty_witness :
  exists st',
    FileProcessor.save_results Demo.rt Demo.files [] "csv" false Demo.start
    = (inr "output/ocr_results.csv", st')
    /\ new_events Demo.start st'
       = [ EvWrite "output/ocr_results.csv" (FCsv []) ]
    /\ csv_fieldnames (FCsv []) = None.
Proof.
  apply (save_results_csv_empty Demo.rt Demo.files false Demo.start).
  reflexivity.
Defined.


Lemma get_statistics_text_without_length_witness :
  exists e,
    FileProcessor.get_statistics Demo.rt Demo.files
      [ [ ("success", PBool true); ("image_path", PStr "a.png");
          ("text", PNone) ] ]
      Demo.start = (inl e, Demo.start)
    /\ exn_cls e = TypeError.
Proof.
  apply (get_statistics_text_without_length Demo.rt Demo.files
           [ [ ("success", PBool true); ("image_path", PStr "a.png");
               ("text", PNone) ] ]
           Demo.start).
  apply Exists_cons_hd. split; reflexivity.
Defined.



(* ================================================================== *)
(** * More about docling_gutenocr_combined.py                          *)
(* ================================================================== *)

Section CombinedExtras.
Variable rt : runtime.

(** Without table extraction the structure payload has no table. *)
Lemma process_with_docling_no_tables self file_path st d st' :
  DoclingGutenOCRProcessor._process_with_docling rt self file_path false st
  = (inr d, st') ->
  tables_of d = [].
Proof.
  unfold DoclingGutenOCRProcessor._process_with_docling, try_except,
    DoclingGutenOCRProcessor._process_with_docling_try.
  unfold_monad. cbn.
  destruct (rt_convert rt (events st) file_path) as [e|document]; cbn;
    [intros H; inversion H; reflexivity|].
  destruct (doc_markdown document) as [e|text]; cbn;
    [intros H; inversion H; reflexivity|].
  destruct (doc_tables document) as [ts|]; cbn;
    intros H; inversion H; reflexivity.
Qed.

(** X10: with [extract_tables] off [process_document] shows no table.  The
    structure payload, when there is one, has an empty table list, and the
    text merged from both payloads is the structure section followed by
    the OCR section, with no table section between them. *)
Theorem process_document_without_tables self file_path extract_structure
    ocr_images st :
  exists result st',
    DoclingGutenOCRProcessor.process_document rt self file_path
      extract_structure false ocr_images st = (inr result, st')
    /\ match dict_get result "docling_structure",
             dict_get result "gutenocr_ocr" with
       | PDict d, PDict g =>
           tables_of d = []
           /\ dict_get result "combined_text"
              = PStr (join nl (structure_section d ++ ocr_section g)%list)
       | PDict d, _ => tables_of d = []
       | _, _ => True
       end.
Proof.
  destruct (process_document_run rt self file_path extract_structure false
              ocr_images st)
    as (od & og & st' & Hrun & Hod & Hog).
  exists (document_result rt file_path (rt_isoformat rt (clock st)) od og),
    st'.
  split; [exact Hrun|].
  change (dict_get (document_result rt file_path
                      (rt_isoformat rt (clock st)) od og)
            "docling_structure") with (payload od).
  change (dict_get (document_result rt file_path
                      (rt_isoformat rt (clock st)) od og)
            "gutenocr_ocr") with (payload og).
  destruct od as [d|]; [|destruct og; exact I].
  assert (Hd : tables_of d = []).
  { destruct (DoclingGutenOCRProcessor.use_docling self
              && extract_structure)%bool.
    - destruct Hod as (d' & Heq & Hrun' & _). inversion Heq; subst d'.
      eapply process_with_docling_no_tables; eauto.
    - destruct Hod as [Heq _]. discriminate. }
  destruct og as [g|]; cbn [payload]; [|exact Hd].
  split; [exact Hd|].
  cbn [document_result dict_get dict_get_or dict_lookup String.eqb
         Ascii.eqb Bool.eqb combined_text_of].
  unfold tables_section. rewrite Hd. reflexivity.
Qed.

(** X11: with no stage to run, because OCR is off and structure
    extraction is off or Docling is not in use, [process_document] asks
    nothing of the environment and returns an empty result: no payload,
    no text, no processing mode, and [success = True]. *)
Theorem process_document_nothing_to_do self file_path extract_structure
    extract_tables st :
  (DoclingGutenOCRProcessor.use_docling self && extract_structure)%bool
  = false ->
  exists result,
    DoclingGutenOCRProcessor.process_document rt self file_path
      extract_structure extract_tables false st
    = (inr result, State (events st) (S (clock st)))
    /\ dict_get result "docling_structure" = PNone
    /\ dict_get result "gutenocr_ocr" = PNone
    /\ dict_get result "combined_text" = PStr ""
    /\ dict_get result "metadata" = PDict []
    /\ dict_get result "success" = PBool true.
Proof.
  intros Hoff.
  unfold DoclingGutenOCRProcessor.process_document,
    DoclingGutenOCRProcessor.step_docling,
    DoclingGutenOCRProcessor.step_gutenocr,
    DoclingGutenOCRProcessor.step_combine.
  unfold_monad. cbn. rewrite Hoff. cbn.
  eexists. split; [reflexivity|]. repeat split.
Qed.

(** What the loop of the combined [batch_process] has done when the
    function returns. *)
Lemma combined_batch_inversion self input_dir output_dir extract_structure
    extract_tables ocr_images st results st' :
  DoclingGutenOCRProcessor.batch_process rt self input_dir output_dir
    extract_structure extract_tables ocr_images st = (inr results, st') ->
  exists st1,
    processed_in_turn
      (fun file_path =>
         DoclingGutenOCRProcessor.process_document rt self file_path
           extract_structure extract_tables ocr_images)
      (stage_failures_recorded rt self extract_structure extract_tables
         ocr_images)
      (discovered (rt_iter_set rt FileProcessor.SUPPORTED_EXTENSIONS) true
         input_dir (rt_tree rt (events st) input_dir))
      st results st1.
Proof.
  intros Hrun.
  set (f := fun file_path =>
              DoclingGutenOCRProcessor.process_document rt self file_path
                extract_structure extract_tables ocr_images).
  set (P := stage_failures_recorded rt self extract_structure
              extract_tables ocr_images).
  set (files := discovered (rt_iter_set rt FileProcessor.SUPPORTED_EXTENSIONS)
                  true input_dir (rt_tree rt (events st) input_dir)).
  assert (Hf : forall a st0, exists b st2, f a st0 = (inr b, st2) /\ P a st0 b).
  { intros a st0.
    destruct (process_document_records rt self a extract_structure
                extract_tables ocr_images st0)
      as (result & st2 & _ & Hr & Hrec & _).
    eauto. }
  destruct (mapM_processed f P Hf files st)
    as (rs & st1 & Hloop & Hturn).
  exists st1.
  unfold DoclingGutenOCRProcessor.batch_process in Hrun.
  assert (Hdisc : FileProcessor.discover_images rt
                    (FileProcessor.Processor input_dir output_dir) true st
                  = (inr files, st)) by reflexivity.
  rewrite (bind_inr _ _ _ _ _ Hdisc) in Hrun. fold f in Hrun.
  rewrite (bind_inr _ _ _ _ _ Hloop) in Hrun.
  unfold with_open_w, bind, ret, raise, ask, emit, now in Hrun.
  cbn in Hrun.
  destruct (rt_open_w rt (events st1) _); cbn in Hrun; [discriminate|].
  inversion Hrun; subst. exact Hturn.
Qed.

(** X12: the summary at the end of [main] never counts a failure.  Every
    result [batch_process] returns has [success = True], whatever happened
    inside the stages, so "Successful" is the number of files and "Failed"
    is 0. *)
Theorem main_summary_never_counts_a_failure self input_dir output_dir
    extract_structure extract_tables ocr_images st results st' :
  DoclingGutenOCRProcessor.batch_process rt self input_dir output_dir
    extract_structure extract_tables ocr_images st = (inr results, st') ->
  main_summary results
  = [ nl ++ "=== Processing Complete ===";
      "Total files: " ++ string_of_nat (List.length results);
      "Successful: " ++ string_of_nat (List.length results);
      "Failed: 0" ].
Proof.
  intros Hrun.
  destruct (combined_batch_inversion _ _ _ _ _ _ _ _ _ Hrun)
    as (st1 & Hturn).
  assert (Hall : filter (fun r => truthy (dict_get r "success")) results
                 = results).
  { clear Hrun.
    induction Hturn as [|a l s b s1 bs s2 _ Hrec _ IH]; [reflexivity|].
    cbn. destruct Hrec as (_ & Hs & _). rewrite Hs. cbn. f_equal.
    exact IH. }
  unfold main_summary. rewrite Hall, Nat.sub_diag. reflexivity.
Qed.

(** A string ends like its suffix. *)
Lemma ends_with_last_char suffix :
  suffix <> "" ->
  forall s, ends_with suffix s = true -> last_char s = last_char suffix.
Proof.
  intros Hne. induction s as [|c s IH]; cbn [ends_with].
  - destruct ("" =? suffix) eqn:E; [|discriminate].
    apply String.eqb_eq in E. congruence.
  - destruct (String c s =? suffix) eqn:E.
    + apply String.eqb_eq in E. intros _. congruence.
    + intros H. rewrite <- (IH H). destruct s as [|c' s']; [|reflexivity].
      revert H. cbn [ends_with].
      destruct ("" =? suffix) eqn:E'; [|discriminate].
      apply String.eqb_eq in E'. congruence.
Qed.

(** An accepted name ends with the last letter of an image or PDF
    extension. *)
Lemma accepted_last_char path :
  accepted path = true ->
  In (last_char path)
     [ Some "g"; Some "f"; Some "p"; Some "G"; Some "F"; Some "P" ]%char.
Proof.
  intros H. apply accepted_iff in H. destruct H as (ext & Hin & H).
  cbn in Hin.
  repeat (destruct Hin as [<-|Hin];
          [destruct H as [H|H];
           apply ends_with_last_char in H; try discriminate;
           rewrite H; vm_compute; tauto|]).
  contradiction.
Qed.

(** X13: the combined [batch_process] works on images and PDF files only.
    Every result belongs to a path that ends with an extension of the
    allow-list of [discover_images]; the formats [get_capabilities]
    advertises only with Docling (DOCX, PPTX, HTML, MD) are never picked
    up from the input directory, in lower or in upper case. *)
Theorem batch_process_only_images_and_pdf self input_dir output_dir
    extract_structure extract_tables ocr_images st results st' :
  Permutation (rt_iter_set rt FileProcessor.SUPPORTED_EXTENSIONS)
    FileProcessor.SUPPORTED_EXTENSIONS ->
  DoclingGutenOCRProcessor.batch_process rt self input_dir output_dir
    extract_structure extract_tables ocr_images st = (inr results, st') ->
  Forall (fun result =>
            exists path,
              dict_get result "file_path" = PStr path
              /\ accepted path = true
              /\ forall format,
                   In format (ProcessorSetup.supported_formats true) ->
                   ~ In format (ProcessorSetup.supported_formats false) ->
                   ends_with ("." ++ lower format) path = false
                   /\ ends_with ("." ++ format) path = false)
    results.
Proof.
  intros HP Hrun.
  destruct (combined_batch_inversion _ _ _ _ _ _ _ _ _ Hrun)
    as (st1 & Hturn).
  clear Hrun.
  assert (Hfiles : forall path,
             In path (discovered
                        (rt_iter_set rt FileProcessor.SUPPORTED_EXTENSIONS)
                        true input_dir (rt_tree rt (events st) input_dir)) ->
             accepted path = true).
  { intros path Hin. apply (discovered_In _ _ _ _ _ HP) in Hin.
    destruct Hin as (m & Hm & Hacc).
    rewrite <- (accepted_by_path _ _ _ _ _ Hm). exact Hacc. }
  induction Hturn as [|a l s b s1 bs s2 _ Hrec _ IH]; constructor.
  - exists a. destruct Hrec as (Hpath & _). split; [exact Hpath|].
    assert (Hacc : accepted a = true) by (apply Hfiles; now left).
    split; [exact Hacc|].
    pose proof (accepted_last_char a Hacc) as Hlast.
    intros format Hin Hnot. cbn in Hin.
    repeat (destruct Hin as [<-|Hin];
            [first
               [ exfalso; apply Hnot; cbn; tauto
               | split;
                 match goal with
                 | |- ends_with ?suffix a = false =>
                     destruct (ends_with suffix a) eqn:E; [|reflexivity];
                     apply ends_with_last_char in E; [|discriminate];
                     rewrite E in Hlast; vm_compute in Hlast;
                     repeat (destruct Hlast as [Hlast|Hlast];
                             [discriminate|]);
                     contradiction
                 end ]|]).
    contradiction.
  - apply IH. intros path Hin. apply Hfiles. now right.
Qed.

End CombinedExtras.

Lemma process_document_nothing_to_do_witness :
  exists result,
    DoclingGutenOCRProcessor.process_document Demo.rt Demo.processor
      "b.png" false true false Demo.start
    = (inr result, State [] 1)
    /\ dict_get result "docling_structure" = PNone
    /\ dict_get result "gutenocr_ocr" = PNone
    /\ dict_get result "combined_text" = PStr ""
    /\ dict_get result "metadata" = PDict []
    /\ dict_get result "success" = PBool true.
Proof.
  apply (process_document_nothing_to_do Demo.rt Demo.processor "b.png"
           false true Demo.start).
  reflexivity.
Defined.

Lemma demo_batch_returns :
  exists results st',
    DoclingGutenOCRProcessor.batch_process Demo.rt Demo.processor "input"
      "output" true true true Demo.start = (inr results, st')
    /\ List.length results = 4%nat.
Proof. do 2 eexists. split; vm_compute; reflexivity. Qed.

Lemma main_summary_never_counts_a_failure_witness :
  exists results st',
    DoclingGutenOCRProcessor.batch_process Demo.rt Demo.processor "input"
      "output" true true true Demo.start = (inr results, st')
    /\ main_summary results
       = [ nl ++ "=== Processing Complete ===";
           "Total files: 4"; "Successful: 4"; "Failed: 0" ].
Proof.
  destruct demo_batch_returns as (results & st' & Hrun & Hlen).
  exists results, st'. split; [exact Hrun|].
  rewrite (main_summary_never_counts_a_failure Demo.rt Demo.processor
             "input" "output" true true true Demo.start results st' Hrun).
  rewrite Hlen. reflexivity.
Defined.

Lemma batch_process_only_images_and_pdf_witness :
  exists results st',
    DoclingGutenOCRProcessor.batch_process Demo.rt Demo.processor "input"
      "output" true true true Demo.start = (inr results, st')
    /\ Forall (fun result =>
                 exists path,
                   dict_get result "file_path" = PStr path
                   /\ accepted path = true
                   /\ forall format,
                        In format (ProcessorSetup.supported_formats true) ->
                        ~ In format (ProcessorSetup.supported_formats false) ->
                        ends_with ("." ++ lower format) path = false
                        /\ ends_with ("." ++ format) path = false)
         results.
Proof.
  destruct demo_batch_returns as (results & st' & Hrun & _).
  exists results, st'. split; [exact Hrun|].
  apply (batch_process_only_images_and_pdf Demo.rt Demo.processor "input"
           "output" true true true Demo.start results st');
    [apply Permutation_sym, Permutation_rev|exact Hrun].
Defined.

(* ================================================================== *)
(** * Construction and capabilities: properties                        *)
(* ================================================================== *)

(** X14: a Docling that cannot be imported or built never makes the
    construction of the combined processor fail.  The constructor returns
    exactly when the engine loads and both directories can be made; the
    processor it returns uses Docling exactly when Docling was asked for,
    could be imported and its converter could be built. *)
Theorem processor_init_survives_docling h gutenocr_model use_cpu
    use_docling :
  ((exists p,
       ProcessorSetup.init h gutenocr_model use_cpu use_docling = inr p)
   <-> (exists eng,
           EngineSetup.init h gutenocr_model "auto" use_cpu None = inr eng)
       /\ host_mkdir h "input" = None
       /\ host_mkdir h "output" = None)
  /\ (forall p,
         ProcessorSetup.init h gutenocr_model use_cpu use_docling = inr p ->
         (DoclingGutenOCRProcessor.use_docling (ProcessorSetup.processor p)
          = true
          <-> use_docling = true
              /\ host_docling_importable h = true
              /\ host_new_converter h = None)).
Proof.
  unfold ProcessorSetup.init, ProcessorSetup.init_file_processor, guard.
  destruct (EngineSetup.init h gutenocr_model "auto" use_cpu None)
    as [e|eng].
  { split.
    - split; [intros (p & H); discriminate|].
      intros ((eng & H) & _). discriminate.
    - intros p H. discriminate. }
  destruct (host_mkdir h "input") as [e|].
  { split.
    - split; [intros (p & H); discriminate|].
      intros (_ & H & _). discriminate.
    - intros p H. discriminate. }
  destruct (host_mkdir h "output") as [e|].
  { split.
    - split; [intros (p & H); discriminate|].
      intros (_ & _ & H). discriminate.
    - intros p H. discriminate. }
  split.
  - split; [intros _; eauto|]. intros _. eexists. reflexivity.
  - intros p H. inversion H; subst p. cbn.
    destruct use_docling, (host_docling_importable h),
      (host_new_converter h); cbn; split;
      try (intros H'; discriminate);
      try (intros (H1 & H2 & H3); discriminate);
      auto.
Qed.

Lemma processor_init_survives_docling_witness :
  exists p,
    ProcessorSetup.init frugal_host "rootsautomation/GutenOCR-3B" false true
    = inr p
    /\ DoclingGutenOCRProcessor.use_docling (ProcessorSetup.processor p)
       <> true.
Proof.
  destruct (proj2 (proj1 (processor_init_survives_docling frugal_host
                            "rootsautomation/GutenOCR-3B" false true)))
    as (p & Hp).
  - split; [eexists; reflexivity|split; reflexivity].
  - exists p. split; [exact Hp|]. intros Huse.
    apply (proj2 (processor_init_survives_docling frugal_host
                    "rootsautomation/GutenOCR-3B" false true) p Hp) in Huse.
    destruct Huse as (_ & _ & H). discriminate.
Defined.

Section CapabilityProofs.
Variable rt : runtime.

(** X15: what [get_capabilities] says about Docling is what
    [process_document] does.  With [docling_available] false the converter
    is never called and no structure payload is made, however the flags
    are set, and the format list is the one of images and PDF; with
    [docling_available] true and structure extraction on, the converter is
    called first. *)
Theorem capabilities_match_behaviour h p file_path extract_tables
    ocr_images st :
  exists result st' tail,
    DoclingGutenOCRProcessor.process_document rt
      (ProcessorSetup.processor p) file_path true extract_tables ocr_images
      st = (inr result, st')
    /\ dict_get (ProcessorSetup.get_capabilities h p) "docling_available"
       = PBool (truthy (dict_get result "docling_structure"))
    /\ new_events st st'
       = ((if truthy (dict_get result "docling_structure")
           then [ EvConvert file_path ] else [])
          ++ (if ocr_images then EvImageOpen file_path :: tail else []))%list
    /\ dict_get (ProcessorSetup.get_capabilities h p) "supported_formats"
       = PList (map PStr
                  (ProcessorSetup.supported_formats
                     (truthy (dict_get result "docling_structure")))).
Proof.
  destruct (process_document_records rt (ProcessorSetup.processor p)
              file_path true extract_tables ocr_images st)
    as (result & st' & tail & Hrun & Hrec & Hev).
  destruct (process_document_run rt (ProcessorSetup.processor p) file_path
              true extract_tables ocr_images st)
    as (od & og & st2 & Hrun2 & Hod & _).
  rewrite Hrun in Hrun2. inversion Hrun2 as [[Hres Hst]]. clear Hrun2.
  assert (Htruthy : truthy (dict_get result "docling_structure")
                    = DoclingGutenOCRProcessor.use_docling
                        (ProcessorSetup.processor p)).
  { rewrite Hres.
    change (dict_get (document_result rt file_path
                        (rt_isoformat rt (clock st)) od og)
              "docling_structure") with (payload od).
    destruct (DoclingGutenOCRProcessor.use_docling
                (ProcessorSetup.processor p)); cbn in Hod.
    - destruct Hod as (d & -> & _ & Hd). apply docling_shaped_truthy, Hd.
    - destruct Hod as [-> _]. reflexivity. }
  exists result, st', tail. rewrite Htruthy.
  split; [exact Hrun|]. split; [reflexivity|]. split; [|reflexivity].
  rewrite Hev, andb_true_r. reflexivity.
Qed.

End CapabilityProofs.

(** X16: the device information of a constructed engine is coherent.
    Forcing the CPU, or having no CUDA, puts the engine on "cpu" whatever
    device was asked for; without CUDA the device count shown is 0
    whatever the host says; and the dtype is the one asked for, or float32
    on the CPU and bfloat16 otherwise. *)
Theorem device_info_of_constructed_engine h model_id device use_cpu
    torch_dtype_arg eng :
  EngineSetup.init h model_id device use_cpu torch_dtype_arg = inr eng ->
  let info := EngineSetup.get_device_info h eng in
  dict_get info "model_id" = PStr model_id
  /\ dict_get info "use_cpu" = PBool use_cpu
  /\ dict_get info "device"
     = PStr (if (use_cpu || negb (host_cuda_available h))%bool
             then "cpu" else device)
  /\ dict_get info "cuda_device_count"
     = PInt (if host_cuda_available h then host_cuda_device_count h else 0)
  /\ dict_get info "torch_dtype"
     = PStr (dtype_str
               match torch_dtype_arg with
               | Some d => d
               | None =>
                   if (use_cpu || negb (host_cuda_available h))%bool
                   then float32 else bfloat16
               end).
Proof.
  unfold EngineSetup.init, guard.
  destruct (use_cpu || negb (host_cuda_available h))%bool;
    destruct (EngineSetup._load_model h _); try discriminate;
    destruct (host_load_processor h model_id); try discriminate;
    intros H; inversion H; subst eng; cbn;
    destruct torch_dtype_arg; repeat split.
Qed.

Lemma device_info_of_constructed_engine_witness :
  exists eng,
    EngineSetup.init frugal_host "rootsautomation/GutenOCR-3B" "cuda" false
      None = inr eng
    /\ dict_get (EngineSetup.get_device_info frugal_host eng) "device"
       = PStr "cpu"
    /\ dict_get (EngineSetup.get_device_info frugal_host eng)
         "torch_dtype" = PStr "torch.float32".
Proof.
  eexists. split; [reflexivity|].
  destruct (device_info_of_constructed_engine frugal_host
              "rootsautomation/GutenOCR-3B" "cuda" false None _ eq_refl)
    as (_ & _ & Hdevice & _ & Hdtype).
  split; [exact Hdevice|exact Hdtype].
Defined.

(* ================================================================== *)
(** * Individual files and the summary report                          *)
(* ================================================================== *)

Lemma string_length_app (a b : string) :
  String.length (a ++ b) = (String.length a + String.length b)%nat.
Proof. induction a as [|c a IH]; cbn; [reflexivity|]. now rewrite IH. Qed.

Lemma string_app_inv_head (s a b : string) : s ++ a = s ++ b -> a = b.
Proof.
  induction s as [|c s IH]; cbn; intros H; [exact H|].
  injection H as H. auto.
Qed.

Lemma string_app_inv_tail (s : string) :
  forall a b : string, a ++ s = b ++ s -> a = b.
Proof.
  induction a as [|c a IH]; intros [|d b] H; cbn in H.
  - reflexivity.
  - exfalso. apply (f_equal String.length) in H. cbn in H.
    rewrite string_length_app in H. lia.
  - exfalso. apply (f_equal String.length) in H. cbn in H.
    rewrite string_length_app in H. lia.
  - injection H as -> H. f_equal. auto.
Qed.

Lemma path_join_inv dir a b : path_join dir a = path_join dir b -> a = b.
Proof.
  unfold path_join. destruct (dir =? "."); [auto|].
  destruct (dir =? "/").
  - intros H. injection H as H. exact H.
  - intros H. apply string_app_inv_head in H. injection H as H. exact H.
Qed.

Lemma individual_path_inv self ts r r' :
  individual_path self ts r' = individual_path self ts r ->
  path_stem (image_path_of r') = path_stem (image_path_of r).
Proof.
  unfold individual_path. intros H. apply path_join_inv in H.
  apply string_app_inv_tail in H. exact H.
Qed.

Lemma file_at_app evs more path :
  file_at (evs ++ more)%list path
  = match file_at more path with
    | Some content => Some content
    | None => file_at evs path
    end.
Proof.
  induction evs as [|ev evs IH]; cbn.
  - destruct (file_at more path); reflexivity.
  - rewrite IH. destruct (file_at more path); reflexivity.
Qed.

Lemma written_paths_app evs more :
  written_paths (evs ++ more)%list
  = (written_paths evs ++ written_paths more)%list.
Proof.
  induction evs as [|ev evs IH]; [reflexivity|].
  destruct ev; cbn; rewrite IH; reflexivity.
Qed.

Section IndividualFiles.
Variable rt : runtime.

Lemma ocr_shaped_image_path r :
  ocr_shaped r ->
  dict_get_or r "image_path" (PStr "Unknown") = PStr (image_path_of r)
  /\ forall default,
       dict_get_or r "image_path" (PStr default) = PStr (image_path_of r).
Proof.
  intros [(p & e & ->)|(p & t & f & text & q & ->)]; split; reflexivity.
Qed.

(** On a result of [process_image] the body of the [with] block runs to
    its end. *)
Lemma individual_txt_shaped r n :
  ocr_shaped r -> snd (FileProcessorIO.individual_txt rt r n) = None.
Proof.
  intros [(p & e & ->)|(p & t & f & text & q & ->)]; reflexivity.
Qed.

Lemma save_individual_txt_run self ts idx r st :
  ocr_shaped r ->
  rt_open_w rt (events st) (individual_path self ts r) = None ->
  FileProcessorIO.save_individual rt self "txt" ts idx r st
  = (inr (individual_path self ts r),
     State (events st
            ++ [ EvWrite (individual_path self ts r)
                   (FText (fst (FileProcessorIO.individual_txt rt r
                                  (clock st)))) ])%list
           (S (clock st))).
Proof.
  intros Hshaped Hopen.
  pose proof (individual_txt_shaped r (clock st) Hshaped) as Hend.
  unfold FileProcessorIO.save_individual.
  destruct (ocr_shaped_image_path r Hshaped) as [_ Hpath].
  rewrite Hpath. fold (individual_path self ts r).
  unfold as_path. unfold_monad. cbn.
  unfold individual_path in *. cbn in Hopen. rewrite Hopen. cbn.
  destruct (FileProcessorIO.individual_txt rt r (clock st)) as [chunks o].
  cbn in Hend. subst o. reflexivity.
Qed.

Lemma save_individual_from_txt_run self ts :
  output_writable rt self ->
  forall results idx st,
    Forall ocr_shaped results ->
    FileProcessorIO.save_individual_from rt self "txt" ts idx results st
    = (inr (map (individual_path self ts) results),
       State (events st
              ++ individual_writes rt self ts (clock st) results)%list
             (clock st + List.length results)).
Proof.
  intros Hw. induction results as [|r results IH]; intros idx st Hshaped.
  - cbn. unfold ret. rewrite app_nil_r, Nat.add_0_r.
    destruct st; reflexivity.
  - inversion Hshaped as [|? ? Hr Hrest]; subst.
    cbn [FileProcessorIO.save_individual_from].
    rewrite (bind_inr _ _ _ _ _
               (save_individual_txt_run self ts idx r st Hr (Hw _ _))).
    rewrite (bind_inr _ _ _ _ _ (IH (S idx) _ Hrest)).
    unfold ret. cbn. rewrite <- app_assoc. cbn.
    rewrite Nat.add_succ_r. reflexivity.
Qed.

Lemma individual_writes_paths self ts :
  forall results n,
    written_paths (individual_writes rt self ts n results)
    = map (individual_path self ts) results.
Proof.
  induction results as [|r results IH]; intros n; cbn;
    [reflexivity|now rewrite IH].
Qed.

Lemma individual_writes_other_stem self ts r :
  forall results n,
    Forall (fun r' => path_stem (image_path_of r')
                      <> path_stem (image_path_of r))
      results ->
    file_at (individual_writes rt self ts n results)
      (individual_path self ts r)
    = None.
Proof.
  induction results as [|r' results IH]; intros n H; [reflexivity|].
  inversion H as [|? ? Hne Hrest]; subst. cbn.
  rewrite (IH _ Hrest).
  destruct (individual_path self ts r' =? individual_path self ts r)
    eqn:E; [|reflexivity].
  apply String.eqb_eq in E. apply individual_path_inv in E.
  contradiction.
Qed.

Lemma individual_writes_app self ts :
  forall before n after,
    individual_writes rt self ts n (before ++ after)%list
    = (individual_writes rt self ts n before
       ++ individual_writes rt self ts (n + List.length before) after)%list.
Proof.
  induction before as [|r before IH]; intros n after; cbn.
  - rewrite Nat.add_0_r. reflexivity.
  - rewrite IH. rewrite Nat.add_succ_r. reflexivity.
Qed.

Lemma save_individual_results_txt_run self results st :
  output_writable rt self ->
  Forall ocr_shaped results ->
  FileProcessorIO.save_individual_results rt self results "txt" st
  = (inr (map (individual_path self (rt_strftime rt (clock st))) results),
     State (events st
            ++ individual_writes rt self (rt_strftime rt (clock st))
                 (S (clock st)) results)%list
           (S (clock st) + List.length results)).
Proof.
  intros Hw Hshaped.
  unfold FileProcessorIO.save_individual_results.
  rewrite (bind_inr _ _ _ _ _ (now_run st)).
  rewrite (save_individual_from_txt_run self _ Hw _ 0 _ Hshaped).
  reflexivity.
Qed.

(** X17: [save_individual_results] with "txt" on the results of
    [process_image] returns one path per result, but the path only keeps
    the stem of [image_path]: results whose images have the same stem
    (the same name in two directories, or two extensions of one name) are
    written to the same file, and what is left in that file is the last
    of them. *)
Theorem save_individual_results_last_stem_wins self before r after st :
  output_writable rt self ->
  Forall ocr_shaped (before ++ r :: after)%list ->
  Forall (fun r' => path_stem (image_path_of r')
                    <> path_stem (image_path_of r))
    after ->
  let ts := rt_strftime rt (clock st) in
  exists st' n,
    FileProcessorIO.save_individual_results rt self
      (before ++ r :: after)%list "txt" st
    = (inr (map (individual_path self ts) (before ++ r :: after)%list), st')
    /\ written_paths (new_events st st')
       = map (individual_path self ts) (before ++ r :: after)%list
    /\ file_at (events st') (individual_path self ts r)
       = Some (FText (fst (FileProcessorIO.individual_txt rt r n)))
    /\ forall r0,
         In r0 before ->
         path_stem (image_path_of r0) = path_stem (image_path_of r) ->
         individual_path self ts r0 = individual_path self ts r.
Proof.
  intros Hw Hshaped Hafter ts.
  rewrite (save_individual_results_txt_run self _ st Hw Hshaped).
  fold ts. do 2 eexists. split; [reflexivity|]. split; [|split].
  - erewrite new_events_app; [|cbn [events]; reflexivity].
    apply individual_writes_paths.
  - cbn [events]. rewrite individual_writes_app. cbn [individual_writes].
    rewrite app_assoc. rewrite file_at_app.
    cbn [file_at]. rewrite (individual_writes_other_stem _ _ _ _ _ Hafter).
    rewrite String.eqb_refl. reflexivity.
  - intros r0 _ Hstem. unfold individual_path. rewrite Hstem. reflexivity.
Qed.

(** X18: a format other than "txt" and "json" goes unnoticed by
    [save_individual_results] on an empty list, which it answers with an
    empty list; with a first result it raises [UnboundLocalError] (or the
    [TypeError] of a path that is not a string).  Nothing is written
    either way. *)
Theorem save_individual_results_unknown_format self results format st :
  format <> "txt" -> format <> "json" ->
  exists outcome st',
    FileProcessorIO.save_individual_results rt self results format st
    = (outcome, st')
    /\ new_events st st' = []
    /\ match results with
       | [] => outcome = inr []
       | first :: _ =>
           exists e,
             outcome = inl e
             /\ (exn_cls e = UnboundLocalError
                 \/ exn_cls e = TypeError
                    /\ forall s, dict_get_or first "image_path" (PStr "")
                                 <> PStr s)
             /\ (ocr_shaped first -> exn_cls e = UnboundLocalError)
       end.
Proof.
  intros Htxt Hjson.
  apply String.eqb_neq in Htxt. apply String.eqb_neq in Hjson.
  unfold FileProcessorIO.save_individual_results.
  rewrite (bind_inr _ _ _ _ _ (now_run st)).
  assert (Hev : forall l, new_events st (docling_start st) = l -> l = []).
  { intros l <-. apply (new_events_app st (docling_start st) []).
    cbn. now rewrite app_nil_r. }
  destruct results as [|first rest].
  - do 2 eexists. split; [reflexivity|]. split; [|reflexivity].
    apply (Hev _ eq_refl).
  - cbn [FileProcessorIO.save_individual_from].
    unfold FileProcessorIO.save_individual.
    rewrite Htxt, Hjson. unfold as_path.
    destruct (dict_get_or first "image_path" (PStr ("image_" ++ _)))
      as [| | |s| |] eqn:E; unfold_monad; cbn;
      do 2 eexists; (split; [reflexivity|]);
      (split; [apply (Hev _ eq_refl)|]); eexists;
      (split; [reflexivity|]); cbn.
    all: try (split; [left; reflexivity|intros _; reflexivity]).
    all: split;
      [right; split; [reflexivity|];
       intros s Hs; unfold dict_get_or in *;
       destruct (dict_lookup first "image_path"); congruence
      |intros Hshaped;
       destruct (ocr_shaped_image_path first Hshaped) as [_ Hp];
       rewrite Hp in E; discriminate].
Qed.

End IndividualFiles.

Section ReportAndStatistics.
Variable rt : runtime.

Lemma report_entries_shaped :
  forall results idx,
    Forall ocr_shaped results ->
    snd (FileProcessorIO.report_entries rt idx results) = None.
Proof.
  induction results as [|r results IH]; intros idx H; [reflexivity|].
  inversion H as [|? ? Hr Hrest]; subst.
  cbn [FileProcessorIO.report_entries].
  specialize (IH (S idx) Hrest).
  destruct (FileProcessorIO.report_entries rt (S idx) results)
    as [more outcome].
  cbn in IH. subst outcome.
  destruct Hr as [(p & e & ->)|(p & t & f & text & q & ->)]; reflexivity.
Qed.

Lemma create_summary_report_run self results statistics st :
  Forall ocr_shaped results ->
  rt_open_w rt (events st) (summary_path rt self (clock st)) = None ->
  exists content,
    FileProcessorIO.create_summary_report rt self results statistics st
    = (inr (summary_path rt self (clock st)),
       State (events st
              ++ [ EvWrite (summary_path rt self (clock st)) content ])%list
             (S (clock st))).
Proof.
  intros Hshaped Hopen.
  pose proof (report_entries_shaped results 1 Hshaped) as Hend.
  unfold FileProcessorIO.create_summary_report.
  rewrite (bind_inr _ _ _ _ _ (now_run st)).
  fold (summary_path rt self (clock st)).
  destruct (FileProcessorIO.report_entries rt 1 results) as [entries o].
  cbn in Hend. subst o.
  unfold with_open_w. unfold_monad. cbn. rewrite Hopen.
  eexists. reflexivity.
Qed.

Lemma ocr_text_lengths_run results st :
  Forall ocr_shaped results ->
  exists lens,
    mapM (fun r => py_len (dict_get_or r "text" (PStr "")))
      (filter FileProcessor.succeeded results) st
    = (inr lens, st).
Proof.
  intros Hshaped.
  destruct (mapM_py_len_outcome (fun r => dict_get_or r "text" (PStr ""))
              (filter FileProcessor.succeeded results) st)
    as ([e|lens] & Hrun & Hout); [|eauto].
  exfalso. destruct Hout as [_ Hex]. apply Exists_exists in Hex.
  destruct Hex as (r & Hin & Hno). apply filter_In in Hin.
  destruct Hin as [Hin Hok]. rewrite Forall_forall in Hshaped.
  pose proof (ocr_shaped_text_length r st (Hshaped r Hin) Hok) as Hlen.
  destruct (dict_get_or r "text" (PStr "")); cbn in Hno, Hlen;
    discriminate.
Qed.

(** On the results of [process_image], [get_statistics] reads the clock
    once and returns. *)
Lemma get_statistics_run self results st :
  Forall ocr_shaped results ->
  exists d,
    FileProcessor.get_statistics rt self results st
    = (inr d, State (events st) (S (clock st)))
    /\ dict_get d "total_images" = PInt (Z.of_nat (List.length results))
    /\ dict_get d "successful"
       = PInt (Z.of_nat (List.length
                           (filter FileProcessor.succeeded results))).
Proof.
  intros Hshaped.
  destruct (ocr_text_lengths_run results st Hshaped) as (lens & Hlens).
  unfold FileProcessor.get_statistics.
  unfold bind at 1. rewrite Hlens.
  set (successful :=
         Z.of_nat (List.length (filter FileProcessor.succeeded results))).
  set (total := Z.of_nat (List.length results)).
  unfold bind at 1.
  destruct (successful >? 0)%Z eqn:Es;
    [rewrite (py_truediv_nonzero _ _ _ Es)|unfold ret at 1];
    unfold bind at 1;
    (destruct (total >? 0)%Z eqn:Et;
     [unfold bind at 1; rewrite (py_truediv_nonzero _ _ _ Et)|]);
    unfold_monad; cbn; eexists; repeat split.
Qed.

(** With "json" and "txt" and a time stamp, [save_results] reads the
    clock and writes one file. *)
Lemma save_results_stamped_run self results format st :
  format = "json" \/ format = "txt" ->
  rt_open_w rt (events st) (results_path rt self format true st) = None ->
  exists content,
    FileProcessor.save_results rt self results format true st
    = (inr (results_path rt self format true st),
       State (events st
              ++ [ EvWrite (results_path rt self format true st)
                     content ])%list
             (S (clock st))).
Proof.
  intros [-> | ->] Hopen; unfold FileProcessor.save_results, results_path in *;
    unfold with_open_w; unfold_monad; cbn in *;
    rewrite Hopen; cbn; eexists; reflexivity.
Qed.

End ReportAndStatistics.

(* ================================================================== *)
(** * gradio_ui.py                                                     *)
(* ================================================================== *)

Section OcrUI.
Variable rt : runtime.

Lemma ui_process_image_returns eng task_type output_format image_path st :
  exists g st',
    ui_process_image rt eng task_type output_format image_path st
    = (inr g, st')
    /\ ocr_shaped g.
Proof.
  unfold ui_process_image.
  destruct (process_image_returns rt (EngineSetup.engine eng) image_path
              (GutenOCRUI.task_key task_type) output_format 4096%Z None st)
    as (g & st' & Hrun & _).
  exists g, st'. split; [exact Hrun|].
  eapply process_image_shaped. exact Hrun.
Qed.

Lemma ui_loop_returns eng task_type output_format files st :
  exists results st1,
    mapM (ui_process_image rt eng task_type output_format) files st
    = (inr results, st1)
    /\ processed_in_turn (ui_process_image rt eng task_type output_format)
         (fun _ _ g => ocr_shaped g) files st results st1.
Proof.
  apply mapM_processed. intros a st0.
  apply ui_process_image_returns.
Qed.

Lemma processed_in_turn_shaped {A} (f : A -> M pydict) l st bs st' :
  processed_in_turn f (fun _ _ g => ocr_shaped g) l st bs st' ->
  Forall ocr_shaped bs.
Proof. induction 1; constructor; assumption. Qed.

(** X19: a batch of the OCR UI that is saved as JSON or TXT.  When the
    input directory holds images and the output directory can be written
    to, [process_batch] runs the model on every discovered file, in
    order, and then writes the combined results, the summary report and
    one text file per result, in this order and nothing else; it returns
    the report of a complete batch, whose count is the number of files,
    whether or not the model could read them. *)
Theorem process_batch_complete self eng task_type output_format
    save_format files st :
  GutenOCRUI.engine self = Some eng ->
  output_writable rt (GutenOCRUI.file_processor self) ->
  save_format = "JSON" \/ save_format = "TXT" ->
  FileProcessor.discover_images rt (GutenOCRUI.file_processor self) true st
  = (inr files, st) ->
  files <> [] ->
  exists results st1 stats st',
    processed_in_turn (ui_process_image rt eng task_type output_format)
      (fun _ _ g => ocr_shaped g) files st results st1
    /\ let fp := GutenOCRUI.file_processor self in
       let output_path := results_path rt fp (lower save_format) true st1 in
       let summary := summary_path rt fp (clock st1 + 2) in
       let individual :=
         map (individual_path fp (rt_strftime rt (clock st1 + 3)))
           results in
       GutenOCRUI.process_batch rt self task_type output_format save_format
         st
       = (inr (GutenOCRUI.batch_report rt stats output_path summary
                 individual), st')
       /\ written_paths (new_events st1 st')
          = output_path :: summary :: individual
       /\ dict_get stats "total_images"
          = PInt (Z.of_nat (List.length files))
       /\ List.length individual = List.length files.
Proof.
  intros Heng Hw Hfmt Hfiles Hne.
  destruct (ui_loop_returns eng task_type output_format files st)
    as (results & st1 & Hloop & Hturn).
  pose proof (processed_in_turn_shaped _ _ _ _ _ Hturn) as Hshaped.
  pose proof (processed_in_turn_length _ _ _ _ _ _ Hturn) as Hlen.
  set (fp := GutenOCRUI.file_processor self).
  assert (Hfmt' : lower save_format = "json" \/ lower save_format = "txt")
    by (destruct Hfmt as [-> | ->]; [left|right]; reflexivity).
  destruct (save_results_stamped_run rt fp results (lower save_format) st1
              Hfmt' (Hw _ _))
    as (content & Hsave).
  set (st2 := State (events st1
                     ++ [ EvWrite (results_path rt fp (lower save_format)
                                     true st1) content ])%list
                (S (clock st1))) in *.
  assert (Hst2 : events st2
                 = (events st1
                    ++ [ EvWrite (results_path rt fp (lower save_format)
                                    true st1) content ])%list)
    by reflexivity.
  destruct (get_statistics_run rt fp results st2 Hshaped)
    as (stats & Hstats & Htotal & _).
  set (st3 := State (events st2) (S (clock st2))) in *.
  destruct (create_summary_report_run rt fp results stats st3 Hshaped
              (Hw _ _))
    as (report & Hreport).
  set (st4 := State (events st3
                     ++ [ EvWrite (summary_path rt fp (clock st3))
                            report ])%list
                (S (clock st3))) in *.
  exists results, st1, stats. eexists. split; [exact Hturn|].
  cbn zeta. fold fp.
  assert (Hclock3 : clock st3 = (clock st1 + 2)%nat)
    by (subst st3 st2; cbn [clock]; lia).
  assert (Hclock4 : clock st4 = (clock st1 + 3)%nat)
    by (subst st4; cbn [clock]; lia).
  rewrite <- Hclock3, <- Hclock4.
  split; [|split; [|split]].
  - unfold GutenOCRUI.process_batch. rewrite Heng.
    unfold try_except, GutenOCRUI.process_batch_try. fold fp.
    rewrite (bind_inr _ _ _ _ _ Hfiles).
    destruct files as [|file files']; [contradiction|].
    fold (ui_process_image rt eng task_type output_format).
    rewrite (bind_inr _ _ _ _ _ Hloop).
    rewrite (bind_inr _ _ _ _ _ Hsave).
    rewrite (bind_inr _ _ _ _ _ Hstats).
    rewrite (bind_inr _ _ _ _ _ Hreport).
    rewrite (bind_inr _ _ _ _ _
               (save_individual_results_txt_run rt fp results st4 Hw
                  Hshaped)).
    unfold ret. reflexivity.
  - erewrite new_events_app.
    2:{ cbn [events]. subst st4 st3. cbn [events].
        rewrite Hst2. rewrite <- !app_assoc. reflexivity. }
    cbn [app written_paths]. rewrite individual_writes_paths.
    reflexivity.
  - rewrite Htotal. rewrite Hlen. reflexivity.
  - rewrite length_map. exact Hlen.
Qed.

End OcrUI.

Section OcrUIFailures.
Variable rt : runtime.




Lemma process_image_cpu_fails self image_path task_type output_format
    max_new_tokens custom_prompt st :
  GutenOCREngine.use_cpu self = true ->
  exists e st',
    GutenOCREngine.process_image rt self image_path task_type output_format
      max_new_tokens custom_prompt st
    = (inr (ocr_failure image_path e), st').
Proof.
  intros Hcpu.
  unfold GutenOCREngine.process_image, GutenOCREngine.process_image_try,
    GutenOCREngine.process_image_except, GutenOCREngine.inputs_input_ids.
  rewrite Hcpu. unfold_monad. cbn.
  destruct (rt_image_open rt (events st) image_path) as [e|[]]; cbn;
    [do 2 eexists; reflexivity|].
  destruct (rt_encode rt _ _ _) as [e|input_ids]; cbn;
    [do 2 eexists; reflexivity|].
  destruct (rt_generate rt _ _ _ _) as [e|generated_ids]; cbn;
    [do 2 eexists; reflexivity|].
  exists (Exn AttributeError "'dict' object has no attribute 'input_ids'").
  eexists. reflexivity.
Qed.

(** The engine a constructor returns has the [use_cpu] it was given. *)
Lemma engine_init_use_cpu h model_id device use_cpu dtype_arg eng :
  EngineSetup.init h model_id device use_cpu dtype_arg = inr eng ->
  GutenOCREngine.use_cpu (EngineSetup.engine eng) = use_cpu.
Proof.
  unfold EngineSetup.init, guard.
  destruct (EngineSetup._load_model h _); [discriminate|].
  destruct (host_load_processor h model_id); [discriminate|].
  intros H. inversion H.
  destruct (use_cpu || negb (host_cuda_available h))%bool; reflexivity.
Qed.

(** X22: "Force CPU Usage" in the OCR UI.  When a fresh UI has loaded its
    engine with the box ticked, whichever model was chosen and whatever
    the host, every image that is processed afterwards is shown as
    failed. *)
Theorem ui_force_cpu_fails_every_image h self model_choice self' status
    image_path task_type output_format st :
  GutenOCRUI.engine self = None ->
  GutenOCRUI.initialize_engine rt h self model_choice true
  = (self', status) ->
  GutenOCRUI.engine self' <> None ->
  exists msg st',
    GutenOCRUI.process_single_image rt self' image_path task_type
      output_format st
    = (inr (PStr ("Error: " ++ msg), "✗ Processing failed"), st').
Proof.
  intros Hfresh Hinit Hloaded.
  unfold GutenOCRUI.initialize_engine in Hinit.
  destruct (EngineSetup.init h _ "auto" true None) as [e|eng] eqn:Einit;
    inversion Hinit; subst self' status; [congruence|].
  assert (Hcpu : GutenOCREngine.use_cpu (EngineSetup.engine eng) = true).
  { apply (engine_init_use_cpu _ _ _ _ _ _ Einit). }
  unfold GutenOCRUI.process_single_image. cbn [GutenOCRUI.engine].
  destruct (process_image_cpu_fails (EngineSetup.engine eng) image_path
              (GutenOCRUI.task_key task_type) output_format 4096%Z None st
              Hcpu)
    as (e & st' & Hrun).
  unfold try_except. rewrite (bind_inr _ _ _ _ _ Hrun).
  do 2 eexists. reflexivity.
Qed.

End OcrUIFailures.

(* ================================================================== *)
(** * docling_gradio_ui.py                                             *)
(* ================================================================== *)

Section DoclingUI.
Variable rt : runtime.

(** What [process_document] returns, with the shapes of its payloads. *)
Lemma process_document_result self file_path extract_structure
    extract_tables ocr_images st :
  exists od og st',
    DoclingGutenOCRProcessor.process_document rt self file_path
      extract_structure extract_tables ocr_images st
    = (inr (document_result rt file_path (rt_isoformat rt (clock st))
              od og), st')
    /\ (forall d, od = Some d -> docling_shaped d)
    /\ (forall g, og = Some g -> ocr_shaped g).
Proof.
  destruct (process_document_run rt self file_path extract_structure
              extract_tables ocr_images st)
    as (od & og & st' & Hrun & Hod & Hog).
  exists od, og, st'. split; [exact Hrun|]. split.
  - intros d ->.
    destruct (DoclingGutenOCRProcessor.use_docling self
              && extract_structure)%bool.
    + destruct Hod as (d' & Hd & _ & Hshaped). congruence.
    + destruct Hod as [Hd _]. discriminate.
  - intros g ->. destruct ocr_images.
    + destruct Hog as (g' & Hg & _ & Hshaped). congruence.
    + destruct Hog as [Hg _]. discriminate.
Qed.

Lemma combined_text_is_str od og :
  (forall d, od = Some d -> docling_shaped d) ->
  (forall g, og = Some g -> ocr_shaped g) ->
  exists s, combined_text_of rt od og = PStr s.
Proof.
  intros Hod Hog. destruct od as [d|], og as [g|]; cbn.
  - eexists. reflexivity.
  - destruct (Hod d eq_refl)
      as [(e & ->)|(text & pages & tables & metadata & -> & _)];
      eexists; reflexivity.
  - destruct (Hog g eq_refl)
      as [(p & e & ->)|(p & t & f & text & q & ->)];
      eexists; reflexivity.
  - eexists. reflexivity.
Qed.

Lemma mode_of_document_result file_path timestamp od og st :
  DoclingGutenOCRUI.mode_of
    (document_result rt file_path timestamp od og) st
  = (inr (dict_get_or (metadata_of od og) "processing_mode"
            (PStr "unknown")), st).
Proof. reflexivity. Qed.

Lemma format_result_run file_path timestamp od og st :
  (forall d, od = Some d -> docling_shaped d) ->
  (forall g, og = Some g -> ocr_shaped g) ->
  exists text,
    DoclingGutenOCRUI._format_result rt
      (document_result rt file_path timestamp od og) st
    = (inr text, st).
Proof.
  intros Hod Hog.
  destruct (combined_text_is_str od og Hod Hog) as (s & Hs).
  unfold DoclingGutenOCRUI._format_result.
  change (dict_get (document_result rt file_path timestamp od og)
            "file_path") with (PStr file_path).
  change (dict_get (document_result rt file_path timestamp od og)
            "combined_text") with (combined_text_of rt od og).
  rewrite Hs.
  unfold as_path. unfold bind at 1. unfold ret at 1.
  rewrite (bind_inr _ _ _ _ _
             (mode_of_document_result file_path timestamp od og st)).
  destruct (truthy (PStr s)); eexists; reflexivity.
Qed.

(** X23: [process_single_document] of the Docling UI never shows
    "Processing failed".  For an uploaded file and an initialised
    processor it always formats the result and tries to save it, also
    when the converter and the model both failed: it shows the status of
    a processed document once the JSON file is written, and the error of
    [open] otherwise. *)
Theorem process_single_document_never_shows_failure self p name
    extract_structure extract_tables ocr_images st :
  DoclingGutenOCRUI.processor self = Some p ->
  exists result st1 shown st',
    DoclingGutenOCRProcessor.process_document rt
      (ProcessorSetup.processor p) name extract_structure extract_tables
      ocr_images st = (inr result, st1)
    /\ DoclingGutenOCRUI.process_single_document rt self (Some name)
         extract_structure extract_tables ocr_images st
       = (inr shown, st')
    /\ let output_file :=
         path_join (DoclingGutenOCRUI.output_dir self)
           ("docling_result_" ++ rt_strftime rt (clock st1) ++ ".json") in
       match rt_open_w rt (events st1) output_file with
       | None =>
           (exists mode text,
               shown = (DoclingGutenOCRUI.saved_status rt name mode
                          output_file,
                        Some text, Some output_file))
           /\ new_events st1 st'
              = [ EvWrite output_file (FJson (PDict result)) ]
       | Some e =>
           shown = ("❌ Error: " ++ exn_msg e, None, None)
           /\ new_events st1 st' = []
       end.
Proof.
  intros Hp.
  destruct (process_document_result (ProcessorSetup.processor p) name
              extract_structure extract_tables ocr_images st)
    as (od & og & st1 & Hrun & Hod & Hog).
  set (result := document_result rt name (rt_isoformat rt (clock st)) od og)
    in *.
  destruct (format_result_run name (rt_isoformat rt (clock st)) od og st1
              Hod Hog) as (text & Htext).
  fold result in Htext.
  exists result, st1.
  assert (Hui : DoclingGutenOCRUI.process_single_document rt self
                  (Some name) extract_structure extract_tables ocr_images st
                = try_except
                    (output_text <- DoclingGutenOCRUI._format_result rt
                                      result ;;
                     n <- now ;;
                     let output_file :=
                       path_join (DoclingGutenOCRUI.output_dir self)
                         ("docling_result_" ++ rt_strftime rt n ++ ".json")
                     in
                     with_open_w rt output_file (FJson (PDict result))
                       None ;;;
                     mode <- DoclingGutenOCRUI.mode_of result ;;
                     ret (DoclingGutenOCRUI.saved_status rt name mode
                            output_file,
                          Some output_text, Some output_file))
                    (fun e => ret ("❌ Error: " ++ exn_msg e, None, None))
                    st1).
  { unfold DoclingGutenOCRUI.process_single_document. rewrite Hp.
    unfold try_except. rewrite (bind_inr _ _ _ _ _ Hrun). reflexivity. }
  rewrite Hui. clear Hui.
  unfold try_except. rewrite (bind_inr _ _ _ _ _ Htext).
  rewrite (bind_inr _ _ _ _ _ (now_run st1)).
  cbv zeta. unfold with_open_w. unfold bind at 1. unfold bind at 1.
  unfold ask at 1. cbn [docling_start now snd events].
  destruct (rt_open_w rt (events st1) _) as [e|] eqn:Eopen.
  - unfold raise, ret. do 2 eexists. split; [exact Hrun|].
    split; [reflexivity|].
    split; [reflexivity|].
    apply new_events_app. cbn. now rewrite app_nil_r.
  - unfold bind at 1. unfold emit at 1. unfold ret at 1.
    unfold bind at 1.
    pose proof (mode_of_document_result name (rt_isoformat rt (clock st))
                  od og) as Hmode.
    fold result in Hmode. rewrite Hmode.
    unfold ret. do 2 eexists. split; [exact Hrun|].
    split; [reflexivity|].
    split; [do 2 eexists; reflexivity|].
    apply new_events_app. reflexivity.
Qed.

(** Every result of a batch is a result of [process_document]. *)
Lemma combined_batch_results self input_dir output_dir extract_structure
    extract_tables ocr_images st results st' :
  DoclingGutenOCRProcessor.batch_process rt self input_dir output_dir
    extract_structure extract_tables ocr_images st = (inr results, st') ->
  Forall (fun r => exists file_path timestamp od og,
                     r = document_result rt file_path timestamp od og)
    results.
Proof.
  intros Hrun.
  set (f := fun file_path =>
              DoclingGutenOCRProcessor.process_document rt self file_path
                extract_structure extract_tables ocr_images).
  set (P := fun (file_path : string) (_ : state) (r : pydict) =>
              exists timestamp od og,
                r = document_result rt file_path timestamp od og).
  assert (Hf : forall a st0, exists b st2, f a st0 = (inr b, st2) /\ P a st0 b).
  { intros a st0.
    destruct (process_document_result self a extract_structure
                extract_tables ocr_images st0)
      as (od & og & st2 & Hr & _).
    do 2 eexists. split; [exact Hr|]. do 3 eexists. reflexivity. }
  destruct (discover_images_returns rt
              (FileProcessor.Processor input_dir output_dir) true st)
    as (files & Hdisc).
  destruct (mapM_processed f P Hf files st)
    as (rs & st1 & Hloop & Hturn).
  unfold DoclingGutenOCRProcessor.batch_process in Hrun.
  rewrite (bind_inr _ _ _ _ _ Hdisc) in Hrun. fold f in Hrun.
  rewrite (bind_inr _ _ _ _ _ Hloop) in Hrun.
  unfold with_open_w, bind, ret, raise, ask, emit, now in Hrun.
  cbn in Hrun.
  destruct (rt_open_w rt (events st1) _); cbn in Hrun; [discriminate|].
  inversion Hrun; subst. clear Hrun Hloop Hdisc.
  induction Hturn as [|a l s b s1 bs s2 _ (ts & od & og & ->) _ IH];
    [constructor|].
  constructor; [do 4 eexists; reflexivity|exact IH].
Qed.

Lemma batch_lines_run :
  forall results st,
    Forall (fun r => exists file_path timestamp od og,
                       r = document_result rt file_path timestamp od og)
      results ->
    exists lines,
      mapM (DoclingGutenOCRUI.batch_line rt) results st = (inr lines, st)
      /\ Forall2 (fun (r : pydict) line =>
                    exists rest, line = nl ++ "✅" ++ rest)
           results lines.
Proof.
  induction results as [|r results IH]; intros st H.
  - exists []. split; [reflexivity|constructor].
  - inversion H as [|? ? (fp & ts & od & og & ->) Hrest]; subst.
    destruct (IH st Hrest) as (lines & Hrun & Hlines).
    cbn [mapM]. unfold bind at 1.
    change (DoclingGutenOCRUI.batch_line rt
              (document_result rt fp ts od og) st)
      with (@inr exn string
              (nl ++ "✅" ++ " " ++ path_name fp ++ " ("
               ++ py_str rt (dict_get_or (metadata_of od og)
                               "processing_mode" (PStr "unknown"))
               ++ ")"), st).
    cbv beta iota.
    rewrite (bind_inr _ _ _ _ _ Hrun). eexists. split; [reflexivity|].
    constructor; [eexists; reflexivity|exact Hlines].
Qed.

(** X24: the combined [batch_process] opens its output file after the
    loop, in a directory it has not made.  When that file cannot be
    opened, the call raises the error of [open] once every discovered
    file has been processed: the results are neither returned nor
    written. *)
Theorem combined_batch_unwritable_output self input_dir output_dir
    extract_structure extract_tables ocr_images files results st st1 e :
  FileProcessor.discover_images rt
    (FileProcessor.Processor input_dir output_dir) true st
  = (inr files, st) ->
  mapM (fun file_path =>
          DoclingGutenOCRProcessor.process_document rt self file_path
            extract_structure extract_tables ocr_images)
    files st = (inr results, st1) ->
  rt_open_w rt (events st1) (combined_results_path rt output_dir st1)
  = Some e ->
  exists st',
    DoclingGutenOCRProcessor.batch_process rt self input_dir output_dir
      extract_structure extract_tables ocr_images st = (inl e, st')
    /\ new_events st1 st' = []
    /\ List.length results = List.length files.
Proof.
  intros Hdisc Hloop Hopen.
  unfold DoclingGutenOCRProcessor.batch_process.
  rewrite (bind_inr _ _ _ _ _ Hdisc).
  rewrite (bind_inr _ _ _ _ _ Hloop).
  rewrite (bind_inr _ _ _ _ _ (now_run st1)).
  unfold combined_results_path in Hopen.
  unfold with_open_w. unfold_monad. cbn [docling_start now snd events].
  rewrite Hopen. eexists. split; [reflexivity|]. split.
  - apply new_events_app. cbn. now rewrite app_nil_r.
  - set (f := fun file_path =>
                DoclingGutenOCRProcessor.process_document rt self file_path
                  extract_structure extract_tables ocr_images) in *.
    assert (Hf : forall a st0, exists b st2,
                   f a st0 = (inr b, st2) /\ True).
    { intros a st0.
      destruct (process_document_result self a extract_structure
                  extract_tables ocr_images st0)
        as (od & og & st2 & Hr & _).
      eauto. }
    destruct (mapM_processed f (fun _ _ _ => True) Hf files st)
      as (rs & st2 & Hloop' & Hturn).
    rewrite Hloop in Hloop'. inversion Hloop'; subst rs st2.
    apply (processed_in_turn_length _ _ _ _ _ _ Hturn).
Qed.

(** X25: the summary of [batch_process_documents] never shows a failed
    file.  Once the combined [batch_process] has returned, the summary
    counts every file as successful and none as failed, and every line of
    the list of files starts with the tick of a success, whatever
    happened to the converter and to the model on that file. *)
Theorem batch_process_documents_ticks_every_file self p extract_structure
    extract_tables ocr_images st results st' :
  DoclingGutenOCRUI.processor self = Some p ->
  DoclingGutenOCRProcessor.batch_process rt (ProcessorSetup.processor p)
    (DoclingGutenOCRUI.input_dir self) (DoclingGutenOCRUI.output_dir self)
    extract_structure extract_tables ocr_images st = (inr results, st') ->
  exists lines,
    DoclingGutenOCRUI.batch_process_documents rt self extract_structure
      extract_tables ocr_images st
    = (inr (fold_left append lines
              (DoclingGutenOCRUI.batch_head self results)), st')
    /\ Forall2 (fun (r : pydict) line =>
                  exists rest, line = nl ++ "✅" ++ rest)
         results lines
    /\ DoclingGutenOCRUI.batch_head self results
       = join nl
           [ "✅ Batch processing complete!";
             "";
             "**Statistics:**";
             "- Total files: " ++ string_of_nat (List.length results);
             "- Successful: " ++ string_of_nat (List.length results);
             "- Failed: 0";
             "";
             "**Results saved to:** " ++ DoclingGutenOCRUI.output_dir self;
             "";
             "**Processed files:**";
             "" ].
Proof.
  intros Hp Hrun.
  pose proof (combined_batch_results _ _ _ _ _ _ _ _ _ Hrun) as Hshape.
  destruct (batch_lines_run results st' Hshape) as (lines & Hlines & Hticks).
  exists lines. split; [|split; [exact Hticks|]].
  - unfold DoclingGutenOCRUI.batch_process_documents. rewrite Hp.
    unfold try_except. rewrite (bind_inr _ _ _ _ _ Hrun).
    rewrite (bind_inr _ _ _ _ _ Hlines). reflexivity.
  - assert (Hall : filter (fun r => truthy (dict_get r "success")) results
                   = results).
    { clear Hrun Hlines Hticks.
      induction Hshape as [|r l (fp & ts & od & og & ->) _ IH];
        [reflexivity|].
      cbn. f_equal. exact IH. }
    unfold DoclingGutenOCRUI.batch_head. rewrite Hall, Nat.sub_diag.
    reflexivity.
Qed.

End DoclingUI.

(* ================================================================== *)
(** * The file writers and the UIs at work                             *)
(* ================================================================== *)

Lemma save_individual_results_last_stem_wins_witness :
  exists st' n,
    FileProcessorIO.save_individual_results Demo.rt Demo.files
      [ ocr_success "scans/a.png" "reading" "TEXT" "Hello world" "Read.";
        ocr_failure "photos/a.jpg" (Exn OSError "No such file");
        ocr_success "b.png" "reading" "TEXT" "Hello" "Read." ]
      "txt" Demo.start
    = (inr [ "output/a_20250101_000000.txt";
             "output/a_20250101_000000.txt";
             "output/b_20250101_000000.txt" ], st')
    /\ file_at (events st') "output/a_20250101_000000.txt"
       = Some (FText (fst (FileProcessorIO.individual_txt Demo.rt
                             (ocr_failure "photos/a.jpg"
                                (Exn OSError "No such file")) n))).
Proof.
  destruct (save_individual_results_last_stem_wins Demo.rt Demo.files
              [ ocr_success "scans/a.png" "reading" "TEXT" "Hello world"
                  "Read." ]
              (ocr_failure "photos/a.jpg" (Exn OSError "No such file"))
              [ ocr_success "b.png" "reading" "TEXT" "Hello" "Read." ]
              Demo.start)
    as (st' & n & Hrun & _ & Hfile & _).
  - intros history name. reflexivity.
  - constructor; [apply ocr_success_shaped|].
    constructor; [apply ocr_failure_shaped|].
    constructor; [apply ocr_success_shaped|constructor].
  - constructor; [vm_compute; discriminate|constructor].
  - exists st', n. split; [exact Hrun|exact Hfile].
Defined.

Lemma save_individual_results_unknown_format_witness :
  exists e st',
    FileProcessorIO.save_individual_results Demo.rt Demo.files
      [ ocr_success "a.png" "reading" "TEXT" "Hello world" "Read." ]
      "csv" Demo.start = (inl e, st')
    /\ exn_cls e = UnboundLocalError.
Proof.
  destruct (save_individual_results_unknown_format Demo.rt Demo.files
              [ ocr_success "a.png" "reading" "TEXT" "Hello world" "Read." ]
              "csv" Demo.start)
    as (outcome & st' & Hrun & _ & e & -> & _ & Hcls).
  - discriminate.
  - discriminate.
  - exists e, st'. split; [exact Hrun|].
    apply Hcls. apply ocr_success_shaped.
Defined.

Lemma process_batch_complete_witness :
  exists report st',
    GutenOCRUI.process_batch Demo.rt demo_ui "Reading" "TEXT" "JSON"
      Demo.start = (inr report, st')
    /\ exists st1,
         written_paths (new_events st1 st')
         = [ "output/ocr_results_20250101_000000.json";
             "output/summary_report_20250101_000002.txt";
             "output/a_20250101_000003.txt";
             "output/b_20250101_000003.txt";
             "output/c_20250101_000003.txt";
             "output/d_20250101_000003.txt" ].
Proof.
  destruct (process_batch_complete Demo.rt demo_ui
              (EngineSetup.Loaded Demo.engine bfloat16) "Reading" "TEXT"
              "JSON"
              [ "input/a.tif"; "input/b.png"; "input/scans/c.PDF";
                "input/scans/d.jpeg" ]
              Demo.start)
    as (results & st1 & stats & st' & Hturn & Hrun & Hpaths & _).
  - reflexivity.
  - intros history name. reflexivity.
  - left. reflexivity.
  - vm_compute. reflexivity.
  - discriminate.
  - eexists. exists st'. split; [exact Hrun|].
    exists st1. rewrite Hpaths.
    inversion Hturn as [|? ? ? r1 s1 ? ? H1 _ Hturn1]; subst.
    inversion Hturn1 as [|? ? ? r2 s2 ? ? H2 _ Hturn2]; subst.
    inversion Hturn2 as [|? ? ? r3 s3 ? ? H3 _ Hturn3]; subst.
    inversion Hturn3 as [|? ? ? r4 s4 ? ? H4 _ Hturn4]; subst.
    inversion Hturn4; subst.
    vm_compute in H1. inversion H1; subst r1 s1.
    vm_compute in H2. inversion H2; subst r2 s2.
    vm_compute in H3. inversion H3; subst r3 s3.
    vm_compute in H4. inversion H4; subst r4 st1.
    reflexivity.
Defined.



Lemma ui_force_cpu_fails_every_image_witness :
  exists msg st',
    GutenOCRUI.process_single_image Demo.rt
      (fst (GutenOCRUI.initialize_engine Demo.rt demo_host
              (GutenOCRUI.UI None Demo.files None false)
              "GutenOCR-7B (More Accurate)" true))
      "b.png" "Reading" "TEXT" Demo.start
    = (inr (PStr ("Error: " ++ msg), "✗ Processing failed"), st').
Proof.
  apply (ui_force_cpu_fails_every_image Demo.rt demo_host
           (GutenOCRUI.UI None Demo.files None false)
           "GutenOCR-7B (More Accurate)" _
           (snd (GutenOCRUI.initialize_engine Demo.rt demo_host
                   (GutenOCRUI.UI None Demo.files None false)
                   "GutenOCR-7B (More Accurate)" true))).
  - reflexivity.
  - vm_compute. reflexivity.
  - vm_compute. discriminate.
Defined.

Lemma process_single_document_never_shows_failure_witness :
  exists shown st',
    DoclingGutenOCRUI.process_single_document Demo.rt demo_docling_ui
      (Some "broken.pdf") true true false Demo.start = (inr shown, st')
    /\ snd shown = Some "output/docling_result_20250101_000001.json".
Proof.
  destruct (process_single_document_never_shows_failure Demo.rt
              demo_docling_ui
              (ProcessorSetup.Loaded Demo.processor
                 (EngineSetup.Loaded Demo.engine bfloat16))
              "broken.pdf" true true false Demo.start eq_refl)
    as (result & st1 & shown & st' & Hdoc & Hrun & Hshown).
  exists shown, st'. split; [exact Hrun|].
  vm_compute in Hdoc. inversion Hdoc; subst result st1.
  cbv zeta in Hshown. vm_compute in Hshown.
  destruct Hshown as [(mode & text & ->) _]. reflexivity.
Defined.

Lemma batch_process_documents_ticks_every_file_witness :
  exists lines st',
    DoclingGutenOCRUI.batch_process_documents Demo.rt demo_docling_ui true
      true true Demo.start
    = (inr (fold_left append lines
              (join nl
                 [ "✅ Batch processing complete!";
                   "";
                   "**Statistics:**";
                   "- Total files: 4";
                   "- Successful: 4";
                   "- Failed: 0";
                   "";
                   "**Results saved to:** output";
                   "";
                   "**Processed files:**";
                   "" ])), st').
Proof.
  destruct demo_batch_returns as (results & st' & Hbatch & Hlen).
  destruct (batch_process_documents_ticks_every_file Demo.rt
              demo_docling_ui
              (ProcessorSetup.Loaded Demo.processor
                 (EngineSetup.Loaded Demo.engine bfloat16))
              true true true Demo.start results st' eq_refl Hbatch)
    as (lines & Hrun & _ & Hhead).
  exists lines, st'. rewrite Hrun, Hhead, Hlen. reflexivity.
Defined.

Lemma combined_batch_unwritable_output_witness :
  exists e st',
    DoclingGutenOCRProcessor.batch_process Demo.rt Demo.processor "input"
      "/readonly/out" true true true Demo.start = (inl e, st')
    /\ exn_cls e = OSError.
Proof.
  destruct (combined_batch_unwritable_output Demo.rt Demo.processor "input"
              "/readonly/out" true true true
              [ "input/a.tif"; "input/b.png"; "input/scans/c.PDF";
                "input/scans/d.jpeg" ]
              (match fst (mapM (fun file_path =>
                                  DoclingGutenOCRProcessor.process_document
                                    Demo.rt Demo.processor file_path true
                                    true true)
                            [ "input/a.tif"; "input/b.png";
                              "input/scans/c.PDF"; "input/scans/d.jpeg" ]
                            Demo.start) with
               | inr results => results
               | inl _ => []
               end)
              Demo.start
              (snd (mapM (fun file_path =>
                            DoclingGutenOCRProcessor.process_document
                              Demo.rt Demo.processor file_path true true
                              true)
                      [ "input/a.tif"; "input/b.png"; "input/scans/c.PDF";
                        "input/scans/d.jpeg" ]
                      Demo.start))
              (Exn OSError "Read-only file system"))
    as (st' & Hrun & _).
  - vm_compute. reflexivity.
  - vm_compute. reflexivity.
  - vm_compute. reflexivity.
  - eexists. exists st'. split; [exact Hrun|reflexivity].
Defined.
